(** * Misol WH24P weather-station decoder: frame check, decoding, watchdog

    A shallow embedding of the two versions of [weather_station.cpp] of the
    ESPHome component: the older one (namespace [esphome::misol], file
    [src/components/misol_weather/weather_station.cpp]) and the newer one
    (namespace [esphome::misol_weather], file [src/unnamed/part_000], the
    version the header [weather_station.h] belongs to).

    Modelling choices, fixed once for the whole development:
    - a byte is a [Byte.byte]; its value is [u8 b], an integer in [0, 256);
    - a buffer [data] of [len] bytes is a [list byte]; reading [data[i]]
      outside the buffer is undefined behaviour in C++ and is a failure
      ([None]) here;
    - [uintN_t] values are [Z] with the wrap-around written as [mod 2^N];
    - [float]/[double] values are exact rationals ([Q]); [NAN] is the
      separate constructor [NaN] of [reading], so rounding is not modelled;
    - a [steady_clock::time_point] is the number of nanoseconds since the
      clock's epoch, a [std::chrono] duration is a count of its own unit;
    - a sensor pointer is a [bool]: [true] when the sensor is configured,
      [false] when the pointer is [nullptr];
    - [publish_state] appends to a log of publications;
    - the build has [USE_SENSOR] and [USE_BINARY_SENSOR] defined; the
      [USE_TEXT_SENSOR] blocks of the older file and the description tables
      they call are modelled on their own, in [misol_text], with a log of
      their own. *)

From Stdlib Require Import ZArith QArith List Bool Lia.
From Stdlib Require Import Strings.Byte.
Import ListNotations.
Local Open Scope Z_scope.

(** ** Bytes and fixed-width integers *)

Definition u8 (b : byte) : Z := Z.of_N (Byte.to_N b).

Definition uint8_t (z : Z) : Z := z mod 2 ^ 8.
Definition uint16_t (z : Z) : Z := z mod 2 ^ 16.
Definition uint32_t (z : Z) : Z := z mod 2 ^ 32.


(** ** Published values *)

Inductive reading : Type :=
| NaN : reading
| Val : Q -> reading.

Definition is_nan (r : reading) : bool :=
  match r with NaN => true | Val _ => false end.

Definition Qltb (x y : Q) : bool := negb (Qle_bool y x).


Inductive sensor_id : Type :=
| temperature_sensor | humidity_sensor | pressure_sensor | wind_speed_sensor
| wind_gust_sensor | wind_direction_degrees_sensor
| accumulated_precipitation_sensor | uv_intensity_sensor | uv_index_sensor
| light_sensor | precipitation_intensity_sensor.

Inductive binary_sensor_id : Type :=
| battery_level_binary_sensor | night_binary_sensor.

Inductive publication : Type :=
| Sensor : sensor_id -> reading -> publication
| BinarySensor : binary_sensor_id -> bool -> publication.

(** ** A state-and-failure monad for the member functions *)

Definition M (W A : Type) : Type := W -> option (A * W).

Definition ret {W A} (a : A) : M W A := fun w => Some (a, w).

Definition bind {W A B} (c : M W A) (k : A -> M W B) : M W B :=
  fun w => match c w with
           | Some (a, w') => k a w'
           | None => None
           end.

Definition fail {W A} : M W A := fun _ => None.

Definition gets {W A} (f : W -> A) : M W A := fun w => Some (f w, w).

Definition modify {W} (f : W -> W) : M W unit := fun w => Some (tt, f w).

Definition when {W} (c : bool) (body : M W unit) : M W unit :=
  if c then body else ret tt.

Declare Scope monad_scope.
Delimit Scope monad_scope with monad.
Notation "x <- c ;; k" := (bind c (fun x => k))
  (at level 61, c at next level, right associativity) : monad_scope.
Notation "c ;; k" := (bind c (fun _ => k))
  (at level 61, right associativity) : monad_scope.
Local Open Scope monad_scope.

(** ** Frame validation: [WeatherStation::check_packet_]

    The function has the same text in both versions.  It runs over the
    buffer and a trace of the indices read so far (most recent first). *)

Inductive PacketType : Type :=
| WRONG_PACKET
| BASIC_PACKET
| BASIC_WITH_PRESSURE.

Definition PacketType_eqb (a b : PacketType) : bool :=
  match a, b with
  | WRONG_PACKET, WRONG_PACKET => true
  | BASIC_PACKET, BASIC_PACKET => true
  | BASIC_WITH_PRESSURE, BASIC_WITH_PRESSURE => true
  | _, _ => false
  end.

(** [data[i]], recording the access. *)
Definition read (data : list byte) (i : nat) : M (list nat) Z :=
  fun trace => match nth_error data i with
               | Some b => Some (u8 b, i :: trace)
               | None => None
               end.

(** [for (int i = from; i < from + n; i++) checksum += data[i];] with
    [uint8_t checksum]. *)
Fixpoint checksum_loop (data : list byte) (idx : list nat) (checksum : Z)
  : M (list nat) Z :=
  match idx with
  | [] => ret checksum
  | i :: rest =>
      d <- read data i ;;
      checksum_loop data rest (uint8_t (checksum + d))
  end.

(** [WeatherStation::check_packet_]: lines 151-181 of the older file, lines
    88-118 of the newer one. *)
Definition check_packet_ (data : list byte) (len : nat) : M (list nat) PacketType :=
  if (len <? 17)%nat then ret WRONG_PACKET else
  d0 <- read data 0 ;;
  if negb (d0 =? 0x24) then ret WRONG_PACKET else
  checksum <- checksum_loop data (seq 0 16) 0 ;;
  d16 <- read data 16 ;;
  if negb (checksum =? d16) then ret WRONG_PACKET else
  if (17 <? len)%nat then
    if (len <? 21)%nat then ret BASIC_PACKET else
    checksum <- checksum_loop data (seq 17 3) 0 ;;
    d20 <- read data 20 ;;
    if negb (checksum =? d20) then ret BASIC_PACKET else
    ret BASIC_WITH_PRESSURE
  else ret BASIC_PACKET.

(** The words of the specification: byte [i] of a buffer and the mod-256 sum
    of the bytes at indices [lo, hi). *)
Definition byte_at (data : list byte) (i : nat) : Z := u8 (nth i data x00).

Definition sum_mod256 (data : list byte) (lo hi : nat) : Z :=
  fold_right (fun i acc => byte_at data i + acc) 0 (seq lo (hi - lo)) mod 256.

Definition classify (data : list byte) : PacketType :=
  if (length data <? 17)%nat then WRONG_PACKET
  else if negb (byte_at data 0 =? 0x24) then WRONG_PACKET
  else if negb (sum_mod256 data 0 16 =? byte_at data 16) then WRONG_PACKET
  else if (21 <=? length data)%nat && (sum_mod256 data 17 20 =? byte_at data 20)
       then BASIC_WITH_PRESSURE
  else BASIC_PACKET.

(** The indices [check_packet_] reads, most recent first, by the branch it
    leaves through. *)
Definition primary_reads : list nat := 16%nat :: rev (seq 0 16) ++ [0%nat].
Definition secondary_reads : list nat := 20%nat :: rev (seq 17 3) ++ primary_reads.

Definition check_packet_reads (data : list byte) : list nat :=
  if (length data <? 17)%nat then []
  else if negb (byte_at data 0 =? 0x24) then [0%nat]
  else if negb (sum_mod256 data 0 16 =? byte_at data 16) then primary_reads
  else if (21 <=? length data)%nat then secondary_reads
  else primary_reads.

(** ** Helpers shared by both versions of the member functions *)

(** [data[i]] inside [process_packet_]: a read outside the buffer fails. *)
Definition at_ {W} (data : list byte) (i : nat) : M W Z :=
  fun w => match nth_error data i with
           | Some b => Some (u8 b, w)
           | None => None
           end.

(** Runs a traced computation inside a member function, dropping the trace. *)
Definition untraced {W A} (c : M (list nat) A) : M W A :=
  fun w => match c [] with
           | Some (a, _) => Some (a, w)
           | None => None
           end.

(** [std::chrono::duration_cast<std::chrono::seconds>] of a nanosecond
    count: truncation toward zero. *)
Definition duration_cast_seconds (ns : Z) : Z := Z.quot ns 1000000000.

(** [COMMUNICATION_TIMOUT] and [PRECIPITATION_INTENSITY_INTERVAL], in
    milliseconds as declared. *)
Definition COMMUNICATION_TIMOUT : Z := 2 * 60 * 1000.
Definition PRECIPITATION_INTENSITY_INTERVAL : Z := 3 * 60 * 1000.

(** Comparisons between durations of different units are made in the finer
    unit. *)
Definition ns_gt_ms (ns ms : Z) : bool := ns >? ms * 1000000.
Definition s_gt_ms (s ms : Z) : bool := s * 1000 >? ms.

(** ** The newer version: namespace [esphome::misol_weather] *)

Module misol_weather.

(** Members of [WeatherStation] that are fixed once the component is set up:
    the sensor pointers and the configured thresholds and interval. *)
Record Config : Type := {
  temperature_sensor_ : bool;
  humidity_sensor_ : bool;
  pressure_sensor_ : bool;
  wind_speed_sensor_ : bool;
  wind_gust_sensor_ : bool;
  wind_direction_degrees_sensor_ : bool;
  accumulated_precipitation_sensor_ : bool;
  uv_intensity_sensor_ : bool;
  uv_index_sensor_ : bool;
  light_sensor_ : bool;
  precipitation_intensity_sensor_ : bool;
  battery_level_binary_sensor_ : bool;
  night_binary_sensor_ : bool;
  upper_night_threshold_ : Q;
  lower_night_threshold_ : Q;
  (* milliseconds; only ever set from an unsigned number of minutes *)
  precipitation_intensity_interval_ : Z
}.

(** Members of [WeatherStation] that [loop] changes. *)
Record State : Type := {
  first_data_received_ : bool;
  last_packet_time_ : Z;
  previous_precipitation_timestamp_ : Z;
  previous_precipitation_ : option Z
}.

(** The function-local statics of [detect_night]: one copy per process,
    shared by every [WeatherStation] instance. *)
Record Statics : Type := {
  previous_result : bool;
  first_run : bool
}.

Record World : Type := {
  station : State;
  statics : Statics;
  published : list publication
}.

(** The state of a freshly constructed object (member initialisers of the
    header; a default-constructed [time_point] is the epoch). *)
Definition initial_State : State :=
  {| first_data_received_ := false;
     last_packet_time_ := 0;
     previous_precipitation_timestamp_ := 0;
     previous_precipitation_ := None |}.

Definition initial_Statics : Statics :=
  {| previous_result := false; first_run := true |}.

Definition World_station (f : State -> State) (w : World) : World :=
  {| station := f (station w); statics := statics w; published := published w |}.

Definition World_publish (l : list publication) (w : World) : World :=
  {| station := station w; statics := statics w; published := published w ++ l |}.

Definition with_station (f : State -> State) : M World unit :=
  modify (World_station f).

(** Assignment to one member, the others unchanged. *)
Definition State_first_data_received_ (v : bool) (s : State) : State :=
  {| first_data_received_ := v;
     last_packet_time_ := last_packet_time_ s;
     previous_precipitation_timestamp_ := previous_precipitation_timestamp_ s;
     previous_precipitation_ := previous_precipitation_ s |}.

Definition State_last_packet_time_ (v : Z) (s : State) : State :=
  {| first_data_received_ := first_data_received_ s;
     last_packet_time_ := v;
     previous_precipitation_timestamp_ := previous_precipitation_timestamp_ s;
     previous_precipitation_ := previous_precipitation_ s |}.

Definition State_previous_precipitation_timestamp_ (v : Z) (s : State) : State :=
  {| first_data_received_ := first_data_received_ s;
     last_packet_time_ := last_packet_time_ s;
     previous_precipitation_timestamp_ := v;
     previous_precipitation_ := previous_precipitation_ s |}.

Definition State_previous_precipitation_ (v : option Z) (s : State) : State :=
  {| first_data_received_ := first_data_received_ s;
     last_packet_time_ := last_packet_time_ s;
     previous_precipitation_timestamp_ := previous_precipitation_timestamp_ s;
     previous_precipitation_ := v |}.

Definition set_first_data_received_ (v : bool) : M World unit :=
  with_station (State_first_data_received_ v).

Definition set_last_packet_time_ (v : Z) : M World unit :=
  with_station (State_last_packet_time_ v).

Definition set_previous_precipitation_timestamp_ (v : Z) : M World unit :=
  with_station (State_previous_precipitation_timestamp_ v).

Definition set_previous_precipitation_ (v : option Z) : M World unit :=
  with_station (State_previous_precipitation_ v).

Definition publish_state (p : publication) : M World unit :=
  modify (World_publish [p]).

Definition set_statics (v : Statics) : M World unit :=
  modify (fun w => {| station := station w;
                      statics := v;
                      published := published w |}).

(** [detect_night], lines 9-21. *)
Definition detect_night (uv_intensity lower_threshold upper_threshold : Q)
  : M World bool :=
  first_run_now <- gets (fun w => first_run (statics w)) ;;
  previous_result_now <- gets (fun w => previous_result (statics w)) ;;
  let result :=
    if first_run_now
    then Qltb uv_intensity ((lower_threshold + upper_threshold) / 2)%Q
    else if previous_result_now
         then Qltb uv_intensity upper_threshold
         else Qltb uv_intensity lower_threshold in
  let first_run' := if first_run_now then false else first_run_now in
  set_statics {| previous_result := result; first_run := first_run' |} ;;
  ret result.

(** [WeatherStation::reset_sub_entities_], lines 59-86. *)
Definition reset_sub_entities_ (cfg : Config) : M World unit :=
  when (temperature_sensor_ cfg)
    (publish_state (Sensor temperature_sensor NaN)) ;;
  when (humidity_sensor_ cfg)
    (publish_state (Sensor humidity_sensor NaN)) ;;
  when (pressure_sensor_ cfg)
    (publish_state (Sensor pressure_sensor NaN)) ;;
  when (wind_speed_sensor_ cfg)
    (publish_state (Sensor wind_speed_sensor NaN)) ;;
  when (wind_gust_sensor_ cfg)
    (publish_state (Sensor wind_gust_sensor NaN)) ;;
  when (wind_direction_degrees_sensor_ cfg)
    (publish_state (Sensor wind_direction_degrees_sensor NaN)) ;;
  when (accumulated_precipitation_sensor_ cfg)
    (publish_state (Sensor accumulated_precipitation_sensor NaN)) ;;
  when (uv_intensity_sensor_ cfg)
    (publish_state (Sensor uv_intensity_sensor NaN)) ;;
  when (light_sensor_ cfg)
    (publish_state (Sensor light_sensor NaN)) ;;
  when (uv_index_sensor_ cfg)
    (publish_state (Sensor uv_index_sensor NaN)) ;;
  when (precipitation_intensity_sensor_ cfg)
    (publish_state (Sensor precipitation_intensity_sensor NaN) ;;
     set_previous_precipitation_ None).

(** The precipitation block of [process_packet_], lines 178-196: returns
    [(precipitation_intensity_updated, precipitation_intensity)]. *)
Definition precipitation_update (cfg : Config) (accumulated_precipitation : Z) (now : Z)
  : M World (bool * reading) :=
  previous_precipitation <- gets (fun w => previous_precipitation_ (station w)) ;;
  previous_timestamp <- gets (fun w => previous_precipitation_timestamp_ (station w)) ;;
  match previous_precipitation with
  | Some previous =>
      let interval := duration_cast_seconds (now - previous_timestamp) in
      if s_gt_ms interval (precipitation_intensity_interval_ cfg) then
        let precipitation_intensity :=
          (inject_Z (accumulated_precipitation - previous) * (3 # 10)
           / (inject_Z interval / 3600))%Q in
        set_previous_precipitation_ (Some accumulated_precipitation) ;;
        set_previous_precipitation_timestamp_ now ;;
        ret (true, Val precipitation_intensity)
      else ret (false, NaN)
  | None =>
      set_previous_precipitation_ (Some accumulated_precipitation) ;;
      set_previous_precipitation_timestamp_ now ;;
      ret (false, NaN)
  end.

(** [WeatherStation::process_packet_], lines 120-233. *)
Definition process_packet_ (cfg : Config) (data : list byte) (len : nat)
    (has_pressure : bool) (now : Z) : M World unit :=
  when (pressure_sensor_ cfg)
    (if has_pressure then
       d17 <- at_ data 17 ;; d18 <- at_ data 18 ;; d19 <- at_ data 19 ;;
       let pressure :=
         (inject_Z (uint32_t (uint32_t (Z.shiftl d17 16) + uint32_t (Z.shiftl d18 8) + d19))
          / 100)%Q in
       publish_state (Sensor pressure_sensor (Val pressure))
     else publish_state (Sensor pressure_sensor NaN)) ;;
  when (wind_direction_degrees_sensor_ cfg)
    (d2 <- at_ data 2 ;; d3 <- at_ data 3 ;;
     let wind_direction := uint16_t (d2 + Z.shiftl (uint16_t (Z.land d3 0x80)) 1) in
     if negb (wind_direction =? 0x1FF)
     then publish_state (Sensor wind_direction_degrees_sensor (Val (inject_Z wind_direction)))
     else publish_state (Sensor wind_direction_degrees_sensor NaN)) ;;
  d3 <- at_ data 3 ;;
  let low_battery := negb (Z.land d3 0x08 =? 0) in
  when (battery_level_binary_sensor_ cfg)
    (publish_state (BinarySensor battery_level_binary_sensor low_battery)) ;;
  d4 <- at_ data 4 ;; d3 <- at_ data 3 ;;
  let tmp_val := uint16_t (d4 + Z.shiftl (uint16_t (Z.land d3 0x07)) 8) in
  let temperature :=
    if negb (tmp_val =? 0x7FF) then Val (inject_Z (tmp_val - 400) / 10)%Q else NaN in
  when (temperature_sensor_ cfg)
    (publish_state (Sensor temperature_sensor temperature)) ;;
  d5 <- at_ data 5 ;;
  let humidity := uint8_t d5 in
  when (humidity_sensor_ cfg)
    (publish_state (Sensor humidity_sensor (Val (inject_Z humidity)))) ;;
  d6 <- at_ data 6 ;; d3 <- at_ data 3 ;;
  let wind_speed_val := uint16_t (d6 + Z.shiftl (uint16_t (Z.land d3 0x10)) 4) in
  let wind_speed :=
    if negb (wind_speed_val =? 0x1FF)
    then Val (inject_Z wind_speed_val / 8 * (112 # 100))%Q else NaN in
  when (wind_speed_sensor_ cfg)
    (publish_state (Sensor wind_speed_sensor wind_speed)) ;;
  when (wind_gust_sensor_ cfg)
    (d7 <- at_ data 7 ;;
     let wind_gust := uint8_t d7 in
     if negb (wind_gust =? 0xFF)
     then publish_state (Sensor wind_gust_sensor (Val (inject_Z wind_gust * (112 # 100))%Q))
     else publish_state (Sensor wind_gust_sensor NaN)) ;;
  d9 <- at_ data 9 ;; d8 <- at_ data 8 ;;
  let accumulated_precipitation := uint16_t (d9 + Z.shiftl (uint16_t d8) 8) in
  r <- precipitation_update cfg accumulated_precipitation now ;;
  let precipitation_intensity_updated := fst r in
  let precipitation_intensity := snd r in
  when (accumulated_precipitation_sensor_ cfg)
    (publish_state (Sensor accumulated_precipitation_sensor
                      (Val (inject_Z accumulated_precipitation * (3 # 10))%Q))) ;;
  when (precipitation_intensity_sensor_ cfg && precipitation_intensity_updated)
    (publish_state (Sensor precipitation_intensity_sensor precipitation_intensity)) ;;
  d11 <- at_ data 11 ;; d10 <- at_ data 10 ;;
  let uv_intensity_val := uint32_t (d11 + Z.shiftl (uint16_t d10) 8) in
  let uv_intensity :=
    if negb (uv_intensity_val =? 0xFFFF)
    then Val (inject_Z uv_intensity_val / 10)%Q else NaN in
  when (uv_intensity_sensor_ cfg)
    (publish_state (Sensor uv_intensity_sensor uv_intensity)) ;;
  when (uv_index_sensor_ cfg)
    (if negb (is_nan uv_intensity) then
       let uv_index := uint8_t (uv_intensity_val / 400) in
       publish_state (Sensor uv_index_sensor (Val (inject_Z uv_index)))
     else publish_state (Sensor uv_index_sensor NaN)) ;;
  match uv_intensity with
  | Val uv =>
      when (night_binary_sensor_ cfg)
        (night <- detect_night uv (lower_night_threshold_ cfg) (upper_night_threshold_ cfg) ;;
         publish_state (BinarySensor night_binary_sensor night))
  | NaN => ret tt
  end ;;
  d14 <- at_ data 14 ;; d13 <- at_ data 13 ;; d12 <- at_ data 12 ;;
  let light_val := uint32_t (d14 + Z.shiftl d13 8 + Z.shiftl d12 16) in
  let light :=
    if negb (light_val =? 0xFFFFFF) then Val (inject_Z light_val / 10)%Q else NaN in
  when (light_sensor_ cfg)
    (publish_state (Sensor light_sensor light)).

(** [WeatherStation::loop], lines 32-57.  [now] is the one reading of the
    steady clock; [rx] holds the bytes the UART has available at this call
    ([available()] is its length, [read()] takes them in order). *)
Definition loop (cfg : Config) (now : Z) (rx : list byte) : M World unit :=
  first_data_received <- gets (fun w => first_data_received_ (station w)) ;;
  last_packet_time <- gets (fun w => last_packet_time_ (station w)) ;;
  when (first_data_received
        && ns_gt_ms (now - last_packet_time) COMMUNICATION_TIMOUT)
    (set_first_data_received_ false ;;
     reset_sub_entities_ cfg) ;;
  let size := length rx in
  when (0 <? size)%nat
    (let buffer := rx in
     set_first_data_received_ true ;;
     set_last_packet_time_ now ;;
     packet_type <- untraced (check_packet_ buffer size) ;;
     if negb (PacketType_eqb packet_type WRONG_PACKET)
     then process_packet_ cfg buffer size
            (PacketType_eqb packet_type BASIC_WITH_PRESSURE) now
     else ret tt).

(** *** Sessions: a station polled tick after tick *)

(** One call of [loop]: the clock reading and the bytes available. *)
Definition tick : Type := (Z * list byte)%type.

Fixpoint run (cfg : Config) (ticks : list tick) : M World unit :=
  match ticks with
  | [] => ret tt
  | (now, rx) :: rest => loop cfg now rx ;; run cfg rest
  end.

Definition initial_World : World :=
  {| station := initial_State; statics := initial_Statics; published := [] |}.

(** The condition of the timeout branch of [loop], on the state a tick
    starts from. *)
Definition timeout_fires (now : Z) (w : World) : bool :=
  first_data_received_ (station w)
  && ns_gt_ms (now - last_packet_time_ (station w)) COMMUNICATION_TIMOUT.

(** The bytes of a tick form a packet that [loop] hands to
    [process_packet_]. *)
Definition packet_accepted (rx : list byte) : bool :=
  (0 <? length rx)%nat && negb (PacketType_eqb (classify rx) WRONG_PACKET).

(** Which sensor pointer stands behind a numeric channel. *)
Definition configured (cfg : Config) (s : sensor_id) : bool :=
  match s with
  | temperature_sensor => temperature_sensor_ cfg
  | humidity_sensor => humidity_sensor_ cfg
  | pressure_sensor => pressure_sensor_ cfg
  | wind_speed_sensor => wind_speed_sensor_ cfg
  | wind_gust_sensor => wind_gust_sensor_ cfg
  | wind_direction_degrees_sensor => wind_direction_degrees_sensor_ cfg
  | accumulated_precipitation_sensor => accumulated_precipitation_sensor_ cfg
  | uv_intensity_sensor => uv_intensity_sensor_ cfg
  | uv_index_sensor => uv_index_sensor_ cfg
  | light_sensor => light_sensor_ cfg
  | precipitation_intensity_sensor => precipitation_intensity_sensor_ cfg
  end.

(** The numeric channels in the order [reset_sub_entities_] visits them. *)
Definition reset_order : list sensor_id :=
  [ temperature_sensor; humidity_sensor; pressure_sensor; wind_speed_sensor;
    wind_gust_sensor; wind_direction_degrees_sensor;
    accumulated_precipitation_sensor; uv_intensity_sensor; light_sensor;
    uv_index_sensor; precipitation_intensity_sensor ].

(** "No reading" on every configured numeric channel. *)
Definition reset_publications (cfg : Config) : list publication :=
  map (fun s => Sensor s NaN) (filter (configured cfg) reset_order).

(** The state the timeout branch of [loop] leaves. *)
Definition after_timeout (cfg : Config) (w : World) : World :=
  World_station
    (fun s => if precipitation_intensity_sensor_ cfg
              then State_previous_precipitation_ None s else s)
    (World_publish (reset_publications cfg)
       (World_station (State_first_data_received_ false) w)).

(** The state after the bookkeeping of lines 48-49. *)
Definition after_receipt (now : Z) (w : World) : World :=
  World_station (State_last_packet_time_ now)
    (World_station (State_first_data_received_ true) w).

(** The rain counter [process_packet_] extracts from a frame. *)
Definition rain_counter (rx : list byte) : Z :=
  uint16_t (byte_at rx 9 + Z.shiftl (uint16_t (byte_at rx 8)) 8).

(** The tick brings a valid counter reading: an accepted packet whose rain
    counter is not the sentinel. *)
Definition valid_counter_reading (rx : list byte) : bool :=
  packet_accepted rx && negb (rain_counter rx =? 0xFFFF).

(** No accepted packet of these ticks carries the sentinel as its counter. *)
Definition sentinel_free (ticks : list tick) : bool :=
  forallb (fun t => implb (packet_accepted (snd t))
                          (negb (rain_counter (snd t) =? 0xFFFF))) ticks.

(** Ghost of a session: whether a valid counter reading has been seen since
    the start or the last tick on which the timeout fired. *)
Fixpoint baseline_established (cfg : Config) (ticks : list tick) (w : World)
    (established : bool) : bool :=
  match ticks with
  | [] => established
  | (now, rx) :: rest =>
      let after_watchdog := if timeout_fires now w then false else established in
      let after_packet := if valid_counter_reading rx then true else after_watchdog in
      match loop cfg now rx w with
      | Some (_, w') => baseline_established cfg rest w' after_packet
      | None => after_packet
      end
  end.

(** The members and the log prefix a call of [process_packet_] keeps. *)
Definition kept (w0 : World) (w : World) : Prop :=
  first_data_received_ (station w) = first_data_received_ (station w0)
  /\ last_packet_time_ (station w) = last_packet_time_ (station w0)
  /\ exists l, published w = published w0 ++ l.

(** *** The night detector called repeatedly *)

Fixpoint detect_night_calls (calls : list (Q * Q * Q)) : M World (list bool) :=
  match calls with
  | [] => ret []
  | (uv_intensity, lower_threshold, upper_threshold) :: rest =>
      result <- detect_night uv_intensity lower_threshold upper_threshold ;;
      results <- detect_night_calls rest ;;
      ret (result :: results)
  end.

(** The words of the specification for calls after the first. *)
Fixpoint hysteresis (previous : bool) (calls : list (Q * Q * Q)) : list bool :=
  match calls with
  | [] => []
  | (uv_intensity, lower_threshold, upper_threshold) :: rest =>
      let result := if previous
                    then Qltb uv_intensity upper_threshold
                    else Qltb uv_intensity lower_threshold in
      result :: hysteresis result rest
  end.

(** The words of the specification for a fresh detector. *)
Definition night_results (calls : list (Q * Q * Q)) : list bool :=
  match calls with
  | [] => []
  | (uv_intensity, lower_threshold, upper_threshold) :: rest =>
      let result := Qltb uv_intensity ((lower_threshold + upper_threshold) / 2)%Q in
      result :: hysteresis result rest
  end.

(** *** Several stations in one process

    Every [WeatherStation] object has its own members and its own sensors;
    the statics of [detect_night] exist once. *)

Record Process : Type := {
  shared : Statics;
  instances : nat -> State * list publication
}.

Definition initial_Process : Process :=
  {| shared := initial_Statics; instances := fun _ => (initial_State, []) |}.

(** A tick of the process: the scheduler calls [loop] of one instance. *)
Definition process_tick : Type := (nat * Z * list byte)%type.

Definition instance_loop (cfgs : nat -> Config) (t : process_tick) (p : Process)
  : option Process :=
  let '(i, now, rx) := t in
  match loop (cfgs i) now rx
             {| station := fst (instances p i);
                statics := shared p;
                published := snd (instances p i) |} with
  | Some (_, w) =>
      Some {| shared := statics w;
              instances := fun j => if Nat.eqb j i
                                    then (station w, published w)
                                    else instances p j |}
  | None => None
  end.

Fixpoint run_process (cfgs : nat -> Config) (ticks : list process_tick) (p : Process)
  : option Process :=
  match ticks with
  | [] => Some p
  | t :: rest =>
      match instance_loop cfgs t p with
      | Some p' => run_process cfgs rest p'
      | None => None
      end
  end.

(** Two states of the world that agree on the station's members and on
    its log; the statics may differ. *)
Definition same_session (w1 w2 : World) : Prop :=
  station w1 = station w2 /\ published w1 = published w2.

(** The world instance [i] of a process runs in, over statics [g]. *)
Definition instance_World (p : Process) (i : nat) (g : Statics) : World :=
  {| station := fst (instances p i); statics := g; published := snd (instances p i) |}.

(** The ticks of instance [i], in order. *)
Definition ticks_of (i : nat) (ticks : list process_tick) : list tick :=
  map (fun t => (snd (fst t), snd t))
      (filter (fun t => Nat.eqb (fst (fst t)) i) ticks).

End misol_weather.

(** ** The older version: namespace [esphome::misol] *)

Module misol.

(** The sensor pointers this version's [weather_station.cpp] uses. *)
Record Config : Type := {
  temperature_sensor_ : bool;
  humidity_sensor_ : bool;
  pressure_sensor_ : bool;
  wind_speed_sensor_ : bool;
  wind_gust_sensor_ : bool;
  wind_direction_degrees_sensor_ : bool;
  accumulated_precipitation_sensor_ : bool;
  uv_intensity_sensor_ : bool;
  uv_index_sensor_ : bool;
  light_sensor_ : bool;
  precipitation_intensity_sensor_ : bool;
  battery_level_binary_sensor_ : bool
}.

(** Members that [loop] changes.  [previos_precipitation_] is a 16-bit
    counter whose value [0xFFFF] stands for "no previous value". *)
Record State : Type := {
  first_data_received_ : bool;
  last_packet_time_ : Z;
  previos_precipitation_timestamp_ : Z;
  previos_precipitation_ : Z
}.

Record World : Type := {
  station : State;
  published : list publication
}.

Definition World_station (f : State -> State) (w : World) : World :=
  {| station := f (station w); published := published w |}.

Definition World_publish (l : list publication) (w : World) : World :=
  {| station := station w; published := published w ++ l |}.

Definition with_station (f : State -> State) : M World unit :=
  modify (World_station f).

(** Assignment to one member, the others unchanged. *)
Definition State_first_data_received_ (v : bool) (s : State) : State :=
  {| first_data_received_ := v;
     last_packet_time_ := last_packet_time_ s;
     previos_precipitation_timestamp_ := previos_precipitation_timestamp_ s;
     previos_precipitation_ := previos_precipitation_ s |}.

Definition State_last_packet_time_ (v : Z) (s : State) : State :=
  {| first_data_received_ := first_data_received_ s;
     last_packet_time_ := v;
     previos_precipitation_timestamp_ := previos_precipitation_timestamp_ s;
     previos_precipitation_ := previos_precipitation_ s |}.

Definition State_previos_precipitation_timestamp_ (v : Z) (s : State) : State :=
  {| first_data_received_ := first_data_received_ s;
     last_packet_time_ := last_packet_time_ s;
     previos_precipitation_timestamp_ := v;
     previos_precipitation_ := previos_precipitation_ s |}.

Definition State_previos_precipitation_ (v : Z) (s : State) : State :=
  {| first_data_received_ := first_data_received_ s;
     last_packet_time_ := last_packet_time_ s;
     previos_precipitation_timestamp_ := previos_precipitation_timestamp_ s;
     previos_precipitation_ := uint16_t v |}.

Definition set_first_data_received_ (v : bool) : M World unit :=
  with_station (State_first_data_received_ v).

Definition set_last_packet_time_ (v : Z) : M World unit :=
  with_station (State_last_packet_time_ v).

Definition set_previos_precipitation_timestamp_ (v : Z) : M World unit :=
  with_station (State_previos_precipitation_timestamp_ v).

Definition set_previos_precipitation_ (v : Z) : M World unit :=
  with_station (State_previos_precipitation_ v).

Definition publish_state (p : publication) : M World unit :=
  modify (World_publish [p]).

(** [sensor->publish_state(...)] through a pointer that is not checked
    against [nullptr] first. *)
Definition publish_state_unchecked (configured : bool) (p : publication)
  : M World unit :=
  if configured then publish_state p else fail.

(** [WeatherStation::reset_sub_entities_], lines 122-149. *)
Definition reset_sub_entities_ (cfg : Config) : M World unit :=
  when (temperature_sensor_ cfg)
    (publish_state (Sensor temperature_sensor NaN)) ;;
  when (humidity_sensor_ cfg)
    (publish_state (Sensor humidity_sensor NaN)) ;;
  when (pressure_sensor_ cfg)
    (publish_state (Sensor pressure_sensor NaN)) ;;
  when (wind_speed_sensor_ cfg)
    (publish_state (Sensor wind_speed_sensor NaN)) ;;
  when (wind_gust_sensor_ cfg)
    (publish_state (Sensor wind_gust_sensor NaN)) ;;
  when (wind_direction_degrees_sensor_ cfg)
    (publish_state (Sensor wind_direction_degrees_sensor NaN)) ;;
  when (accumulated_precipitation_sensor_ cfg)
    (publish_state (Sensor accumulated_precipitation_sensor NaN)) ;;
  when (uv_intensity_sensor_ cfg)
    (publish_state (Sensor uv_intensity_sensor NaN)) ;;
  when (light_sensor_ cfg)
    (publish_state (Sensor light_sensor NaN)) ;;
  when (uv_index_sensor_ cfg)
    (publish_state (Sensor uv_index_sensor NaN)) ;;
  when (precipitation_intensity_sensor_ cfg)
    (publish_state (Sensor precipitation_intensity_sensor NaN) ;;
     set_previos_precipitation_ 0xFFFF).

(** The precipitation block of [process_packet_], lines 268-289: returns
    [(precipitation_intensity_updated, precipitation_intensity)].  [clock]
    is the value of the second [steady_clock::now()] call of line 283. *)
Definition precipitation_update (accumulated_precipitation : Z) (now clock : Z)
  : M World (bool * reading) :=
  if negb (accumulated_precipitation =? 0xFFFF) then
    previos_precipitation <- gets (fun w => previos_precipitation_ (station w)) ;;
    previos_timestamp <- gets (fun w => previos_precipitation_timestamp_ (station w)) ;;
    if negb (previos_precipitation =? 0xFFFF) then
      let interval := duration_cast_seconds (now - previos_timestamp) in
      if s_gt_ms interval PRECIPITATION_INTENSITY_INTERVAL then
        set_previos_precipitation_ accumulated_precipitation ;;
        set_previos_precipitation_timestamp_ now ;;
        previos_precipitation' <- gets (fun w => previos_precipitation_ (station w)) ;;
        let precipitation_intensity :=
          (inject_Z (accumulated_precipitation - previos_precipitation')
           * (3 # 10) / (inject_Z interval / 3600))%Q in
        ret (true, Val precipitation_intensity)
      else ret (false, NaN)
    else
      set_previos_precipitation_ accumulated_precipitation ;;
      set_previos_precipitation_timestamp_ clock ;;
      ret (false, NaN)
  else
    set_previos_precipitation_ 0xFFFF ;;
    ret (true, NaN).

(** [WeatherStation::process_packet_], lines 183-342. *)
Definition process_packet_ (cfg : Config) (data : list byte) (len : nat)
    (has_pressure : bool) (now clock : Z) : M World unit :=
  when (pressure_sensor_ cfg)
    (if has_pressure then
       d17 <- at_ data 17 ;; d18 <- at_ data 18 ;; d19 <- at_ data 19 ;;
       let pressure :=
         uint32_t (uint32_t (Z.shiftl d17 16) + uint32_t (Z.shiftl d18 8) + d19) in
       publish_state (Sensor pressure_sensor (Val (inject_Z pressure / 100)%Q))
     else publish_state (Sensor pressure_sensor NaN)) ;;
  when (wind_direction_degrees_sensor_ cfg)
    (d2 <- at_ data 2 ;; d3 <- at_ data 3 ;;
     let wind_direction := uint16_t (d2 + Z.shiftl (uint16_t (Z.land d3 0x80)) 1) in
     if negb (wind_direction =? 0x1FF)
     then publish_state (Sensor wind_direction_degrees_sensor (Val (inject_Z wind_direction)))
     else publish_state (Sensor wind_direction_degrees_sensor NaN)) ;;
  d3 <- at_ data 3 ;;
  let low_battery := negb (Z.land d3 0x08 =? 0) in
  publish_state_unchecked (battery_level_binary_sensor_ cfg)
    (BinarySensor battery_level_binary_sensor low_battery) ;;
  when (temperature_sensor_ cfg)
    (d4 <- at_ data 4 ;; d3 <- at_ data 3 ;;
     let temperature := uint16_t (d4 + Z.shiftl (uint16_t (Z.land d3 0x07)) 8) in
     if negb (temperature =? 0x7FF)
     then publish_state (Sensor temperature_sensor (Val (inject_Z (temperature - 400) / 10)%Q))
     else publish_state (Sensor temperature_sensor NaN)) ;;
  when (humidity_sensor_ cfg)
    (d5 <- at_ data 5 ;;
     let humidity := uint8_t d5 in
     if negb (humidity =? 0xFF)
     then publish_state (Sensor humidity_sensor (Val (inject_Z humidity)))
     else publish_state (Sensor humidity_sensor NaN)) ;;
  when (wind_speed_sensor_ cfg)
    (d6 <- at_ data 6 ;; d3 <- at_ data 3 ;;
     let wind_speed := uint16_t (d6 + Z.shiftl (uint16_t (Z.land d3 0x10)) 4) in
     if negb (wind_speed =? 0x1FF)
     then publish_state (Sensor wind_speed_sensor
                           (Val (inject_Z wind_speed / 8 * (112 # 100))%Q))
     else publish_state (Sensor wind_speed_sensor NaN)) ;;
  when (wind_gust_sensor_ cfg)
    (d7 <- at_ data 7 ;;
     let wind_gust := uint8_t d7 in
     if negb (wind_gust =? 0xFF)
     then publish_state (Sensor wind_gust_sensor (Val (inject_Z wind_gust * (112 # 100))%Q))
     else publish_state (Sensor wind_gust_sensor NaN)) ;;
  d9 <- at_ data 9 ;; d8 <- at_ data 8 ;;
  let accumulated_precipitation := uint16_t (d9 + Z.shiftl (uint16_t d8) 8) in
  r <- precipitation_update accumulated_precipitation now clock ;;
  let precipitation_intensity_updated := fst r in
  let precipitation_intensity := snd r in
  when (accumulated_precipitation_sensor_ cfg)
    (publish_state (Sensor accumulated_precipitation_sensor
                      (Val (inject_Z accumulated_precipitation * (3 # 10))%Q))) ;;
  when (precipitation_intensity_sensor_ cfg && precipitation_intensity_updated)
    (publish_state (Sensor precipitation_intensity_sensor precipitation_intensity)) ;;
  d11 <- at_ data 11 ;; d10 <- at_ data 10 ;;
  let uv_intensity := uint32_t (d11 + Z.shiftl (uint16_t d10) 8) in
  when (uv_intensity_sensor_ cfg)
    (if negb (uv_intensity =? 0xFFFF)
     then publish_state (Sensor uv_intensity_sensor (Val (inject_Z uv_intensity / 10)%Q))
     else publish_state (Sensor uv_intensity_sensor NaN)) ;;
  when (uv_index_sensor_ cfg)
    (if negb (uv_intensity =? 0xFFFF) then
       let uv_index := uint8_t (uv_intensity / 400) in
       publish_state (Sensor uv_index_sensor (Val (inject_Z uv_index)))
     else publish_state (Sensor uv_index_sensor NaN)) ;;
  when (light_sensor_ cfg)
    (d14 <- at_ data 14 ;; d13 <- at_ data 13 ;; d12 <- at_ data 12 ;;
     let light := uint32_t (d14 + Z.shiftl d13 8 + Z.shiftl d12 16) in
     if negb (light =? 0xFFFFFF)
     then publish_state (Sensor light_sensor (Val (inject_Z light / 10)%Q))
     else publish_state (Sensor light_sensor NaN)).

(** [WeatherStation::loop], lines 95-120.  [now] is the reading of the
    steady clock at line 97, [clock] the reading a later
    [steady_clock::now()] inside [process_packet_] returns, [rx] the bytes
    the UART has available. *)
Definition loop (cfg : Config) (now clock : Z) (rx : list byte) : M World unit :=
  first_data_received <- gets (fun w => first_data_received_ (station w)) ;;
  last_packet_time <- gets (fun w => last_packet_time_ (station w)) ;;
  when (first_data_received
        && ns_gt_ms (now - last_packet_time) COMMUNICATION_TIMOUT)
    (set_first_data_received_ false ;;
     reset_sub_entities_ cfg) ;;
  let size := length rx in
  when (0 <? size)%nat
    (let buffer := rx in
     set_first_data_received_ true ;;
     set_last_packet_time_ now ;;
     packet_type <- untraced (check_packet_ buffer size) ;;
     if negb (PacketType_eqb packet_type WRONG_PACKET)
     then process_packet_ cfg buffer size
            (PacketType_eqb packet_type BASIC_WITH_PRESSURE) now clock
     else ret tt).

(** *** Sessions *)

(** One call of [loop]: the clock reading of line 97, the reading a later
    [steady_clock::now()] returns, and the bytes available. *)
Definition tick : Type := (Z * Z * list byte)%type.

Fixpoint run (cfg : Config) (ticks : list tick) : M World unit :=
  match ticks with
  | [] => ret tt
  | (now, clock, rx) :: rest => loop cfg now clock rx ;; run cfg rest
  end.

Definition timeout_fires (now : Z) (w : World) : bool :=
  first_data_received_ (station w)
  && ns_gt_ms (now - last_packet_time_ (station w)) COMMUNICATION_TIMOUT.

Definition configured (cfg : Config) (s : sensor_id) : bool :=
  match s with
  | temperature_sensor => temperature_sensor_ cfg
  | humidity_sensor => humidity_sensor_ cfg
  | pressure_sensor => pressure_sensor_ cfg
  | wind_speed_sensor => wind_speed_sensor_ cfg
  | wind_gust_sensor => wind_gust_sensor_ cfg
  | wind_direction_degrees_sensor => wind_direction_degrees_sensor_ cfg
  | accumulated_precipitation_sensor => accumulated_precipitation_sensor_ cfg
  | uv_intensity_sensor => uv_intensity_sensor_ cfg
  | uv_index_sensor => uv_index_sensor_ cfg
  | light_sensor => light_sensor_ cfg
  | precipitation_intensity_sensor => precipitation_intensity_sensor_ cfg
  end.

Definition reset_order : list sensor_id :=
  [ temperature_sensor; humidity_sensor; pressure_sensor; wind_speed_sensor;
    wind_gust_sensor; wind_direction_degrees_sensor;
    accumulated_precipitation_sensor; uv_intensity_sensor; light_sensor;
    uv_index_sensor; precipitation_intensity_sensor ].

Definition reset_publications (cfg : Config) : list publication :=
  map (fun s => Sensor s NaN) (filter (configured cfg) reset_order).

Definition after_timeout (cfg : Config) (w : World) : World :=
  World_station
    (fun s => if precipitation_intensity_sensor_ cfg
              then State_previos_precipitation_ 0xFFFF s else s)
    (World_publish (reset_publications cfg)
       (World_station (State_first_data_received_ false) w)).

Definition after_receipt (now : Z) (w : World) : World :=
  World_station (State_last_packet_time_ now)
    (World_station (State_first_data_received_ true) w).

Definition kept (w0 : World) (w : World) : Prop :=
  first_data_received_ (station w) = first_data_received_ (station w0)
  /\ last_packet_time_ (station w) = last_packet_time_ (station w0)
  /\ exists l, published w = published w0 ++ l.

End misol.

(** ** Program logic for the monad

    [hoare P c Q]: from every state satisfying [P], [c] completes (no
    failure) and its result and final state satisfy [Q].  [inv I c]: [c]
    completes and keeps [I].  [sim E c]: two runs of [c] from [E]-related
    states fail together or return equal results and [E]-related states. *)

Definition hoare {W A} (P : W -> Prop) (c : M W A) (Q : A -> W -> Prop) : Prop :=
  forall w, P w -> exists a w', c w = Some (a, w') /\ Q a w'.

Definition inv {W A} (I : W -> Prop) (c : M W A) : Prop :=
  hoare I c (fun _ => I).

Definition sim {W A} (E : W -> W -> Prop) (c : M W A) : Prop :=
  forall w1 w2, E w1 w2 ->
    match c w1, c w2 with
    | Some (a1, w1'), Some (a2, w2') => a1 = a2 /\ E w1' w2'
    | None, None => True
    | _, _ => False
    end.

(** ** Sample configurations and frames

    A frame is: sync 0x24, an id byte, wind direction, flags, temperature,
    humidity, wind speed, gust, rain counter (2 bytes), UV (2 bytes), light
    (3 bytes), a CRC byte the code does not look at, and the checksum. *)

(** Every sensor configured, thresholds 4.5 and 5.5, precipitation interval
    of one minute. *)
Definition all_sensors : misol_weather.Config :=
  {| misol_weather.temperature_sensor_ := true;
     misol_weather.humidity_sensor_ := true;
     misol_weather.pressure_sensor_ := true;
     misol_weather.wind_speed_sensor_ := true;
     misol_weather.wind_gust_sensor_ := true;
     misol_weather.wind_direction_degrees_sensor_ := true;
     misol_weather.accumulated_precipitation_sensor_ := true;
     misol_weather.uv_intensity_sensor_ := true;
     misol_weather.uv_index_sensor_ := true;
     misol_weather.light_sensor_ := true;
     misol_weather.precipitation_intensity_sensor_ := true;
     misol_weather.battery_level_binary_sensor_ := true;
     misol_weather.night_binary_sensor_ := true;
     misol_weather.upper_night_threshold_ := 55 # 10;
     misol_weather.lower_night_threshold_ := 45 # 10;
     misol_weather.precipitation_intensity_interval_ := 1 * 60 * 1000 |}.

(** As [all_sensors], without the precipitation-intensity sensor. *)
Definition no_intensity_sensor : misol_weather.Config :=
  {| misol_weather.temperature_sensor_ := true;
     misol_weather.humidity_sensor_ := true;
     misol_weather.pressure_sensor_ := true;
     misol_weather.wind_speed_sensor_ := true;
     misol_weather.wind_gust_sensor_ := true;
     misol_weather.wind_direction_degrees_sensor_ := true;
     misol_weather.accumulated_precipitation_sensor_ := true;
     misol_weather.uv_intensity_sensor_ := true;
     misol_weather.uv_index_sensor_ := true;
     misol_weather.light_sensor_ := true;
     misol_weather.precipitation_intensity_sensor_ := false;
     misol_weather.battery_level_binary_sensor_ := true;
     misol_weather.night_binary_sensor_ := true;
     misol_weather.upper_night_threshold_ := 55 # 10;
     misol_weather.lower_night_threshold_ := 45 # 10;
     misol_weather.precipitation_intensity_interval_ := 1 * 60 * 1000 |}.

(** As [all_sensors], without the night sensor. *)
Definition no_night_sensor : misol_weather.Config :=
  {| misol_weather.temperature_sensor_ := true;
     misol_weather.humidity_sensor_ := true;
     misol_weather.pressure_sensor_ := true;
     misol_weather.wind_speed_sensor_ := true;
     misol_weather.wind_gust_sensor_ := true;
     misol_weather.wind_direction_degrees_sensor_ := true;
     misol_weather.accumulated_precipitation_sensor_ := true;
     misol_weather.uv_intensity_sensor_ := true;
     misol_weather.uv_index_sensor_ := true;
     misol_weather.light_sensor_ := true;
     misol_weather.precipitation_intensity_sensor_ := true;
     misol_weather.battery_level_binary_sensor_ := true;
     misol_weather.night_binary_sensor_ := false;
     misol_weather.upper_night_threshold_ := 55 # 10;
     misol_weather.lower_night_threshold_ := 45 # 10;
     misol_weather.precipitation_intensity_interval_ := 1 * 60 * 1000 |}.

(** Every sensor of the older version configured. *)
Definition all_sensors_old : misol.Config :=
  {| misol.temperature_sensor_ := true;
     misol.humidity_sensor_ := true;
     misol.pressure_sensor_ := true;
     misol.wind_speed_sensor_ := true;
     misol.wind_gust_sensor_ := true;
     misol.wind_direction_degrees_sensor_ := true;
     misol.accumulated_precipitation_sensor_ := true;
     misol.uv_intensity_sensor_ := true;
     misol.uv_index_sensor_ := true;
     misol.light_sensor_ := true;
     misol.precipitation_intensity_sensor_ := true;
     misol.battery_level_binary_sensor_ := true |}.

(** A station of the older version with no data received and no previous
    precipitation value. *)
Definition fresh_World_old : misol.World :=
  {| misol.station :=
       {| misol.first_data_received_ := false;
          misol.last_packet_time_ := 0;
          misol.previos_precipitation_timestamp_ := 0;
          misol.previos_precipitation_ := 0xFFFF |};
     misol.published := [] |}.

Definition seconds (s : Z) : Z := s * 1000000000.

(** The readings published on one numeric channel, oldest first. *)
Fixpoint channel (s : sensor_id) (log : list publication) : list reading :=
  match log with
  | [] => []
  | Sensor s' r :: rest =>
      if match s, s' with
         | temperature_sensor, temperature_sensor
         | humidity_sensor, humidity_sensor
         | pressure_sensor, pressure_sensor
         | wind_speed_sensor, wind_speed_sensor
         | wind_gust_sensor, wind_gust_sensor
         | wind_direction_degrees_sensor, wind_direction_degrees_sensor
         | accumulated_precipitation_sensor, accumulated_precipitation_sensor
         | uv_intensity_sensor, uv_intensity_sensor
         | uv_index_sensor, uv_index_sensor
         | light_sensor, light_sensor
         | precipitation_intensity_sensor, precipitation_intensity_sensor => true
         | _, _ => false
         end
      then r :: channel s rest else channel s rest
  | BinarySensor _ _ :: rest => channel s rest
  end.

(** The values published on one binary channel, oldest first. *)
Fixpoint binary_channel (b : binary_sensor_id) (log : list publication) : list bool :=
  match log with
  | [] => []
  | BinarySensor b' v :: rest =>
      if match b, b' with
         | battery_level_binary_sensor, battery_level_binary_sensor
         | night_binary_sensor, night_binary_sensor => true
         | _, _ => false
         end
      then v :: binary_channel b rest else binary_channel b rest
  | Sensor _ _ :: rest => binary_channel b rest
  end.

(** Rain counter 100, UV raw 48 (4.8), humidity 50. *)
Definition frame_rain_100 : list byte :=
  [ x24; x00; x5a; x02; x90; x32; x08; x0a;
    x00; x64; x00; x30; x00; x03; xe8; x00;
    xd3 ].

(** As [frame_rain_100] with rain counter 110. *)
Definition frame_rain_110 : list byte :=
  [ x24; x00; x5a; x02; x90; x32; x08; x0a;
    x00; x6e; x00; x30; x00; x03; xe8; x00;
    xdd ].

(** As [frame_rain_100] with the rain counter at its sentinel 0xFFFF. *)
Definition frame_rain_sentinel : list byte :=
  [ x24; x00; x5a; x02; x90; x32; x08; x0a;
    xff; xff; x00; x30; x00; x03; xe8; x00;
    x6d ].

(** As [frame_rain_100] with humidity at its sentinel 0xFF. *)
Definition frame_humidity_sentinel : list byte :=
  [ x24; x00; x5a; x02; x90; xff; x08; x0a;
    x00; x64; x00; x30; x00; x03; xe8; x00;
    xa0 ].

(** As [frame_rain_100] with UV raw 100 (10.0). *)
Definition frame_bright : list byte :=
  [ x24; x00; x5a; x02; x90; x32; x08; x0a;
    x00; x64; x00; x64; x00; x03; xe8; x00;
    x07 ].

(** As [frame_rain_100] with a wrong checksum byte. *)
Definition frame_bad_checksum : list byte :=
  [ x24; x00; x5a; x02; x90; x32; x08; x0a;
    x00; x64; x00; x30; x00; x03; xe8; x00;
    x00 ].

(** As [frame_rain_100] followed by a pressure block (raw 101325). *)
Definition frame_with_pressure : list byte :=
  [ x24; x00; x5a; x02; x90; x32; x08; x0a;
    x00; x64; x00; x30; x00; x03; xe8; x00;
    xd3; x01; x8b; xcd; x59 ].

(** Every field at its sentinel: wind direction 0x1FF, temperature 0x7FF,
    humidity 0xFF, wind speed 0x1FF, gust 0xFF, rain 0xFFFF, UV 0xFFFF,
    light 0xFFFFFF. *)
Definition frame_all_sentinels : list byte :=
  [ x24; x00; xff; x97; xff; xff; xff; xff;
    xff; xff; xff; xff; xff; xff; xff; x00;
    xaf ].


(** ** The description tables of the older file and its text sensors

    The four functions of the anonymous namespace (lines 9-84) and the
    [USE_TEXT_SENSOR] blocks of [process_packet_] that call them.  A [float]
    argument is a [reading]: a comparison with [NaN] is false. *)

From Stdlib Require Strings.String.

Module misol_text.
Import Strings.String.

Definition flt (x : reading) (c : Q) : bool :=
  match x with NaN => false | Val q => Qltb q c end.
Definition fle (x : reading) (c : Q) : bool :=
  match x with NaN => false | Val q => Qle_bool q c end.
Definition fgt (x : reading) (c : Q) : bool :=
  match x with NaN => false | Val q => Qltb c q end.
Definition fge (x : reading) (c : Q) : bool :=
  match x with NaN => false | Val q => Qle_bool c q end.

(** [precipitation_to_description], lines 9-25. *)
Definition precipitation_to_description (mm_per_hour : reading) : string :=
  if is_nan mm_per_hour then "Unknown"%string
  else if fle mm_per_hour 0 then "No precipitation"%string
  else if fgt mm_per_hour 0 && fle mm_per_hour (25 # 10) then "Light rain"%string
  else if fgt mm_per_hour (25 # 10) && fle mm_per_hour (75 # 10) then "Moderate rain"%string
  else if fgt mm_per_hour (75 # 10) && fle mm_per_hour 50 then "Heavy rain"%string
  else if fgt mm_per_hour 50 then "Violent rain"%string
  else "Extreme precipitation"%string.

(** [light_level_to_description], lines 27-45. *)
Definition light_level_to_description (lux : reading) : string :=
  if flt lux 2 then "Overcast night"%string
  else if flt lux 3 then "Clear night sky"%string
  else if flt lux 50 then "Rural night sky"%string
  else if flt lux 400 then "Dark overcast sky"%string
  else if flt lux 4500 then "Overcast day"%string
  else if flt lux 28500 then "Full daylight"%string
  else if flt lux 120000 then "Direct sunlight"%string
  else "Bright direct sunlight"%string.

(** [wind_speed_to_description], lines 47-75. *)
Definition wind_speed_to_description (speed : reading) : string :=
  if flt speed (3 # 10) then "Calm"%string
  else if fge speed (3 # 10) && fle speed (15 # 10) then "Light air"%string
  else if fgt speed (15 # 10) && fle speed (33 # 10) then "Light breeze"%string
  else if fgt speed (33 # 10) && fle speed (55 # 10) then "Gentle breeze"%string
  else if fgt speed (55 # 10) && fle speed (79 # 10) then "Moderate breeze"%string
  else if fgt speed (79 # 10) && fle speed (107 # 10) then "Fresh breeze"%string
  else if fgt speed (107 # 10) && fle speed (138 # 10) then "Strong breeze"%string
  else if fgt speed (138 # 10) && fle speed (171 # 10) then "High wind"%string
  else if fgt speed (171 # 10) && fle speed (207 # 10) then "Gale"%string
  else if fgt speed (207 # 10) && fle speed (244 # 10) then "Severe gale"%string
  else if fgt speed (244 # 10) && fle speed (284 # 10) then "Storm"%string
  else if fgt speed (284 # 10) && fle speed (326 # 10) then "Violent storm"%string
  else "Hurricane force"%string.

(** The array [directions] of [angle_to_direction]: 17 entries. *)
Definition directions : list string :=
  [ "N"; "NNE"; "NE"; "ENE"; "E"; "ESE"; "SE"; "SSE";
    "S"; "SSW"; "SW"; "WSW"; "W"; "WNW"; "NW"; "NNW"; "N" ]%string.

(** [static_cast<int>] of a finite value: truncation toward zero, undefined
    when the result does not fit a 32-bit [int]. *)
Definition static_cast_int (q : Q) : option Z :=
  let z := Z.quot (Qnum q) (Zpos (Qden q)) in
  if (- 2 ^ 31 <=? z) && (z <? 2 ^ 31) then Some z else None.

(** [angle_to_direction], lines 77-84.  Converting [NaN] to [int] and
    indexing the array outside its 17 entries are undefined: [None]. *)
Definition angle_to_direction (angle : reading) : option string :=
  match angle with
  | NaN => None
  | Val a =>
      match static_cast_int ((a + (1125 # 100)) / (225 # 10))%Q with
      | Some index =>
          let i := Z.rem index 16 in
          if i <? 0 then None else nth_error directions (Z.to_nat i)
      | None => None
      end
  end.

Inductive text_sensor_id : Type :=
| wind_direction_text_sensor
| wind_speed_text_sensor
| precipitation_intensity_text_sensor
| light_text_sensor.

(** The log of text publications. *)
Definition TextLog : Type := list (text_sensor_id * string).

Definition publish_text (s : text_sensor_id) (v : string) : M TextLog unit :=
  modify (fun log => log ++ [(s, v)]).

Definition lift_option {W A} (o : option A) : M W A :=
  fun w => match o with Some a => Some (a, w) | None => None end.

(** Lines 204-213 of [process_packet_]; [configured] stands for
    [wind_direction_text_sensor_ != nullptr]. *)
Definition wind_direction_text (configured : bool) (data : list byte)
  : M TextLog unit :=
  when configured
    (d2 <- at_ data 2 ;; d3 <- at_ data 3 ;;
     let wind_direction := uint16_t (d2 + Z.shiftl (uint16_t (Z.land d3 0x80)) 1) in
     if negb (wind_direction =? 0x1FF)
     then direction <- lift_option (angle_to_direction (Val (inject_Z wind_direction))) ;;
          publish_text wind_direction_text_sensor direction
     else publish_text wind_direction_text_sensor "Unknown"%string).

(** Lines 248-257 of [process_packet_]. *)
Definition wind_speed_text (configured : bool) (data : list byte)
  : M TextLog unit :=
  when configured
    (d6 <- at_ data 6 ;; d3 <- at_ data 3 ;;
     let wind_speed := uint16_t (d6 + Z.shiftl (uint16_t (Z.land d3 0x10)) 4) in
     if negb (wind_speed =? 0x1FF)
     then publish_text wind_speed_text_sensor
            (wind_speed_to_description (Val (inject_Z wind_speed / 8 * (112 # 100))%Q))
     else publish_text wind_speed_text_sensor "Unknown"%string).

(** Lines 298-302 of [process_packet_], after the precipitation block has
    set [precipitation_intensity_updated] and [precipitation_intensity]. *)
Definition precipitation_intensity_text (configured : bool)
    (precipitation_intensity_updated : bool) (precipitation_intensity : reading)
  : M TextLog unit :=
  when (configured && precipitation_intensity_updated)
    (publish_text precipitation_intensity_text_sensor
       (precipitation_to_description precipitation_intensity)).

(** Lines 332-341 of [process_packet_]. *)
Definition light_text (configured : bool) (data : list byte) : M TextLog unit :=
  when configured
    (d14 <- at_ data 14 ;; d13 <- at_ data 13 ;; d12 <- at_ data 12 ;;
     let light := uint32_t (d14 + Z.shiftl d13 8 + Z.shiftl d12 16) in
     if negb (light =? 0xFFFFFF)
     then publish_text light_text_sensor
            (light_level_to_description (Val (inject_Z light / 10)%Q))
     else publish_text light_text_sensor "Unknown"%string).

(** The descriptions in the order their branches appear. *)
Definition wind_scale : list string :=
  [ "Calm"; "Light air"; "Light breeze"; "Gentle breeze"; "Moderate breeze";
    "Fresh breeze"; "Strong breeze"; "High wind"; "Gale"; "Severe gale";
    "Storm"; "Violent storm"; "Hurricane force" ]%string.

Definition light_scale : list string :=
  [ "Overcast night"; "Clear night sky"; "Rural night sky"; "Dark overcast sky";
    "Overcast day"; "Full daylight"; "Direct sunlight";
    "Bright direct sunlight" ]%string.

Definition precipitation_scale : list string :=
  [ "No precipitation"; "Light rain"; "Moderate rain"; "Heavy rain";
    "Violent rain" ]%string.

(** The number of thresholds of [thresholds] that [q] has passed: a
    threshold counts once [q] is above it, or at it when [inclusive]. *)
Definition passed (inclusive : bool) (thresholds : list Q) (q : Q) : nat :=
  List.length
    (filter (fun t => if inclusive then Qle_bool t q else Qltb t q) thresholds).

(** The place of a finite value on each scale. *)
Definition wind_rank (q : Q) : nat :=
  (passed true [3 # 10]%Q q
   + passed false [15 # 10; 33 # 10; 55 # 10; 79 # 10; 107 # 10; 138 # 10;
                   171 # 10; 207 # 10; 244 # 10; 284 # 10; 326 # 10]%Q q)%nat.

Definition light_rank (q : Q) : nat :=
  passed true [2; 3; 50; 400; 4500; 28500; 120000]%Q q.

Definition precipitation_rank (q : Q) : nat :=
  passed false [0; 25 # 10; 75 # 10; 50]%Q q.

End misol_text.

(** ** Frames with one byte replaced *)

(** [data] with the byte at index [i] replaced by [b] (unchanged when [i] is
    outside the buffer). *)
Definition set_byte (i : nat) (b : byte) (data : list byte) : list byte :=
  match skipn i data with
  | [] => data
  | _ :: rest => firstn i data ++ b :: rest
  end.

(** [data] with the bytes at indices [i] and [j] exchanged. *)
Definition swap_bytes (i j : nat) (data : list byte) : list byte :=
  set_byte j (nth i data x00) (set_byte i (nth j data x00) data).

(** ** The setter of the precipitation interval *)

(** [set_precipitation_intensity_interval] of the header: the argument is
    an [unsigned int] number of minutes, stored in milliseconds. *)
Definition set_precipitation_intensity_interval
    (precipitation_intensity_interval : Z) (cfg : misol_weather.Config)
  : misol_weather.Config :=
  {| misol_weather.temperature_sensor_ := misol_weather.temperature_sensor_ cfg;
     misol_weather.humidity_sensor_ := misol_weather.humidity_sensor_ cfg;
     misol_weather.pressure_sensor_ := misol_weather.pressure_sensor_ cfg;
     misol_weather.wind_speed_sensor_ := misol_weather.wind_speed_sensor_ cfg;
     misol_weather.wind_gust_sensor_ := misol_weather.wind_gust_sensor_ cfg;
     misol_weather.wind_direction_degrees_sensor_ :=
       misol_weather.wind_direction_degrees_sensor_ cfg;
     misol_weather.accumulated_precipitation_sensor_ :=
       misol_weather.accumulated_precipitation_sensor_ cfg;
     misol_weather.uv_intensity_sensor_ := misol_weather.uv_intensity_sensor_ cfg;
     misol_weather.uv_index_sensor_ := misol_weather.uv_index_sensor_ cfg;
     misol_weather.light_sensor_ := misol_weather.light_sensor_ cfg;
     misol_weather.precipitation_intensity_sensor_ :=
       misol_weather.precipitation_intensity_sensor_ cfg;
     misol_weather.battery_level_binary_sensor_ :=
       misol_weather.battery_level_binary_sensor_ cfg;
     misol_weather.night_binary_sensor_ := misol_weather.night_binary_sensor_ cfg;
     misol_weather.upper_night_threshold_ := misol_weather.upper_night_threshold_ cfg;
     misol_weather.lower_night_threshold_ := misol_weather.lower_night_threshold_ cfg;
     misol_weather.precipitation_intensity_interval_ :=
       uint32_t precipitation_intensity_interval * 60 * 1000 |}.

(** ** The fields of a frame, as numbers

    Each field written as the number its bits stand for: a low byte plus
    the bits borrowed from the flags byte (byte 3), or the bytes of a
    big-endian number. *)

Definition flag_bit (data : list byte) (n : Z) : Z :=
  Z.b2z (Z.testbit (byte_at data 3) n).

Definition wind_direction_bits (data : list byte) : Z :=
  byte_at data 2 + 256 * flag_bit data 7.

Definition temperature_bits (data : list byte) : Z :=
  byte_at data 4 + 256 * (byte_at data 3 mod 8).

Definition wind_speed_bits (data : list byte) : Z :=
  byte_at data 6 + 256 * flag_bit data 4.

Definition rain_bits (data : list byte) : Z :=
  256 * byte_at data 8 + byte_at data 9.

Definition uv_bits (data : list byte) : Z :=
  256 * byte_at data 10 + byte_at data 11.

Definition light_bits (data : list byte) : Z :=
  65536 * byte_at data 12 + 256 * byte_at data 13 + byte_at data 14.

Definition pressure_bits (data : list byte) : Z :=
  65536 * byte_at data 17 + 256 * byte_at data 18 + byte_at data 19.

(** ** What one packet shows on each channel

    The value of each numeric channel for a frame, from the fields as
    numbers; [sentinel_or] is "no reading" at the sentinel. *)

Definition sentinel_or (sentinel bits : Z) (value : Q) : reading :=
  if bits =? sentinel then NaN else Val value.

(** The newer version; the precipitation intensity is not part of it. *)
Definition shown (data : list byte) (has_pressure : bool) (s : sensor_id) : reading :=
  match s with
  | pressure_sensor =>
      if has_pressure then Val (inject_Z (pressure_bits data) / 100)%Q else NaN
  | wind_direction_degrees_sensor =>
      sentinel_or 0x1FF (wind_direction_bits data) (inject_Z (wind_direction_bits data))
  | temperature_sensor =>
      sentinel_or 0x7FF (temperature_bits data)
        (inject_Z (temperature_bits data - 400) / 10)%Q
  | humidity_sensor => Val (inject_Z (byte_at data 5))
  | wind_speed_sensor =>
      sentinel_or 0x1FF (wind_speed_bits data)
        (inject_Z (wind_speed_bits data) / 8 * (112 # 100))%Q
  | wind_gust_sensor =>
      sentinel_or 0xFF (byte_at data 7) (inject_Z (byte_at data 7) * (112 # 100))%Q
  | accumulated_precipitation_sensor => Val (inject_Z (rain_bits data) * (3 # 10))%Q
  | uv_intensity_sensor =>
      sentinel_or 0xFFFF (uv_bits data) (inject_Z (uv_bits data) / 10)%Q
  | uv_index_sensor =>
      sentinel_or 0xFFFF (uv_bits data) (inject_Z (uv_bits data / 400))
  | light_sensor =>
      sentinel_or 0xFFFFFF (light_bits data) (inject_Z (light_bits data) / 10)%Q
  | precipitation_intensity_sensor => NaN
  end.

Definition opt {A} (b : bool) (a : A) : list A := if b then [a] else [].

(** The publications of one call of the newer [process_packet_], in the
    order of its statements; [rate] is the outcome of the precipitation
    block and [night] the value for the night channel, if any. *)
Definition packet_log (cfg : misol_weather.Config) (data : list byte)
    (has_pressure : bool) (rate : bool * reading) (night : option bool)
  : list publication :=
  opt (misol_weather.pressure_sensor_ cfg)
    (Sensor pressure_sensor (shown data has_pressure pressure_sensor))
  ++ opt (misol_weather.wind_direction_degrees_sensor_ cfg)
       (Sensor wind_direction_degrees_sensor
          (shown data has_pressure wind_direction_degrees_sensor))
  ++ opt (misol_weather.battery_level_binary_sensor_ cfg)
       (BinarySensor battery_level_binary_sensor (Z.testbit (byte_at data 3) 3))
  ++ opt (misol_weather.temperature_sensor_ cfg)
       (Sensor temperature_sensor (shown data has_pressure temperature_sensor))
  ++ opt (misol_weather.humidity_sensor_ cfg)
       (Sensor humidity_sensor (shown data has_pressure humidity_sensor))
  ++ opt (misol_weather.wind_speed_sensor_ cfg)
       (Sensor wind_speed_sensor (shown data has_pressure wind_speed_sensor))
  ++ opt (misol_weather.wind_gust_sensor_ cfg)
       (Sensor wind_gust_sensor (shown data has_pressure wind_gust_sensor))
  ++ opt (misol_weather.accumulated_precipitation_sensor_ cfg)
       (Sensor accumulated_precipitation_sensor
          (shown data has_pressure accumulated_precipitation_sensor))
  ++ opt (misol_weather.precipitation_intensity_sensor_ cfg && fst rate)
       (Sensor precipitation_intensity_sensor (snd rate))
  ++ opt (misol_weather.uv_intensity_sensor_ cfg)
       (Sensor uv_intensity_sensor (shown data has_pressure uv_intensity_sensor))
  ++ opt (misol_weather.uv_index_sensor_ cfg)
       (Sensor uv_index_sensor (shown data has_pressure uv_index_sensor))
  ++ match night with
     | Some v => [BinarySensor night_binary_sensor v]
     | None => []
     end
  ++ opt (misol_weather.light_sensor_ cfg)
       (Sensor light_sensor (shown data has_pressure light_sensor)).

(** Whether a call of the newer [process_packet_] reaches [detect_night]. *)
Definition night_called (cfg : misol_weather.Config) (data : list byte) : bool :=
  misol_weather.night_binary_sensor_ cfg && negb (uv_bits data =? 0xFFFF).

(** The indices of the frame that the newer [process_packet_] reads. *)
Definition decoded_bytes (has_pressure : bool) : list nat :=
  [2; 3; 4; 5; 6; 7; 8; 9; 10; 11; 12; 13; 14]%nat
  ++ if has_pressure then [17; 18; 19]%nat else [].

(** A log without the publications of the pressure channel. *)
Definition without_pressure (log : list publication) : list publication :=
  filter (fun p => match p with
                   | Sensor pressure_sensor _ => false
                   | _ => true
                   end) log.

(** ** What one packet shows, older version

    The older version treats 0xFF in the humidity byte as "no reading";
    the other channels are as in the newer version. *)
Definition shown_old (data : list byte) (has_pressure : bool) (s : sensor_id) : reading :=
  match s with
  | humidity_sensor => sentinel_or 0xFF (byte_at data 5) (inject_Z (byte_at data 5))
  | _ => shown data has_pressure s
  end.

(** The publications of one call of the older [process_packet_] that
    returns, in the order of its statements; [rate] is the outcome of the
    precipitation block. *)
Definition packet_log_old (cfg : misol.Config) (data : list byte)
    (has_pressure : bool) (rate : bool * reading) : list publication :=
  opt (misol.pressure_sensor_ cfg)
    (Sensor pressure_sensor (shown_old data has_pressure pressure_sensor))
  ++ opt (misol.wind_direction_degrees_sensor_ cfg)
       (Sensor wind_direction_degrees_sensor
          (shown_old data has_pressure wind_direction_degrees_sensor))
  ++ [BinarySensor battery_level_binary_sensor (Z.testbit (byte_at data 3) 3)]
  ++ opt (misol.temperature_sensor_ cfg)
       (Sensor temperature_sensor (shown_old data has_pressure temperature_sensor))
  ++ opt (misol.humidity_sensor_ cfg)
       (Sensor humidity_sensor (shown_old data has_pressure humidity_sensor))
  ++ opt (misol.wind_speed_sensor_ cfg)
       (Sensor wind_speed_sensor (shown_old data has_pressure wind_speed_sensor))
  ++ opt (misol.wind_gust_sensor_ cfg)
       (Sensor wind_gust_sensor (shown_old data has_pressure wind_gust_sensor))
  ++ opt (misol.accumulated_precipitation_sensor_ cfg)
       (Sensor accumulated_precipitation_sensor
          (shown_old data has_pressure accumulated_precipitation_sensor))
  ++ opt (misol.precipitation_intensity_sensor_ cfg && fst rate)
       (Sensor precipitation_intensity_sensor (snd rate))
  ++ opt (misol.uv_intensity_sensor_ cfg)
       (Sensor uv_intensity_sensor (shown_old data has_pressure uv_intensity_sensor))
  ++ opt (misol.uv_index_sensor_ cfg)
       (Sensor uv_index_sensor (shown_old data has_pressure uv_index_sensor))
  ++ opt (misol.light_sensor_ cfg)
       (Sensor light_sensor (shown_old data has_pressure light_sensor)).

(** ** The span of each numeric channel

    The least and the greatest reading the decoding of a frame can give on
    a channel, from the width of its field, its sentinel and its scale. *)
Definition span (s : sensor_id) : Q * Q :=
  match s with
  | temperature_sensor => (-(40), 1646 # 10)
  | humidity_sensor => (0, 255)
  | pressure_sensor => (0, 16777215 # 100)
  | wind_speed_sensor => (0, 714 # 10)
  | wind_gust_sensor => (0, 28448 # 100)
  | wind_direction_degrees_sensor => (0, 510)
  | accumulated_precipitation_sensor => (0, 196605 # 10)
  | uv_intensity_sensor => (0, 65534 # 10)
  | uv_index_sensor => (0, 163)
  | light_sensor => (0, 16777214 # 10)
  | precipitation_intensity_sensor => (0, 0)
  end%Q.
Lemma u8_range (b : byte) : 0 <= u8 b < 256.
Proof.
  unfold u8. pose proof (Byte.to_N_bounded b). lia.
Qed.

Lemma Qltb_lt (x y : Q) : Qltb x y = true <-> (x < y)%Q.
Proof.
  unfold Qltb. rewrite negb_true_iff, <- not_true_iff_false, Qle_bool_iff.
  split; [apply Qnot_le_lt | apply Qlt_not_le].
Qed.

(** *** Lemmas on the reads of [check_packet_] *)

Lemma read_in_bounds (data : list byte) (i : nat) (trace : list nat) :
  (i < length data)%nat ->
  read data i trace = Some (byte_at data i, i :: trace).
Proof.
  intros Hi. unfold read, byte_at.
  destruct (nth_error data i) as [b|] eqn:E.
  - now rewrite (nth_error_nth _ _ x00 E).
  - apply nth_error_None in E. lia.
Qed.

Lemma checksum_loop_in_bounds (data : list byte) (idx : list nat) :
  forall (checksum : Z) (trace : list nat),
    0 <= checksum < 256 ->
    Forall (fun i => (i < length data)%nat) idx ->
    checksum_loop data idx checksum trace =
    Some ((checksum + fold_right (fun i acc => byte_at data i + acc) 0 idx) mod 256,
          rev idx ++ trace).
Proof.
  induction idx as [|i rest IH]; intros checksum trace Hc Hall.
  - cbn. rewrite Z.add_0_r, Z.mod_small by lia. reflexivity.
  - inversion Hall as [|? ? Hi Hrest]; subst.
    cbn [checksum_loop]. unfold bind at 1.
    rewrite (read_in_bounds _ _ _ Hi).
    rewrite IH; [ | unfold uint8_t; apply Z.mod_pos_bound; lia | assumption ].
    cbn [fold_right rev]. rewrite <- app_assoc. cbn [app].
    unfold uint8_t. change (2 ^ 8) with 256.
    rewrite Z.add_mod_idemp_l by lia.
    now rewrite Z.add_assoc.
Qed.

Lemma bind_Some {W A B} (c : M W A) (k : A -> M W B) (w w' : W) (a : A) :
  c w = Some (a, w') -> bind c k w = k a w'.
Proof.
  intros H. unfold bind. now rewrite H.
Qed.

Lemma Forall_seq_lt (lo n bound : nat) :
  (lo + n <= bound)%nat -> Forall (fun i => (i < bound)%nat) (seq lo n).
Proof.
  intros H. apply Forall_forall. intros i Hi. apply in_seq in Hi. lia.
Qed.

Lemma check_packet_run (data : list byte) :
  check_packet_ data (length data) [] = Some (classify data, check_packet_reads data).
Proof.
  unfold check_packet_, classify, check_packet_reads, sum_mod256.
  change (16 - 0)%nat with 16%nat. change (20 - 17)%nat with 3%nat.
  set (sum1 := fold_right _ 0 (seq 0 16)). set (sum2 := fold_right _ 0 (seq 17 3)).
  destruct (length data <? 17)%nat eqn:Hlen; [reflexivity|].
  apply Nat.ltb_ge in Hlen.
  assert (H0 : (0 < length data)%nat) by lia.
  assert (H16 : (16 < length data)%nat) by lia.
  assert (Hprim : (0 + 16 <= length data)%nat) by lia.
  rewrite (bind_Some _ _ _ _ _ (read_in_bounds data 0 [] H0)).
  destruct (negb (byte_at data 0 =? 36)) eqn:Hsync; [reflexivity|].
  rewrite (bind_Some _ _ _ _ _
             (checksum_loop_in_bounds data (seq 0 16) 0 [0%nat]
                (conj (Z.le_refl 0) eq_refl) (Forall_seq_lt 0 16 _ Hprim))).
  rewrite (bind_Some _ _ _ _ _ (read_in_bounds data 16 _ H16)).
  rewrite Z.add_0_l. fold sum1.
  destruct (negb (sum1 mod 256 =? byte_at data 16)) eqn:Hsum; [reflexivity|].
  destruct (17 <? length data)%nat eqn:H17.
  - destruct (length data <? 21)%nat eqn:H21.
    + apply Nat.ltb_lt in H21.
      destruct (21 <=? length data)%nat eqn:H21'; [apply Nat.leb_le in H21'; lia|].
      reflexivity.
    + apply Nat.ltb_ge in H21.
      destruct (21 <=? length data)%nat eqn:H21'; [|apply Nat.leb_gt in H21'; lia].
      assert (H20 : (20 < length data)%nat) by lia.
      assert (Hext : (17 + 3 <= length data)%nat) by lia.
      rewrite (bind_Some _ _ _ _ _
                 (checksum_loop_in_bounds data (seq 17 3) 0 _
                    (conj (Z.le_refl 0) eq_refl) (Forall_seq_lt 17 3 _ Hext))).
      rewrite (bind_Some _ _ _ _ _ (read_in_bounds data 20 _ H20)).
      rewrite Z.add_0_l. fold sum2.
      cbn [andb].
      destruct (sum2 mod 256 =? byte_at data 20); reflexivity.
  - apply Nat.ltb_ge in H17.
    destruct (21 <=? length data)%nat eqn:H21'; [apply Nat.leb_le in H21'; lia|].
    reflexivity.
Qed.

(** ** Rules of the program logic *)

Section HoareRules.
Context {W : Type}.

Lemma hoare_ret {A} (P : W -> Prop) (Q : A -> W -> Prop) (a : A) :
  (forall w, P w -> Q a w) -> hoare P (ret a) Q.
Proof.
  intros H w Hw. exists a, w. split; [reflexivity | auto].
Qed.

Lemma hoare_bind {A B} (P : W -> Prop) (Q : A -> W -> Prop) (R : B -> W -> Prop)
    (c : M W A) (k : A -> M W B) :
  hoare P c Q -> (forall a, hoare (Q a) (k a) R) -> hoare P (bind c k) R.
Proof.
  intros Hc Hk w Hw.
  destruct (Hc w Hw) as (a & w1 & Ec & Hq).
  destruct (Hk a w1 Hq) as (b & w2 & Ek & Hr).
  exists b, w2. split; [|exact Hr].
  rewrite (bind_Some _ _ _ _ _ Ec). exact Ek.
Qed.

Lemma hoare_conseq {A} (P P' : W -> Prop) (Q Q' : A -> W -> Prop) (c : M W A) :
  hoare P' c Q' -> (forall w, P w -> P' w) -> (forall a w, Q' a w -> Q a w) ->
  hoare P c Q.
Proof.
  intros Hc Hp Hq w Hw.
  destruct (Hc w (Hp w Hw)) as (a & w' & E & H).
  exists a, w'. split; [exact E | auto].
Qed.

Lemma hoare_gets {A} (P : W -> Prop) (Q : A -> W -> Prop) (f : W -> A) :
  (forall w, P w -> Q (f w) w) -> hoare P (gets f) Q.
Proof.
  intros H w Hw. exists (f w), w. split; [reflexivity | auto].
Qed.

Lemma hoare_modify (P : W -> Prop) (Q : unit -> W -> Prop) (f : W -> W) :
  (forall w, P w -> Q tt (f w)) -> hoare P (modify f) Q.
Proof.
  intros H w Hw. exists tt, (f w). split; [reflexivity | auto].
Qed.

Lemma hoare_at_ (P : W -> Prop) (Q : Z -> W -> Prop) (data : list byte) (i : nat) :
  (i < length data)%nat ->
  (forall w, P w -> Q (byte_at data i) w) ->
  hoare P (at_ data i) Q.
Proof.
  intros Hi H w Hw. exists (byte_at data i), w. split; [|auto].
  unfold at_, byte_at.
  destruct (nth_error data i) as [b|] eqn:E.
  - now rewrite (nth_error_nth _ _ x00 E).
  - apply nth_error_None in E. lia.
Qed.

Lemma hoare_untraced {A} (P : W -> Prop) (Q : A -> W -> Prop)
    (c : M (list nat) A) (a : A) (trace : list nat) :
  c [] = Some (a, trace) ->
  (forall w, P w -> Q a w) ->
  hoare P (untraced c) Q.
Proof.
  intros E H w Hw. exists a, w. split; [|auto].
  unfold untraced. now rewrite E.
Qed.

Lemma inv_ret {A} (I : W -> Prop) (a : A) : inv I (ret a).
Proof. apply hoare_ret. auto. Qed.

Lemma inv_bind {A B} (I : W -> Prop) (c : M W A) (k : A -> M W B) :
  inv I c -> (forall a, inv I (k a)) -> inv I (bind c k).
Proof. intros Hc Hk. eapply hoare_bind; [exact Hc | exact Hk]. Qed.

Lemma inv_when (I : W -> Prop) (b : bool) (body : M W unit) :
  inv I body -> inv I (when b body).
Proof. intros H. destruct b; [exact H | apply inv_ret]. Qed.

Lemma inv_gets {A} (I : W -> Prop) (f : W -> A) : inv I (gets f).
Proof. apply hoare_gets. auto. Qed.

Lemma inv_at_ (I : W -> Prop) (data : list byte) (i : nat) :
  (i < length data)%nat -> inv I (at_ data i).
Proof. intros Hi. apply hoare_at_; auto. Qed.

End HoareRules.

Section SimRules.
Context {W : Type} (E : W -> W -> Prop).

Lemma sim_ret {A} (a : A) : sim E (ret a).
Proof. intros w1 w2 H. cbn. auto. Qed.

Lemma sim_fail {A} : sim E (@fail W A).
Proof. intros w1 w2 H. exact Logic.I. Qed.

Lemma sim_bind {A B} (c : M W A) (k : A -> M W B) :
  sim E c -> (forall a, sim E (k a)) -> sim E (bind c k).
Proof.
  intros Hc Hk w1 w2 H. unfold bind.
  specialize (Hc w1 w2 H).
  destruct (c w1) as [[a1 w1']|], (c w2) as [[a2 w2']|]; try contradiction; [|exact Logic.I].
  destruct Hc as [<- H']. apply Hk, H'.
Qed.

Lemma sim_when (b : bool) (body : M W unit) :
  (b = true -> sim E body) -> sim E (when b body).
Proof. intros H. destruct b; [auto | apply sim_ret]. Qed.

Lemma sim_gets {A} (f : W -> A) :
  (forall w1 w2, E w1 w2 -> f w1 = f w2) -> sim E (gets f).
Proof. intros H w1 w2 He. cbn. auto. Qed.

Lemma sim_modify (f : W -> W) :
  (forall w1 w2, E w1 w2 -> E (f w1) (f w2)) -> sim E (modify f).
Proof. intros H w1 w2 He. cbn. auto. Qed.

Lemma sim_at_ (data : list byte) (i : nat) : sim E (at_ data i).
Proof.
  intros w1 w2 H. unfold at_. destruct (nth_error data i); [auto | exact Logic.I].
Qed.

Lemma sim_untraced {A} (c : M (list nat) A) : sim E (untraced c).
Proof.
  intros w1 w2 H. unfold untraced. destruct (c []) as [[a tr]|]; [auto | exact Logic.I].
Qed.

End SimRules.

(** ** Facts about the newer version *)

Module misol_weather_facts.
Import misol_weather.

(** One statement of a member function, under an invariant. *)
Ltac inv_statement :=
  try match goal with
      | |- hoare ?I ?c (fun _ => ?I) => change (inv I c)
      end;
  repeat first
    [ apply inv_ret
    | apply inv_gets
    | apply inv_at_; lia
    | apply inv_when
    | apply inv_bind; [ | intros ? ]
    | match goal with
      | H : forall p, inv _ (publish_state p) |- inv _ (publish_state _) => apply H
      | H : forall v, inv _ (set_statics v) |- inv _ (set_statics _) => apply H
      | H : forall v, inv _ (set_previous_precipitation_ (Some v))
        |- inv _ (set_previous_precipitation_ (Some _)) => apply H
      | H : forall v, inv _ (set_previous_precipitation_timestamp_ v)
        |- inv _ (set_previous_precipitation_timestamp_ _) => apply H
      | |- inv _ (if ?b then _ else _) => destruct b
      | |- inv _ (match ?r with NaN => _ | Val _ => _ end) => destruct r
      end ].

Section Invariants.
Variables Before After : World -> Prop.
Hypothesis Before_publish : forall p, inv Before (publish_state p).
Hypothesis After_publish : forall p, inv After (publish_state p).
Hypothesis After_statics : forall v, inv After (set_statics v).

Lemma detect_night_inv (uv lower upper : Q) : inv After (detect_night uv lower upper).
Proof.
  unfold detect_night. inv_statement.
Qed.

(** [process_packet_] on a validated buffer completes; [Before] holds up to
    the precipitation block, which establishes [After]. *)
Lemma process_packet_hoare (cfg : Config) (data : list byte) (len : nat)
    (has_pressure : bool) (now : Z) :
  (17 <= length data)%nat ->
  (has_pressure = true -> (21 <= length data)%nat) ->
  (forall accumulated_precipitation,
      hoare Before (precipitation_update cfg accumulated_precipitation now)
            (fun _ => After)) ->
  hoare Before (process_packet_ cfg data len has_pressure now) (fun _ => After).
Proof.
  intros Hlen Hext Hprecipitation. unfold process_packet_.
  assert (Hpressure : has_pressure = false \/ (21 <= length data)%nat)
    by (destruct has_pressure; auto).
  clear Hext.
  do 15 (eapply (hoare_bind Before (fun _ => Before));
         [ solve [ destruct Hpressure as [-> | Hpressure]; inv_statement ]
         | intros ? ]).
  eapply (hoare_bind Before (fun _ => After)); [ apply Hprecipitation | intros ? ].
  pose proof detect_night_inv as Hnight.
  do 9 (eapply (hoare_bind After (fun _ => After));
        [ solve [ inv_statement; apply Hnight ] | intros ? ]).
  inv_statement.
Qed.

End Invariants.

(** *** The timeout branch and the shape of [loop] *)

Lemma World_publish_nil (w : World) : World_publish [] w = w.
Proof.
  destruct w. unfold World_publish. cbn. now rewrite app_nil_r.
Qed.

Lemma World_publish_app (l1 l2 : list publication) (w : World) :
  World_publish l2 (World_publish l1 w) = World_publish (l1 ++ l2) w.
Proof.
  unfold World_publish. cbn. now rewrite app_assoc.
Qed.

Lemma when_publish_run {B} (b : bool) (p : publication) (k : unit -> M World B)
    (w : World) :
  bind (when b (publish_state p)) k w = k tt (World_publish (if b then [p] else []) w).
Proof.
  destruct b; cbn.
  - reflexivity.
  - now rewrite World_publish_nil.
Qed.

Lemma reset_publications_unfold (cfg : Config) :
  reset_publications cfg =
  (if temperature_sensor_ cfg then [Sensor temperature_sensor NaN] else [])
  ++ (if humidity_sensor_ cfg then [Sensor humidity_sensor NaN] else [])
  ++ (if pressure_sensor_ cfg then [Sensor pressure_sensor NaN] else [])
  ++ (if wind_speed_sensor_ cfg then [Sensor wind_speed_sensor NaN] else [])
  ++ (if wind_gust_sensor_ cfg then [Sensor wind_gust_sensor NaN] else [])
  ++ (if wind_direction_degrees_sensor_ cfg
      then [Sensor wind_direction_degrees_sensor NaN] else [])
  ++ (if accumulated_precipitation_sensor_ cfg
      then [Sensor accumulated_precipitation_sensor NaN] else [])
  ++ (if uv_intensity_sensor_ cfg then [Sensor uv_intensity_sensor NaN] else [])
  ++ (if light_sensor_ cfg then [Sensor light_sensor NaN] else [])
  ++ (if uv_index_sensor_ cfg then [Sensor uv_index_sensor NaN] else [])
  ++ (if precipitation_intensity_sensor_ cfg
      then [Sensor precipitation_intensity_sensor NaN] else []).
Proof.
  unfold reset_publications, reset_order. cbn [filter configured].
  repeat match goal with
         | |- context [if ?b then _ :: _ else _] => destruct b
         end; reflexivity.
Qed.

Lemma reset_sub_entities_run (cfg : Config) (w : World) :
  reset_sub_entities_ cfg w =
  Some (tt, World_station
              (fun s => if precipitation_intensity_sensor_ cfg
                        then State_previous_precipitation_ None s else s)
              (World_publish (reset_publications cfg) w)).
Proof.
  unfold reset_sub_entities_.
  do 10 (rewrite when_publish_run; try rewrite World_publish_app).
  rewrite reset_publications_unfold, !app_assoc.
  destruct (precipitation_intensity_sensor_ cfg); cbn.
  - unfold World_station, World_publish. cbn. now rewrite !app_assoc.
  - unfold World_station, World_publish. cbn. now rewrite !app_nil_r.
Qed.

Lemma classify_accepted_length (rx : list byte) :
  classify rx <> WRONG_PACKET -> (17 <= length rx)%nat.
Proof.
  unfold classify. destruct (length rx <? 17)%nat eqn:H; [congruence|].
  intros _. now apply Nat.ltb_ge in H.
Qed.

Lemma classify_pressure_length (rx : list byte) :
  classify rx = BASIC_WITH_PRESSURE -> (21 <= length rx)%nat.
Proof.
  unfold classify.
  destruct (length rx <? 17)%nat; [discriminate|].
  destruct (negb _); [discriminate|].
  destruct (negb _); [discriminate|].
  destruct (21 <=? length rx)%nat eqn:H; cbn [andb]; [|discriminate].
  intros _. now apply Nat.leb_le in H.
Qed.

Lemma PacketType_eqb_eq (a b : PacketType) : PacketType_eqb a b = true <-> a = b.
Proof.
  destruct a, b; cbn; split; congruence.
Qed.

(** [loop], branch by branch. *)
Lemma loop_unfold (cfg : Config) (now : Z) (rx : list byte) (w : World) :
  loop cfg now rx w =
  let w1 := if timeout_fires now w then after_timeout cfg w else w in
  if (0 <? length rx)%nat then
    if negb (PacketType_eqb (classify rx) WRONG_PACKET)
    then process_packet_ cfg rx (length rx)
           (PacketType_eqb (classify rx) BASIC_WITH_PRESSURE) now (after_receipt now w1)
    else Some (tt, after_receipt now w1)
  else Some (tt, w1).
Proof.
  unfold loop, timeout_fires. cbn zeta.
  unfold bind at 1. cbn [gets]. unfold bind at 1. cbn [gets].
  set (fires := first_data_received_ (station w) && _).
  assert (Hfirst :
    (when fires (set_first_data_received_ false ;; reset_sub_entities_ cfg)) w
    = Some (tt, if fires then after_timeout cfg w else w)).
  { destruct fires; [|reflexivity].
    cbn [when]. unfold bind, set_first_data_received_, with_station, modify.
    rewrite reset_sub_entities_run. reflexivity. }
  rewrite (bind_Some _ _ _ _ _ Hfirst).
  destruct (0 <? length rx)%nat; [|reflexivity].
  cbn [when].
  unfold bind at 1. unfold set_first_data_received_ at 1, with_station at 1, modify at 1.
  unfold bind at 1. unfold set_last_packet_time_ at 1, with_station at 1, modify at 1.
  unfold bind at 1. unfold untraced. rewrite check_packet_run.
  fold (after_receipt now (if fires then after_timeout cfg w else w)).
  destruct (negb (PacketType_eqb (classify rx) WRONG_PACKET)); reflexivity.
Qed.

(** *** What [process_packet_] leaves alone *)

Section PrecipitationInvariant.
Variable I : World -> Prop.
Hypothesis I_previous : forall v, inv I (set_previous_precipitation_ (Some v)).
Hypothesis I_timestamp : forall v, inv I (set_previous_precipitation_timestamp_ v).

Lemma precipitation_update_inv (cfg : Config) (accumulated_precipitation now : Z) :
  inv I (precipitation_update cfg accumulated_precipitation now).
Proof.
  unfold precipitation_update.
  apply inv_bind; [apply inv_gets | intros previous].
  apply inv_bind; [apply inv_gets | intros timestamp].
  destruct previous; inv_statement.
Qed.

End PrecipitationInvariant.

Ltac kept_side :=
  first [ reflexivity | eexists; reflexivity | exists []; now rewrite app_nil_r ].

Lemma kept_refl (w : World) : kept w w.
Proof.
  repeat split. exists []. now rewrite app_nil_r.
Qed.

Lemma kept_modify (w0 : World) (f : World -> World) :
  (forall w, first_data_received_ (station (f w)) = first_data_received_ (station w)) ->
  (forall w, last_packet_time_ (station (f w)) = last_packet_time_ (station w)) ->
  (forall w, exists l, published (f w) = published w ++ l) ->
  inv (kept w0) (modify f).
Proof.
  intros Hf Ht Hp. apply hoare_modify. intros w (H1 & H2 & l & H3).
  repeat split.
  - now rewrite Hf.
  - now rewrite Ht.
  - destruct (Hp w) as [l' Hl']. exists (l ++ l').
    now rewrite Hl', H3, app_assoc.
Qed.

Lemma process_packet_kept (cfg : Config) (data : list byte) (len : nat)
    (has_pressure : bool) (now : Z) (w : World) :
  (17 <= length data)%nat ->
  (has_pressure = true -> (21 <= length data)%nat) ->
  exists w', process_packet_ cfg data len has_pressure now w = Some (tt, w')
             /\ kept w w'.
Proof.
  intros Hlen Hext.
  assert (Hpublish : forall p, inv (kept w) (publish_state p)).
  { intros p. apply kept_modify; intros w1; cbn; kept_side. }
  assert (Hstatics : forall v, inv (kept w) (set_statics v)).
  { intros v. apply kept_modify; intros w1; cbn; kept_side. }
  assert (Hprevious : forall v, inv (kept w) (set_previous_precipitation_ (Some v))).
  { intros v. apply kept_modify; intros w1; cbn; kept_side. }
  assert (Htimestamp : forall v, inv (kept w) (set_previous_precipitation_timestamp_ v)).
  { intros v. apply kept_modify; intros w1; cbn; kept_side. }
  destruct (process_packet_hoare (kept w) (kept w) Hpublish Hpublish Hstatics
              cfg data len has_pressure now Hlen Hext
              (fun acc => precipitation_update_inv (kept w) Hprevious Htimestamp cfg acc now)
              w (kept_refl w)) as ([] & w' & E & H).
  exists w'. auto.
Qed.

(** [loop] always completes. *)
Lemma loop_total (cfg : Config) (now : Z) (rx : list byte) (w : World) :
  exists w', loop cfg now rx w = Some (tt, w').
Proof.
  rewrite loop_unfold. cbn zeta.
  destruct (0 <? length rx)%nat; [|eauto].
  destruct (negb (PacketType_eqb (classify rx) WRONG_PACKET)) eqn:Hacc; [|eauto].
  apply negb_true_iff in Hacc.
  edestruct process_packet_kept as (w' & E & _); [| | exists w'; exact E].
  - apply classify_accepted_length. intros Hc. rewrite Hc in Hacc. discriminate.
  - intros Hp. apply classify_pressure_length. now apply PacketType_eqb_eq.
Qed.

(** *** The precipitation baseline *)

Lemma precipitation_update_establishes (cfg : Config)
    (accumulated_precipitation now : Z) :
  hoare (fun _ => True)
        (precipitation_update cfg accumulated_precipitation now)
        (fun _ w => previous_precipitation_ (station w) <> None).
Proof.
  intros w _. unfold precipitation_update.
  unfold bind at 1. cbn [gets]. unfold bind at 1. cbn [gets].
  destruct (previous_precipitation_ (station w)) as [previous|] eqn:Hprevious.
  - destruct (s_gt_ms _ _).
    + eexists _, _. split; [reflexivity|]. cbn. discriminate.
    + eexists _, _. split; [reflexivity|]. rewrite Hprevious. discriminate.
  - eexists _, _. split; [reflexivity|]. cbn. discriminate.
Qed.

Lemma process_packet_establishes (cfg : Config) (data : list byte) (len : nat)
    (has_pressure : bool) (now : Z) (w : World) :
  (17 <= length data)%nat ->
  (has_pressure = true -> (21 <= length data)%nat) ->
  exists w', process_packet_ cfg data len has_pressure now w = Some (tt, w')
             /\ previous_precipitation_ (station w') <> None.
Proof.
  intros Hlen Hext.
  destruct (process_packet_hoare
              (fun _ => True) (fun w => previous_precipitation_ (station w) <> None))
    with (cfg := cfg) (data := data) (len := len) (has_pressure := has_pressure)
         (now := now) (w := w)
    as ([] & w' & E & H); auto.
  - intros p. apply hoare_modify. auto.
  - intros p. apply hoare_modify. auto.
  - intros v. apply hoare_modify. auto.
  - intros acc. apply precipitation_update_establishes.
  - exists w'. auto.
Qed.

(** The baseline after one tick, against the ghost. *)
Lemma loop_baseline (cfg : Config) (now : Z) (rx : list byte) (w : World)
    (established : bool) :
  precipitation_intensity_sensor_ cfg = true ->
  (previous_precipitation_ (station w) = None <-> established = false) ->
  exists w',
    loop cfg now rx w = Some (tt, w')
    /\ (previous_precipitation_ (station w') = None <->
        (if packet_accepted rx then true
         else if timeout_fires now w then false else established) = false).
Proof.
  intros Hsensor Hghost. rewrite loop_unfold. cbn zeta. unfold packet_accepted.
  set (w1 := if timeout_fires now w then after_timeout cfg w else w).
  assert (Hw1 : previous_precipitation_ (station w1) = None <->
                (if timeout_fires now w then false else established) = false).
  { unfold w1. destruct (timeout_fires now w); [|exact Hghost].
    cbn. rewrite Hsensor. cbn. tauto. }
  destruct (0 <? length rx)%nat; cbn [andb]; [|exists w1; split; [reflexivity | exact Hw1]].
  destruct (negb (PacketType_eqb (classify rx) WRONG_PACKET)) eqn:Hacc.
  - apply negb_true_iff in Hacc.
    destruct (process_packet_establishes cfg rx (length rx)
                (PacketType_eqb (classify rx) BASIC_WITH_PRESSURE) now
                (after_receipt now w1)) as (w' & E & Hsome).
    + apply classify_accepted_length. intros Hc. rewrite Hc in Hacc. discriminate.
    + intros Hp. apply classify_pressure_length. now apply PacketType_eqb_eq.
    + exists w'. split; [exact E|]. split; [contradiction | discriminate].
  - exists (after_receipt now w1). split; [reflexivity | exact Hw1].
Qed.

Lemma run_baseline (cfg : Config) (ticks : list tick) :
  precipitation_intensity_sensor_ cfg = true ->
  sentinel_free ticks = true ->
  forall (w : World) (established : bool),
    (previous_precipitation_ (station w) = None <-> established = false) ->
    exists w',
      run cfg ticks w = Some (tt, w')
      /\ (previous_precipitation_ (station w') = None <->
          baseline_established cfg ticks w established = false).
Proof.
  intros Hsensor. induction ticks as [|[now rx] rest IH]; intros Hfree w established Hghost.
  - exists w. split; [reflexivity | exact Hghost].
  - cbn [sentinel_free forallb snd] in Hfree. apply andb_true_iff in Hfree.
    destruct Hfree as [Hrx Hrest].
    destruct (loop_baseline cfg now rx w established Hsensor Hghost) as (w1 & E1 & H1).
    assert (Hvalid : valid_counter_reading rx = packet_accepted rx).
    { unfold valid_counter_reading. destruct (packet_accepted rx); [|reflexivity].
      cbn [implb] in Hrx. now rewrite Hrx. }
    rewrite <- Hvalid in H1.
    destruct (IH Hrest w1 _ H1) as (w' & E & H).
    exists w'. cbn [run baseline_established]. rewrite E1.
    split; [|exact H].
    rewrite (bind_Some _ _ _ _ _ E1). exact E.
Qed.

(** *** Independence from the statics without a night sensor *)

Lemma sim_publish_state (p : publication) : sim same_session (publish_state p).
Proof.
  apply sim_modify. intros w1 w2 [Hs Hp]. split; cbn; congruence.
Qed.

Lemma sim_with_station (f : State -> State) : sim same_session (with_station f).
Proof.
  apply sim_modify. intros w1 w2 [Hs Hp]. split; cbn; congruence.
Qed.

Lemma sim_gets_station {A} (f : State -> A) :
  sim same_session (gets (fun w => f (station w))).
Proof.
  apply sim_gets. intros w1 w2 [Hs Hp]. congruence.
Qed.

Ltac sim_statement :=
  repeat first
    [ progress cbv zeta
    | match goal with
      | H : sim _ ?c |- sim _ ?c => exact H
      | H : forall a b, sim _ (?f _ a b) |- sim _ (?f _ _ _) => apply H
      | H : forall a b, _ -> sim _ (?f _ _ _ a b) |- sim _ (?f _ _ _ _ _) =>
          apply H; assumption
      end
    | apply sim_ret
    | apply sim_at_
    | apply sim_untraced
    | apply sim_publish_state
    | apply sim_with_station
    | apply (sim_gets_station first_data_received_)
    | apply (sim_gets_station last_packet_time_)
    | apply (sim_gets_station previous_precipitation_)
    | apply (sim_gets_station previous_precipitation_timestamp_)
    | apply sim_bind; [ | intros ? ]
    | match goal with
      | H : ?b = false |- sim _ (when ?b _) => rewrite H; apply sim_ret
      | |- sim _ (when _ _) => apply sim_when; intros _
      | |- sim _ (if ?b then _ else _) => destruct b
      | |- sim _ (match ?r with NaN => _ | Val _ => _ end) => destruct r
      | |- sim _ (match ?r with Some _ => _ | None => _ end) => destruct r
      end ].

Lemma reset_sub_entities_sim (cfg : Config) : sim same_session (reset_sub_entities_ cfg).
Proof.
  unfold reset_sub_entities_, set_previous_precipitation_. sim_statement.
Qed.

Lemma precipitation_update_sim (cfg : Config) (accumulated_precipitation now : Z) :
  sim same_session (precipitation_update cfg accumulated_precipitation now).
Proof.
  unfold precipitation_update, set_previous_precipitation_,
    set_previous_precipitation_timestamp_.
  sim_statement.
Qed.

Lemma process_packet_sim (cfg : Config) (data : list byte) (len : nat)
    (has_pressure : bool) (now : Z) :
  night_binary_sensor_ cfg = false ->
  sim same_session (process_packet_ cfg data len has_pressure now).
Proof.
  intros Hnight. unfold process_packet_.
  pose proof (precipitation_update_sim cfg) as Hprecipitation.
  sim_statement.
Qed.

Lemma loop_sim (cfg : Config) (now : Z) (rx : list byte) :
  night_binary_sensor_ cfg = false ->
  sim same_session (loop cfg now rx).
Proof.
  intros Hnight. unfold loop, set_first_data_received_, set_last_packet_time_.
  pose proof (reset_sub_entities_sim cfg) as Hreset.
  pose proof (process_packet_sim cfg rx (length rx)) as Hprocess.
  sim_statement.
Qed.

End misol_weather_facts.

(** ** Facts about the older version *)

Module misol_facts.
Import misol.

Ltac inv_statement :=
  try match goal with
      | |- hoare ?I ?c (fun _ => ?I) => change (inv I c)
      end;
  repeat first
    [ apply inv_ret
    | apply inv_gets
    | apply inv_at_; lia
    | apply inv_when
    | apply inv_bind; [ | intros ? ]
    | match goal with
      | H : forall p, inv _ (publish_state p) |- inv _ (publish_state _) => apply H
      | H : forall p, inv _ (publish_state p)
        |- inv _ (publish_state_unchecked true _) => apply H
      | H : forall v, inv _ (set_previos_precipitation_ v)
        |- inv _ (set_previos_precipitation_ _) => apply H
      | H : forall v, inv _ (set_previos_precipitation_timestamp_ v)
        |- inv _ (set_previos_precipitation_timestamp_ _) => apply H
      | |- inv _ (if ?b then _ else _) => destruct b
      end ].

Section Invariants.
Variable I : World -> Prop.
Hypothesis I_publish : forall p, inv I (publish_state p).
Hypothesis I_previos : forall v, inv I (set_previos_precipitation_ v).
Hypothesis I_timestamp : forall v, inv I (set_previos_precipitation_timestamp_ v).

Lemma misol_precipitation_update_inv (accumulated_precipitation now clock : Z) :
  inv I (precipitation_update accumulated_precipitation now clock).
Proof.
  unfold precipitation_update. inv_statement.
Qed.

(** [process_packet_] on a validated buffer completes and keeps [I],
    provided the battery sensor it publishes to unchecked is configured. *)
Lemma misol_process_packet_inv (cfg : Config) (data : list byte) (len : nat)
    (has_pressure : bool) (now clock : Z) :
  battery_level_binary_sensor_ cfg = true ->
  (17 <= length data)%nat ->
  (has_pressure = true -> (21 <= length data)%nat) ->
  inv I (process_packet_ cfg data len has_pressure now clock).
Proof.
  intros Hbattery Hlen Hext. unfold process_packet_. rewrite Hbattery.
  assert (Hpressure : has_pressure = false \/ (21 <= length data)%nat)
    by (destruct has_pressure; auto).
  clear Hext.
  pose proof misol_precipitation_update_inv as Hprecipitation.
  do 17 (apply inv_bind;
         [ solve [ destruct Hpressure as [-> | Hpressure]; inv_statement;
                   apply Hprecipitation ]
         | intros ? ]).
  inv_statement.
Qed.

End Invariants.

Lemma misol_World_publish_nil (w : World) : World_publish [] w = w.
Proof.
  destruct w. unfold World_publish. cbn. now rewrite app_nil_r.
Qed.

Lemma misol_World_publish_app (l1 l2 : list publication) (w : World) :
  World_publish l2 (World_publish l1 w) = World_publish (l1 ++ l2) w.
Proof.
  unfold World_publish. cbn. now rewrite app_assoc.
Qed.

Lemma misol_when_publish_run {B} (b : bool) (p : publication) (k : unit -> M World B)
    (w : World) :
  bind (when b (publish_state p)) k w = k tt (World_publish (if b then [p] else []) w).
Proof.
  destruct b; cbn.
  - reflexivity.
  - now rewrite misol_World_publish_nil.
Qed.

Lemma misol_reset_publications_unfold (cfg : Config) :
  reset_publications cfg =
  (if temperature_sensor_ cfg then [Sensor temperature_sensor NaN] else [])
  ++ (if humidity_sensor_ cfg then [Sensor humidity_sensor NaN] else [])
  ++ (if pressure_sensor_ cfg then [Sensor pressure_sensor NaN] else [])
  ++ (if wind_speed_sensor_ cfg then [Sensor wind_speed_sensor NaN] else [])
  ++ (if wind_gust_sensor_ cfg then [Sensor wind_gust_sensor NaN] else [])
  ++ (if wind_direction_degrees_sensor_ cfg
      then [Sensor wind_direction_degrees_sensor NaN] else [])
  ++ (if accumulated_precipitation_sensor_ cfg
      then [Sensor accumulated_precipitation_sensor NaN] else [])
  ++ (if uv_intensity_sensor_ cfg then [Sensor uv_intensity_sensor NaN] else [])
  ++ (if light_sensor_ cfg then [Sensor light_sensor NaN] else [])
  ++ (if uv_index_sensor_ cfg then [Sensor uv_index_sensor NaN] else [])
  ++ (if precipitation_intensity_sensor_ cfg
      then [Sensor precipitation_intensity_sensor NaN] else []).
Proof.
  unfold reset_publications, reset_order. cbn [filter configured].
  repeat match goal with
         | |- context [if ?b then _ :: _ else _] => destruct b
         end; reflexivity.
Qed.

Lemma misol_reset_sub_entities_run (cfg : Config) (w : World) :
  reset_sub_entities_ cfg w =
  Some (tt, World_station
              (fun s => if precipitation_intensity_sensor_ cfg
                        then State_previos_precipitation_ 0xFFFF s else s)
              (World_publish (reset_publications cfg) w)).
Proof.
  unfold reset_sub_entities_.
  do 10 (rewrite misol_when_publish_run; try rewrite misol_World_publish_app).
  rewrite misol_reset_publications_unfold, !app_assoc.
  destruct (precipitation_intensity_sensor_ cfg); cbn.
  - unfold World_station, World_publish. cbn. now rewrite !app_assoc.
  - unfold World_station, World_publish. cbn. now rewrite !app_nil_r.
Qed.

Lemma misol_loop_unfold (cfg : Config) (now clock : Z) (rx : list byte) (w : World) :
  loop cfg now clock rx w =
  let w1 := if timeout_fires now w then after_timeout cfg w else w in
  if (0 <? length rx)%nat then
    if negb (PacketType_eqb (classify rx) WRONG_PACKET)
    then process_packet_ cfg rx (length rx)
           (PacketType_eqb (classify rx) BASIC_WITH_PRESSURE) now clock
           (after_receipt now w1)
    else Some (tt, after_receipt now w1)
  else Some (tt, w1).
Proof.
  unfold loop, timeout_fires. cbn zeta.
  unfold bind at 1. cbn [gets]. unfold bind at 1. cbn [gets].
  set (fires := first_data_received_ (station w) && _).
  assert (Hfirst :
    (when fires (set_first_data_received_ false ;; reset_sub_entities_ cfg)) w
    = Some (tt, if fires then after_timeout cfg w else w)).
  { destruct fires; [|reflexivity].
    cbn [when]. unfold bind, set_first_data_received_, with_station, modify.
    rewrite misol_reset_sub_entities_run. reflexivity. }
  rewrite (bind_Some _ _ _ _ _ Hfirst).
  destruct (0 <? length rx)%nat; [|reflexivity].
  cbn [when].
  unfold bind at 1. unfold set_first_data_received_ at 1, with_station at 1, modify at 1.
  unfold bind at 1. unfold set_last_packet_time_ at 1, with_station at 1, modify at 1.
  unfold bind at 1. unfold untraced. rewrite check_packet_run.
  fold (after_receipt now (if fires then after_timeout cfg w else w)).
  destruct (negb (PacketType_eqb (classify rx) WRONG_PACKET)); reflexivity.
Qed.

Lemma misol_kept_refl (w : World) : kept w w.
Proof.
  repeat split. exists []. now rewrite app_nil_r.
Qed.

Lemma misol_kept_modify (w0 : World) (f : World -> World) :
  (forall w, first_data_received_ (station (f w)) = first_data_received_ (station w)) ->
  (forall w, last_packet_time_ (station (f w)) = last_packet_time_ (station w)) ->
  (forall w, exists l, published (f w) = published w ++ l) ->
  inv (kept w0) (modify f).
Proof.
  intros Hf Ht Hp. apply hoare_modify. intros w (H1 & H2 & l & H3).
  repeat split.
  - now rewrite Hf.
  - now rewrite Ht.
  - destruct (Hp w) as [l' Hl']. exists (l ++ l').
    now rewrite Hl', H3, app_assoc.
Qed.

Ltac kept_side :=
  first [ reflexivity | eexists; reflexivity | exists []; now rewrite app_nil_r ].

Lemma misol_process_packet_kept (cfg : Config) (data : list byte) (len : nat)
    (has_pressure : bool) (now clock : Z) (w : World) :
  battery_level_binary_sensor_ cfg = true ->
  (17 <= length data)%nat ->
  (has_pressure = true -> (21 <= length data)%nat) ->
  exists w', process_packet_ cfg data len has_pressure now clock w = Some (tt, w')
             /\ kept w w'.
Proof.
  intros Hbattery Hlen Hext.
  assert (Hpublish : forall p, inv (kept w) (publish_state p)).
  { intros p. apply misol_kept_modify; intros w1; cbn; kept_side. }
  assert (Hprevios : forall v, inv (kept w) (set_previos_precipitation_ v)).
  { intros v. apply misol_kept_modify; intros w1; cbn; kept_side. }
  assert (Htimestamp : forall v, inv (kept w) (set_previos_precipitation_timestamp_ v)).
  { intros v. apply misol_kept_modify; intros w1; cbn; kept_side. }
  destruct (misol_process_packet_inv (kept w) Hpublish Hprevios Htimestamp
              cfg data len has_pressure now clock Hbattery Hlen Hext
              w (misol_kept_refl w)) as ([] & w' & E & H).
  exists w'. auto.
Qed.

End misol_facts.

(** ** Frame validation *)

Ltac classify_case :=
  repeat split; try discriminate; intros;
  solve [tauto | lia | intuition lia | intuition congruence].

(** C5: for every byte buffer, [check_packet_] returns [WRONG_PACKET]
    exactly when the length is below 17, or byte 0 is not 0x24, or the
    mod-256 sum of bytes [0,16) differs from byte 16; when none of those
    hold it returns [BASIC_WITH_PRESSURE] exactly when the length is at
    least 21 and the mod-256 sum of bytes [17,20) equals byte 20, and
    [BASIC_PACKET] in every other case. *)
Theorem check_packet_classification (data : list byte) :
  exists r trace,
    check_packet_ data (length data) [] = Some (r, trace) /\
    (r = WRONG_PACKET <->
       ((length data < 17)%nat \/ byte_at data 0 <> 0x24
        \/ sum_mod256 data 0 16 <> byte_at data 16)) /\
    (r = BASIC_WITH_PRESSURE <->
       (~ ((length data < 17)%nat \/ byte_at data 0 <> 0x24
           \/ sum_mod256 data 0 16 <> byte_at data 16)
        /\ (21 <= length data)%nat
        /\ sum_mod256 data 17 20 = byte_at data 20)) /\
    (r = BASIC_PACKET <->
       (~ ((length data < 17)%nat \/ byte_at data 0 <> 0x24
           \/ sum_mod256 data 0 16 <> byte_at data 16)
        /\ ~ ((21 <= length data)%nat
              /\ sum_mod256 data 17 20 = byte_at data 20))).
Proof.
  exists (classify data), (check_packet_reads data).
  split; [apply check_packet_run|].
  unfold classify.
  destruct (length data <? 17)%nat eqn:Hlen.
  { apply Nat.ltb_lt in Hlen. classify_case. }
  apply Nat.ltb_ge in Hlen.
  destruct (byte_at data 0 =? 36) eqn:Hsync; cbn [negb].
  2:{ apply Z.eqb_neq in Hsync. classify_case. }
  apply Z.eqb_eq in Hsync.
  destruct (sum_mod256 data 0 16 =? byte_at data 16) eqn:Hsum; cbn [negb].
  2:{ apply Z.eqb_neq in Hsum. classify_case. }
  apply Z.eqb_eq in Hsum.
  destruct (21 <=? length data)%nat eqn:H21; cbn [andb].
  2:{ apply Nat.leb_gt in H21. classify_case. }
  apply Nat.leb_le in H21.
  destruct (sum_mod256 data 17 20 =? byte_at data 20) eqn:Hext.
  - apply Z.eqb_eq in Hext. classify_case.
  - apply Z.eqb_neq in Hext. classify_case.
Qed.

(** C10: for every byte buffer, [check_packet_] completes without reading
    outside the buffer; every index it reads is below the length, an index
    in 0..16 is read only in runs where the length is at least 17, and an
    index above 16 is at most 20 and is read only in runs where the length
    is at least 21. *)
Theorem check_packet_reads_in_bounds (data : list byte) :
  exists r trace,
    check_packet_ data (length data) [] = Some (r, trace) /\
    Forall (fun i => (i < length data)%nat
                     /\ ((i <= 16)%nat -> (17 <= length data)%nat)
                     /\ ((17 <= i)%nat -> (i <= 20)%nat /\ (21 <= length data)%nat))
           trace.
Proof.
  exists (classify data), (check_packet_reads data).
  split; [apply check_packet_run|].
  unfold check_packet_reads.
  destruct (length data <? 17)%nat eqn:Hlen; [constructor|].
  apply Nat.ltb_ge in Hlen.
  destruct (negb (byte_at data 0 =? 36)).
  { repeat constructor; lia. }
  destruct (negb (sum_mod256 data 0 16 =? byte_at data 16)).
  { unfold primary_reads. cbn [seq rev app]. repeat constructor; lia. }
  destruct (21 <=? length data)%nat eqn:H21.
  - apply Nat.leb_le in H21.
    unfold secondary_reads, primary_reads. cbn [seq rev app].
    repeat constructor; lia.
  - unfold primary_reads. cbn [seq rev app]. repeat constructor; lia.
Qed.

(** ** Session bookkeeping and the watchdog *)

Lemma receipt_recorded_new (cfg : misol_weather.Config) (now : Z)
    (rx : list byte) (w : misol_weather.World) :
  (0 < length rx)%nat ->
  exists w',
    misol_weather.loop cfg now rx w = Some (tt, w')
    /\ misol_weather.first_data_received_ (misol_weather.station w') = true
    /\ misol_weather.last_packet_time_ (misol_weather.station w') = now.
Proof.
  intros Hrx. rewrite misol_weather_facts.loop_unfold. cbn zeta.
  apply Nat.ltb_lt in Hrx. rewrite Hrx.
  set (w1 := if misol_weather.timeout_fires now w then _ else w).
  destruct (negb (PacketType_eqb (classify rx) WRONG_PACKET)) eqn:Hacc.
  - apply negb_true_iff in Hacc.
    destruct (misol_weather_facts.process_packet_kept cfg rx (length rx)
                (PacketType_eqb (classify rx) BASIC_WITH_PRESSURE) now
                (misol_weather.after_receipt now w1))
      as (w' & E & Hfirst & Hlast & _).
    + apply misol_weather_facts.classify_accepted_length.
      intros Hc. rewrite Hc in Hacc. discriminate.
    + intros Hp. apply misol_weather_facts.classify_pressure_length.
      now apply misol_weather_facts.PacketType_eqb_eq.
    + exists w'. split; [exact E|]. rewrite Hfirst, Hlast. split; reflexivity.
  - eexists. split; [reflexivity|]. split; reflexivity.
Qed.

Lemma receipt_recorded_old (cfg : misol.Config) (now clock : Z)
    (rx : list byte) (w : misol.World) :
  (0 < length rx)%nat ->
  misol.battery_level_binary_sensor_ cfg = true ->
  exists w',
    misol.loop cfg now clock rx w = Some (tt, w')
    /\ misol.first_data_received_ (misol.station w') = true
    /\ misol.last_packet_time_ (misol.station w') = now.
Proof.
  intros Hrx Hbattery. rewrite misol_facts.misol_loop_unfold. cbn zeta.
  apply Nat.ltb_lt in Hrx. rewrite Hrx.
  set (w1 := if misol.timeout_fires now w then _ else w).
  destruct (negb (PacketType_eqb (classify rx) WRONG_PACKET)) eqn:Hacc.
  - apply negb_true_iff in Hacc.
    destruct (misol_facts.misol_process_packet_kept cfg rx (length rx)
                (PacketType_eqb (classify rx) BASIC_WITH_PRESSURE) now clock
                (misol.after_receipt now w1) Hbattery)
      as (w' & E & Hfirst & Hlast & _).
    + apply misol_weather_facts.classify_accepted_length.
      intros Hc. rewrite Hc in Hacc. discriminate.
    + intros Hp. apply misol_weather_facts.classify_pressure_length.
      now apply misol_weather_facts.PacketType_eqb_eq.
    + exists w'. split; [exact E|]. rewrite Hfirst, Hlast. split; reflexivity.
  - eexists. split; [reflexivity|]. split; reflexivity.
Qed.

(** C8: on every tick in which at least one byte is received, [loop]
    completes with [first_data_received_] true and [last_packet_time_]
    equal to the tick's clock reading, whatever [check_packet_] makes of the
    bytes.  This holds in both versions; the older one publishes the
    battery state through an unchecked pointer, so its battery sensor has to
    be configured for [loop] to be defined at all. *)
Theorem loop_records_receipt (cfg : misol_weather.Config) (cfg_old : misol.Config)
    (now clock : Z) (rx : list byte)
    (w : misol_weather.World) (w_old : misol.World) :
  (0 < length rx)%nat ->
  misol.battery_level_binary_sensor_ cfg_old = true ->
  (exists w',
      misol_weather.loop cfg now rx w = Some (tt, w')
      /\ misol_weather.first_data_received_ (misol_weather.station w') = true
      /\ misol_weather.last_packet_time_ (misol_weather.station w') = now)
  /\ (exists w',
         misol.loop cfg_old now clock rx w_old = Some (tt, w')
         /\ misol.first_data_received_ (misol.station w') = true
         /\ misol.last_packet_time_ (misol.station w') = now).
Proof.
  intros Hrx Hbattery. split.
  - now apply receipt_recorded_new.
  - now apply receipt_recorded_old.
Qed.

Lemma loop_records_receipt_witness :
  (exists w',
      misol_weather.loop all_sensors (seconds 5) frame_bad_checksum
        misol_weather.initial_World = Some (tt, w')
      /\ misol_weather.first_data_received_ (misol_weather.station w') = true
      /\ misol_weather.last_packet_time_ (misol_weather.station w') = seconds 5)
  /\ (exists w',
         misol.loop all_sensors_old (seconds 5) (seconds 5) frame_bad_checksum
           fresh_World_old = Some (tt, w')
         /\ misol.first_data_received_ (misol.station w') = true
         /\ misol.last_packet_time_ (misol.station w') = seconds 5).
Proof.
  apply (loop_records_receipt all_sensors all_sensors_old (seconds 5) (seconds 5)
           frame_bad_checksum misol_weather.initial_World fresh_World_old).
  - simpl. lia.
  - reflexivity.
Defined.

Lemma reset_publications_numeric (cfg : misol_weather.Config) (s : sensor_id) :
  misol_weather.configured cfg s = true ->
  In (Sensor s NaN) (misol_weather.reset_publications cfg).
Proof.
  intros H. unfold misol_weather.reset_publications.
  apply (in_map (fun s => Sensor s NaN)), filter_In. split; [|exact H].
  unfold misol_weather.reset_order. destruct s; cbn; tauto.
Qed.

Lemma reset_publications_no_binary (cfg : misol_weather.Config)
    (b : binary_sensor_id) (v : bool) :
  ~ In (BinarySensor b v) (misol_weather.reset_publications cfg).
Proof.
  unfold misol_weather.reset_publications. intros H.
  apply in_map_iff in H. destruct H as (s & Hs & _). discriminate.
Qed.

(** C3, as the code has it: whenever the session is active and
    [now - last_packet_time_] exceeds the communication timeout at a tick,
    that tick first publishes "no reading" on every configured numeric
    channel and on no binary channel; when no bytes arrived in the tick
    nothing else is published, [first_data_received_] ends false, the
    precipitation baseline is dropped if the precipitation-intensity sensor
    is configured and kept otherwise, and the statics of the night detector
    are left as they were. *)
Theorem timeout_resets_numeric_channels (cfg : misol_weather.Config) (now : Z)
    (rx : list byte) (w : misol_weather.World) :
  misol_weather.first_data_received_ (misol_weather.station w) = true ->
  now - misol_weather.last_packet_time_ (misol_weather.station w)
    > COMMUNICATION_TIMOUT * 1000000 ->
  exists w' l,
    misol_weather.loop cfg now rx w = Some (tt, w')
    /\ misol_weather.published w' =
       misol_weather.published w ++ misol_weather.reset_publications cfg ++ l
    /\ (forall s, misol_weather.configured cfg s = true ->
                  In (Sensor s NaN) (misol_weather.reset_publications cfg))
    /\ (forall b v, ~ In (BinarySensor b v) (misol_weather.reset_publications cfg))
    /\ (rx = [] ->
        l = []
        /\ misol_weather.first_data_received_ (misol_weather.station w') = false
        /\ misol_weather.previous_precipitation_ (misol_weather.station w') =
           (if misol_weather.precipitation_intensity_sensor_ cfg
            then None
            else misol_weather.previous_precipitation_ (misol_weather.station w))
        /\ misol_weather.statics w' = misol_weather.statics w).
Proof.
  intros Hactive Hlate.
  assert (Hfires : misol_weather.timeout_fires now w = true).
  { unfold misol_weather.timeout_fires, ns_gt_ms. rewrite Hactive. cbn [andb].
    apply Z.gtb_lt. lia. }
  rewrite misol_weather_facts.loop_unfold. cbn zeta. rewrite Hfires.
  destruct rx as [|b rx'].
  - exists (misol_weather.after_timeout cfg w), [].
    split; [reflexivity|].
    split; [cbn; now rewrite app_nil_r|].
    split; [apply reset_publications_numeric|].
    split; [apply reset_publications_no_binary|].
    intros _. split; [reflexivity|].
    cbn. destruct (misol_weather.precipitation_intensity_sensor_ cfg); auto.
  - set (rx := b :: rx'). change (0 <? length rx)%nat with true. cbv iota.
    destruct (negb (PacketType_eqb (classify rx) WRONG_PACKET)) eqn:Hacc.
    + apply negb_true_iff in Hacc.
      destruct (misol_weather_facts.process_packet_kept cfg rx (length rx)
                  (PacketType_eqb (classify rx) BASIC_WITH_PRESSURE) now
                  (misol_weather.after_receipt now (misol_weather.after_timeout cfg w)))
        as (w' & E & _ & _ & l & Hl).
      * apply misol_weather_facts.classify_accepted_length.
        intros Hc. rewrite Hc in Hacc. discriminate.
      * intros Hp. apply misol_weather_facts.classify_pressure_length.
        now apply misol_weather_facts.PacketType_eqb_eq.
      * exists w', l. split; [exact E|].
        split; [rewrite Hl; cbn; now rewrite app_assoc|].
        split; [apply reset_publications_numeric|].
        split; [apply reset_publications_no_binary|].
        intros Hrx. discriminate.
    + eexists _, []. split; [reflexivity|].
      split; [cbn; now rewrite app_nil_r|].
      split; [apply reset_publications_numeric|].
      split; [apply reset_publications_no_binary|].
      intros Hrx. discriminate.
Qed.

Lemma timeout_resets_numeric_channels_witness :
  exists w' l,
    misol_weather.loop all_sensors (seconds 121) []
      (misol_weather.after_receipt 0 misol_weather.initial_World) = Some (tt, w')
    /\ misol_weather.published w' =
       misol_weather.published (misol_weather.after_receipt 0 misol_weather.initial_World)
       ++ misol_weather.reset_publications all_sensors ++ l
    /\ (forall s, misol_weather.configured all_sensors s = true ->
                  In (Sensor s NaN) (misol_weather.reset_publications all_sensors))
    /\ (forall b v, ~ In (BinarySensor b v) (misol_weather.reset_publications all_sensors))
    /\ (@nil byte = [] ->
        l = []
        /\ misol_weather.first_data_received_ (misol_weather.station w') = false
        /\ misol_weather.previous_precipitation_ (misol_weather.station w') =
           (if misol_weather.precipitation_intensity_sensor_ all_sensors
            then None
            else misol_weather.previous_precipitation_
                   (misol_weather.station
                      (misol_weather.after_receipt 0 misol_weather.initial_World)))
        /\ misol_weather.statics w' =
           misol_weather.statics (misol_weather.after_receipt 0 misol_weather.initial_World)).
Proof.
  apply (timeout_resets_numeric_channels all_sensors (seconds 121) []
           (misol_weather.after_receipt 0 misol_weather.initial_World)).
  - reflexivity.
  - vm_compute. reflexivity.
Defined.

(** C3 as stated fails: after a tick with a frame at time 0 and a tick
    without bytes 121 seconds later, the timeout has fired, yet the night
    detector still has its history ([first_run] is false, the last result
    is kept) and neither binary channel has been published to again. *)
Lemma timeout_keeps_night_detector :
  exists w1 w2,
    misol_weather.loop all_sensors 0 frame_rain_100 misol_weather.initial_World
      = Some (tt, w1)
    /\ misol_weather.timeout_fires (seconds 121) w1 = true
    /\ misol_weather.loop all_sensors (seconds 121) [] w1 = Some (tt, w2)
    /\ misol_weather.statics w2 =
       {| misol_weather.previous_result := true; misol_weather.first_run := false |}
    /\ misol_weather.statics w2 <> misol_weather.initial_Statics
    /\ binary_channel night_binary_sensor (misol_weather.published w2)
       = binary_channel night_binary_sensor (misol_weather.published w1)
    /\ binary_channel battery_level_binary_sensor (misol_weather.published w2)
       = binary_channel battery_level_binary_sensor (misol_weather.published w1).
Proof.
  eexists. eexists.
  split; [vm_compute; reflexivity|].
  split; [vm_compute; reflexivity|].
  split; [vm_compute; reflexivity|].
  split; [reflexivity|].
  split; [discriminate|].
  split; reflexivity.
Qed.

(** ** The night detector *)

Lemma detect_night_run (uv lower upper : Q) (w : misol_weather.World) :
  misol_weather.detect_night uv lower upper w =
  let result :=
    if misol_weather.first_run (misol_weather.statics w)
    then Qltb uv ((lower + upper) / 2)%Q
    else if misol_weather.previous_result (misol_weather.statics w)
         then Qltb uv upper else Qltb uv lower in
  Some (result,
        {| misol_weather.station := misol_weather.station w;
           misol_weather.statics :=
             {| misol_weather.previous_result := result;
                misol_weather.first_run := false |};
           misol_weather.published := misol_weather.published w |}).
Proof.
  unfold misol_weather.detect_night, bind, gets, misol_weather.set_statics, modify, ret.
  cbn zeta. destruct (misol_weather.first_run (misol_weather.statics w)); reflexivity.
Qed.

Lemma detect_night_calls_subsequent (calls : list (Q * Q * Q)) :
  forall w : misol_weather.World,
    misol_weather.first_run (misol_weather.statics w) = false ->
    exists w',
      misol_weather.detect_night_calls calls w =
      Some (misol_weather.hysteresis
              (misol_weather.previous_result (misol_weather.statics w)) calls, w').
Proof.
  induction calls as [|[[uv lower] upper] rest IH]; intros w Hrun.
  - exists w. reflexivity.
  - cbn [misol_weather.detect_night_calls misol_weather.hysteresis].
    unfold bind at 1. rewrite detect_night_run. cbn zeta. rewrite Hrun.
    set (result := if misol_weather.previous_result _ then _ else _).
    set (w1 := misol_weather.Build_World _ _ _).
    destruct (IH w1 eq_refl) as [w' E].
    exists w'. unfold bind. rewrite E. reflexivity.
Qed.


(** Thresholds 4.5 and 5.5: UV 6.0 starts as day (6.0 is not below the
    midpoint 5.0); 4.8 stays day (not below 4.5); 4.0 turns to night; 5.0
    stays night (below 5.5); 5.6 turns back to day. *)
Example detect_night_example :
  exists w',
    misol_weather.detect_night_calls
      [ (60 # 10, 45 # 10, 55 # 10); (48 # 10, 45 # 10, 55 # 10);
        (40 # 10, 45 # 10, 55 # 10); (50 # 10, 45 # 10, 55 # 10);
        (56 # 10, 45 # 10, 55 # 10) ]%Q
      misol_weather.initial_World
    = Some ([false; false; true; true; false], w').
Proof.
  eexists. vm_compute. reflexivity.
Qed.

(** ** Sentinels and the precipitation rate *)

(** C1 at a failing input: a validated frame whose rain-counter bytes are
    FF FF.  Both versions publish 0xFFFF * 0.3 = 19660.5 on the
    accumulated-precipitation channel instead of "no reading"; and on a
    validated frame whose humidity byte is FF the newer version publishes
    255 on the humidity channel, where the older one publishes "no
    reading". *)
Theorem sentinel_published_as_reading :
  (exists w,
      misol_weather.loop all_sensors 0 frame_rain_sentinel misol_weather.initial_World
        = Some (tt, w)
      /\ channel accumulated_precipitation_sensor (misol_weather.published w)
         = [Val (196605 # 10)])
  /\ (exists w,
         misol.loop all_sensors_old 0 0 frame_rain_sentinel fresh_World_old
           = Some (tt, w)
         /\ channel accumulated_precipitation_sensor (misol.published w)
            = [Val (196605 # 10)])
  /\ (exists w,
         misol_weather.loop all_sensors 0 frame_humidity_sentinel
           misol_weather.initial_World = Some (tt, w)
         /\ channel humidity_sensor (misol_weather.published w) = [Val 255])
  /\ (exists w,
         misol.loop all_sensors_old 0 0 frame_humidity_sentinel fresh_World_old
           = Some (tt, w)
         /\ channel humidity_sensor (misol.published w) = [NaN]).
Proof.
  repeat split; eexists; (split; [vm_compute; reflexivity | reflexivity]).
Qed.

(** On a frame with every field at its sentinel, both versions publish "no
    reading" on the wind-direction, temperature, wind-speed, gust, UV
    intensity, UV index and light channels. *)
Example other_sentinels_honoured :
  exists w w_old,
    misol_weather.loop all_sensors 0 frame_all_sentinels misol_weather.initial_World
      = Some (tt, w)
    /\ misol.loop all_sensors_old 0 0 frame_all_sentinels fresh_World_old
       = Some (tt, w_old)
    /\ Forall (fun s => channel s (misol_weather.published w) = [NaN]
                        /\ channel s (misol.published w_old) = [NaN])
         [ wind_direction_degrees_sensor; temperature_sensor; wind_speed_sensor;
           wind_gust_sensor; uv_intensity_sensor; uv_index_sensor; light_sensor ].
Proof.
  eexists. eexists.
  split; [vm_compute; reflexivity|].
  split; [vm_compute; reflexivity|].
  repeat constructor.
Qed.

(** In the older version a computed rate is always zero: the baseline is
    overwritten with the current counter before the difference is taken. *)
Lemma old_rate_is_zero (accumulated_precipitation now clock : Z)
    (w w' : misol.World) (q : Q) :
  0 <= accumulated_precipitation < 65536 ->
  misol.precipitation_update accumulated_precipitation now clock w
    = Some ((true, Val q), w') ->
  (q == 0)%Q.
Proof.
  intros Hrange. unfold misol.precipitation_update.
  destruct (negb (accumulated_precipitation =? 65535)); [|discriminate].
  unfold bind at 1. cbn [gets]. unfold bind at 1. cbn [gets].
  destruct (negb _); [|discriminate].
  destruct (s_gt_ms _ _); [|discriminate].
  cbn. unfold uint16_t. rewrite Z.mod_small by lia.
  rewrite Z.sub_diag. intros H. injection H as <- _.
  unfold Qeq. cbn. reflexivity.
Qed.

(** C2 at a failing input, in the older version: frames with rain counter
    100 at 0 s and 100 s and with counter 110 at 200 s.  The baseline is
    (100, 0 s) and 200 s exceeds the three-minute interval, so the rate
    should be (110 - 100) * 0.3 / (200 / 3600) = 54 mm/h; the one value
    published on the precipitation-intensity channel is zero. *)
Theorem old_rate_published_zero :
  exists w q,
    misol.run all_sensors_old
      [ (seconds 0, seconds 0, frame_rain_100);
        (seconds 100, seconds 100, frame_rain_100);
        (seconds 200, seconds 200, frame_rain_110) ] fresh_World_old
      = Some (tt, w)
    /\ channel precipitation_intensity_sensor (misol.published w) = [Val q]
    /\ (q == 0)%Q
    /\ ~ (q == inject_Z (110 - 100) * (3 # 10) / (inject_Z 200 / 3600))%Q.
Proof.
  eexists. eexists.
  split; [vm_compute; reflexivity|].
  split; [reflexivity|].
  split; [reflexivity|].
  intros H. vm_compute in H. discriminate.
Qed.

(** The newer version computes the rate from the old baseline and then
    advances it; the elapsed time is in whole seconds (truncated). *)
Lemma precipitation_update_rate (cfg : misol_weather.Config)
    (accumulated_precipitation now : Z) (w : misol_weather.World) (previous : Z) :
  misol_weather.previous_precipitation_ (misol_weather.station w) = Some previous ->
  s_gt_ms
    (duration_cast_seconds
       (now - misol_weather.previous_precipitation_timestamp_ (misol_weather.station w)))
    (misol_weather.precipitation_intensity_interval_ cfg) = true ->
  exists w',
    misol_weather.precipitation_update cfg accumulated_precipitation now w =
    Some ((true,
           Val (inject_Z (accumulated_precipitation - previous) * (3 # 10)
                / (inject_Z
                     (duration_cast_seconds
                        (now - misol_weather.previous_precipitation_timestamp_
                                 (misol_weather.station w))) / 3600))%Q),
          w')
    /\ misol_weather.previous_precipitation_ (misol_weather.station w')
       = Some accumulated_precipitation
    /\ misol_weather.previous_precipitation_timestamp_ (misol_weather.station w') = now.
Proof.
  intros Hprevious Hinterval. unfold misol_weather.precipitation_update.
  unfold bind at 1. cbn [gets]. unfold bind at 1. cbn [gets].
  rewrite Hprevious, Hinterval.
  eexists. split; [reflexivity|]. split; reflexivity.
Qed.

(** The newer version on the example of the specification: counter 100 at
    0 s, counter 110 at 61 s, interval 60 s: the rate is 3 / (61 / 3600),
    about 177 mm/h, and the baseline becomes (110, 61 s). *)
Example new_rate_example :
  exists w q,
    misol_weather.run all_sensors
      [ (seconds 0, frame_rain_100); (seconds 61, frame_rain_110) ]
      misol_weather.initial_World = Some (tt, w)
    /\ channel precipitation_intensity_sensor (misol_weather.published w) = [Val q]
    /\ (q == inject_Z (110 - 100) * (3 # 10) / (inject_Z 61 / 3600))%Q
    /\ misol_weather.previous_precipitation_ (misol_weather.station w) = Some 110
    /\ misol_weather.previous_precipitation_timestamp_ (misol_weather.station w)
       = seconds 61.
Proof.
  eexists. eexists.
  split; [vm_compute; reflexivity|].
  split; [reflexivity|].
  split; [reflexivity|].
  split; reflexivity.
Qed.

(** C4 at a failing input, in the newer version: baseline (100, 0 s), then
    a frame whose rain counter is the sentinel 0xFFFF at 61 s with a 60 s
    interval.  A rate is computed with the sentinel as the upper endpoint,
    (65535 - 100) * 0.3 / (61 / 3600), and published, and the sentinel
    becomes the new baseline. *)
Theorem new_rate_from_sentinel :
  exists w q,
    misol_weather.run all_sensors
      [ (seconds 0, frame_rain_100); (seconds 61, frame_rain_sentinel) ]
      misol_weather.initial_World = Some (tt, w)
    /\ channel precipitation_intensity_sensor (misol_weather.published w) = [Val q]
    /\ (q == inject_Z (65535 - 100) * (3 # 10) / (inject_Z 61 / 3600))%Q
    /\ misol_weather.previous_precipitation_ (misol_weather.station w) = Some 65535.
Proof.
  eexists. eexists.
  split; [vm_compute; reflexivity|].
  split; [reflexivity|].
  split; reflexivity.
Qed.

(** The older version on the same input drops the baseline (its marker for
    "no previous value" is 0xFFFF) and publishes "no reading". *)
Example old_sentinel_drops_baseline :
  exists w,
    misol.run all_sensors_old
      [ (seconds 0, seconds 0, frame_rain_100);
        (seconds 61, seconds 61, frame_rain_sentinel) ] fresh_World_old
      = Some (tt, w)
    /\ channel precipitation_intensity_sensor (misol.published w) = [NaN]
    /\ misol.previos_precipitation_ (misol.station w) = 0xFFFF.
Proof.
  eexists.
  split; [vm_compute; reflexivity|].
  split; reflexivity.
Qed.

(** ** The precipitation baseline as a session invariant *)

(** C7, as the code has it: when the precipitation-intensity sensor is
    configured, after every sequence of ticks from a freshly constructed
    station in which no accepted packet carries the sentinel counter,
    [previous_precipitation_] is absent exactly when no valid counter
    reading has been seen since the start or since the last tick on which
    the communication timeout fired; and a tick on which the timeout fires
    and no bytes arrive leaves it absent. *)
Theorem baseline_absent_iff_not_established (cfg : misol_weather.Config)
    (ticks : list misol_weather.tick) :
  misol_weather.precipitation_intensity_sensor_ cfg = true ->
  misol_weather.sentinel_free ticks = true ->
  (exists w,
      misol_weather.run cfg ticks misol_weather.initial_World = Some (tt, w)
      /\ (misol_weather.previous_precipitation_ (misol_weather.station w) = None <->
          misol_weather.baseline_established cfg ticks misol_weather.initial_World false
          = false))
  /\ (forall now w,
         misol_weather.timeout_fires now w = true ->
         exists w',
           misol_weather.loop cfg now [] w = Some (tt, w')
           /\ misol_weather.previous_precipitation_ (misol_weather.station w') = None).
Proof.
  intros Hsensor Hfree. split.
  - apply misol_weather_facts.run_baseline; [exact Hsensor | exact Hfree |]. cbn. tauto.
  - intros now w Hfires. rewrite misol_weather_facts.loop_unfold. cbn zeta.
    rewrite Hfires. cbn [length Nat.ltb Nat.leb].
    eexists. split; [reflexivity|]. cbn. rewrite Hsensor. reflexivity.
Qed.

Lemma baseline_absent_iff_not_established_witness :
  (exists w,
      misol_weather.run all_sensors
        [ (seconds 0, frame_rain_100); (seconds 121, []) ]
        misol_weather.initial_World = Some (tt, w)
      /\ (misol_weather.previous_precipitation_ (misol_weather.station w) = None <->
          misol_weather.baseline_established all_sensors
            [ (seconds 0, frame_rain_100); (seconds 121, []) ]
            misol_weather.initial_World false = false))
  /\ (forall now w,
         misol_weather.timeout_fires now w = true ->
         exists w',
           misol_weather.loop all_sensors now [] w = Some (tt, w')
           /\ misol_weather.previous_precipitation_ (misol_weather.station w') = None).
Proof.
  apply (baseline_absent_iff_not_established all_sensors
           [ (seconds 0, frame_rain_100); (seconds 121, []) ]).
  - reflexivity.
  - vm_compute. reflexivity.
Defined.

(** C7 as stated fails without the precipitation-intensity sensor: after a
    frame at 0 s and a tick without bytes at 121 s the timeout has fired
    and no counter reading has been seen since, yet
    [previous_precipitation_] still holds the counter 100. *)
Lemma timeout_keeps_baseline_without_sensor :
  exists w1 w2,
    misol_weather.loop no_intensity_sensor (seconds 0) frame_rain_100
      misol_weather.initial_World = Some (tt, w1)
    /\ misol_weather.timeout_fires (seconds 121) w1 = true
    /\ misol_weather.loop no_intensity_sensor (seconds 121) [] w1 = Some (tt, w2)
    /\ misol_weather.baseline_established no_intensity_sensor
         [ (seconds 0, frame_rain_100); (seconds 121, []) ]
         misol_weather.initial_World false = false
    /\ misol_weather.previous_precipitation_ (misol_weather.station w2) = Some 100
    /\ misol_weather.previous_precipitation_ (misol_weather.station w2) <> None.
Proof.
  eexists. eexists.
  split; [vm_compute; reflexivity|].
  split; [vm_compute; reflexivity|].
  split; [vm_compute; reflexivity|].
  split; [vm_compute; reflexivity|].
  split; [reflexivity | discriminate].
Qed.

(** ** What a station's publications depend on *)

Lemma instance_loop_run (cfgs : nat -> misol_weather.Config) (i : nat) (now : Z)
    (rx : list byte) (p : misol_weather.Process) :
  exists w,
    misol_weather.loop (cfgs i) now rx
      (misol_weather.instance_World p i (misol_weather.shared p)) = Some (tt, w)
    /\ misol_weather.instance_loop cfgs (i, now, rx) p =
       Some {| misol_weather.shared := misol_weather.statics w;
               misol_weather.instances :=
                 fun j => if Nat.eqb j i
                          then (misol_weather.station w, misol_weather.published w)
                          else misol_weather.instances p j |}.
Proof.
  destruct (misol_weather_facts.loop_total (cfgs i) now rx
              (misol_weather.instance_World p i (misol_weather.shared p))) as [w E].
  exists w. split; [exact E|].
  unfold misol_weather.instance_loop. fold (misol_weather.instance_World p i (misol_weather.shared p)).
  now rewrite E.
Qed.

Lemma same_session_eq (w1 w2 : misol_weather.World) :
  misol_weather.same_session w1 w2 ->
  {| misol_weather.station := misol_weather.station w1;
     misol_weather.statics := misol_weather.statics w2;
     misol_weather.published := misol_weather.published w1 |} = w2.
Proof.
  intros [Hs Hp]. destruct w2. cbn in *. now rewrite Hs, Hp.
Qed.

(** Without a night sensor, an instance inside a process ends where it
    would have ended running alone on its own ticks, over any statics. *)
Lemma run_process_alone (cfgs : nat -> misol_weather.Config) (i : nat) :
  misol_weather.night_binary_sensor_ (cfgs i) = false ->
  forall (ticks : list misol_weather.process_tick) (p : misol_weather.Process)
         (g : misol_weather.Statics),
  exists p' w',
    misol_weather.run_process cfgs ticks p = Some p'
    /\ misol_weather.run (cfgs i) (misol_weather.ticks_of i ticks)
         (misol_weather.instance_World p i g) = Some (tt, w')
    /\ misol_weather.instances p' i
       = (misol_weather.station w', misol_weather.published w').
Proof.
  intros Hnight. induction ticks as [|[[j now] rx] rest IH]; intros p g.
  - exists p, (misol_weather.instance_World p i g).
    split; [reflexivity|]. split; [reflexivity|].
    cbn. now destruct (misol_weather.instances p i).
  - destruct (instance_loop_run cfgs j now rx p) as (w1 & E1 & Estep).
    cbn [misol_weather.run_process]. rewrite Estep.
    unfold misol_weather.ticks_of. cbn [filter fst snd map].
    destruct (Nat.eqb j i) eqn:Hji.
    + apply Nat.eqb_eq in Hji. subst j.
      pose proof (misol_weather_facts.loop_sim (cfgs i) now rx Hnight
                    (misol_weather.instance_World p i (misol_weather.shared p))
                    (misol_weather.instance_World p i g)
                    (conj eq_refl eq_refl)) as Hsim.
      rewrite E1 in Hsim.
      destruct (misol_weather.loop (cfgs i) now rx (misol_weather.instance_World p i g))
        as [[[] w1']|] eqn:E1'; [|contradiction].
      destruct Hsim as [_ Hsame].
      set (p1 := misol_weather.Build_Process _ _).
      destruct (IH p1 (misol_weather.statics w1')) as (p' & w' & Erun & Ealone & Hinst).
      exists p', w'. split; [exact Erun|]. split; [|exact Hinst].
      cbn [misol_weather.run map]. rewrite (bind_Some _ _ _ _ _ E1').
      fold (misol_weather.ticks_of i rest).
      replace w1' with (misol_weather.instance_World p1 i (misol_weather.statics w1'));
        [exact Ealone|].
      unfold misol_weather.instance_World, p1. cbn. rewrite Nat.eqb_refl. cbn.
      now apply same_session_eq.
    + set (p1 := misol_weather.Build_Process _ _).
      destruct (IH p1 g) as (p' & w' & Erun & Ealone & Hinst).
      exists p', w'. split; [exact Erun|]. split; [|exact Hinst].
      fold (misol_weather.ticks_of i rest).
      replace (misol_weather.instance_World p i g)
        with (misol_weather.instance_World p1 i g); [exact Ealone|].
      unfold misol_weather.instance_World, p1. cbn.
      rewrite Nat.eqb_sym, Hji. reflexivity.
Qed.




(** The older version has no statics, but the baseline time of its first
    counter reading is a second reading of the clock: with the same
    per-tick readings and frames, a rate is published at 182 s when that
    reading was 0.9995 s and none when it was 1.0002 s. *)
Example old_depends_on_second_clock_reading :
  exists w1 w2,
    misol.run all_sensors_old
      [ (999500000, 999500000, frame_rain_100);
        (seconds 100, seconds 100, frame_rain_100);
        (seconds 182, seconds 182, frame_rain_110) ] fresh_World_old = Some (tt, w1)
    /\ misol.run all_sensors_old
         [ (999500000, 1000200000, frame_rain_100);
           (seconds 100, seconds 100, frame_rain_100);
           (seconds 182, seconds 182, frame_rain_110) ] fresh_World_old = Some (tt, w2)
    /\ length (channel precipitation_intensity_sensor (misol.published w1)) = 1%nat
    /\ channel precipitation_intensity_sensor (misol.published w2) = [].
Proof.
  eexists. eexists.
  split; [vm_compute; reflexivity|].
  split; [vm_compute; reflexivity|].
  split; reflexivity.
Qed.

(** ** More on frame validation *)

Lemma u8_inj (a b : byte) : u8 a = u8 b -> a = b.
Proof.
  unfold u8. intros H. apply N2Z.inj in H.
  pose proof (Byte.of_to_N a) as Ha. pose proof (Byte.of_to_N b) as Hb.
  rewrite H in Ha. rewrite Ha in Hb. now injection Hb.
Qed.

Lemma set_byte_length (i : nat) (b : byte) (data : list byte) :
  length (set_byte i b data) = length data.
Proof.
  unfold set_byte. destruct (skipn i data) as [|x rest] eqn:E; [reflexivity|].
  rewrite <- (firstn_skipn i data) at 2. rewrite E.
  now rewrite !length_app.
Qed.

Lemma byte_at_set_byte (i j : nat) (b : byte) (data : list byte) :
  (i < length data)%nat ->
  byte_at (set_byte i b data) j = if Nat.eqb j i then u8 b else byte_at data j.
Proof.
  intros Hi. unfold set_byte, byte_at.
  destruct (skipn i data) as [|x rest] eqn:E.
  { apply (f_equal (@length byte)) in E. rewrite length_skipn in E. cbn in E. lia. }
  assert (Hlen : length (firstn i data) = i) by (rewrite length_firstn; lia).
  destruct (Nat.eqb j i) eqn:Hji.
  - apply Nat.eqb_eq in Hji. subst j.
    rewrite app_nth2 by lia. rewrite Hlen, Nat.sub_diag. reflexivity.
  - apply Nat.eqb_neq in Hji. f_equal.
    rewrite <- (firstn_skipn i data) at 2. rewrite E.
    destruct (Nat.lt_ge_cases j i) as [Hlt | Hge].
    + rewrite !app_nth1 by lia. reflexivity.
    + rewrite !app_nth2 by lia. rewrite Hlen.
      destruct (j - i)%nat as [|k] eqn:Hk; [lia|]. reflexivity.
Qed.

Lemma sum_set_byte_outside (i : nat) (b : byte) (data : list byte) (idx : list nat) :
  (i < length data)%nat -> ~ In i idx ->
  fold_right (fun k acc => byte_at (set_byte i b data) k + acc) 0 idx
  = fold_right (fun k acc => byte_at data k + acc) 0 idx.
Proof.
  intros Hi. induction idx as [|k rest IH]; intros Hnot; [reflexivity|].
  cbn [fold_right]. rewrite IH by (intros H; apply Hnot; now right).
  rewrite byte_at_set_byte by exact Hi.
  destruct (Nat.eqb k i) eqn:E; [|reflexivity].
  apply Nat.eqb_eq in E. exfalso. apply Hnot. now left.
Qed.

Lemma sum_set_byte_inside (i : nat) (b : byte) (data : list byte) (idx : list nat) :
  (i < length data)%nat -> NoDup idx -> In i idx ->
  fold_right (fun k acc => byte_at (set_byte i b data) k + acc) 0 idx
  = fold_right (fun k acc => byte_at data k + acc) 0 idx + u8 b - byte_at data i.
Proof.
  intros Hi. induction idx as [|k rest IH]; intros Hnd Hin; [contradiction|].
  inversion Hnd as [|? ? Hk Hrest]; subst. cbn [fold_right].
  rewrite byte_at_set_byte by exact Hi.
  destruct (Nat.eqb k i) eqn:E.
  - apply Nat.eqb_eq in E. subst k.
    rewrite sum_set_byte_outside by assumption. lia.
  - apply Nat.eqb_neq in E. destruct Hin as [Hin | Hin]; [congruence|].
    rewrite IH by assumption. lia.
Qed.

Lemma sum_mod256_set_byte_outside (i : nat) (b : byte) (data : list byte) (lo hi : nat) :
  (i < length data)%nat -> (i < lo \/ hi <= i)%nat ->
  sum_mod256 (set_byte i b data) lo hi = sum_mod256 data lo hi.
Proof.
  intros Hi Hout. unfold sum_mod256.
  rewrite sum_set_byte_outside; [reflexivity | exact Hi |].
  intros H. apply in_seq in H. lia.
Qed.

Lemma sum_mod256_set_byte_inside (i : nat) (b : byte) (data : list byte) (lo hi : nat) :
  (i < length data)%nat -> (lo <= i < hi)%nat ->
  nth i data x00 <> b ->
  sum_mod256 (set_byte i b data) lo hi <> sum_mod256 data lo hi.
Proof.
  intros Hi Hin Hneq. unfold sum_mod256.
  rewrite sum_set_byte_inside; [| exact Hi | apply seq_NoDup | apply in_seq; lia].
  set (total := fold_right _ 0 _).
  assert (Hd : u8 b <> byte_at data i).
  { unfold byte_at. intros H. apply u8_inj in H. congruence. }
  pose proof (u8_range b) as Hb.
  assert (Ho : 0 <= byte_at data i < 256) by apply u8_range.
  pose proof (Z.div_mod (total + u8 b - byte_at data i) 256 ltac:(lia)) as E1.
  pose proof (Z.div_mod total 256 ltac:(lia)) as E2.
  intros H. rewrite H in E1. lia.
Qed.

(** What the result of [check_packet_] depends on. *)
Lemma check_packet_ext (data data' : list byte) :
  (length data' <? 17)%nat = (length data <? 17)%nat ->
  (21 <=? length data')%nat = (21 <=? length data)%nat ->
  byte_at data' 0 = byte_at data 0 ->
  sum_mod256 data' 0 16 = sum_mod256 data 0 16 ->
  byte_at data' 16 = byte_at data 16 ->
  sum_mod256 data' 17 20 = sum_mod256 data 17 20 ->
  byte_at data' 20 = byte_at data 20 ->
  check_packet_ data' (length data') [] = check_packet_ data (length data) [].
Proof.
  intros H17 H21 H0 Hs1 H16 Hs2 H20.
  rewrite !check_packet_run. unfold classify, check_packet_reads.
  now rewrite H17, H21, H0, Hs1, H16, Hs2, H20.
Qed.

Lemma check_packet_result (data : list byte) (r : PacketType) (trace : list nat) :
  check_packet_ data (length data) [] = Some (r, trace) -> r = classify data.
Proof.
  rewrite check_packet_run. intros H. now injection H.
Qed.

Lemma classify_accepted (data : list byte) :
  classify data <> WRONG_PACKET ->
  (17 <= length data)%nat /\ byte_at data 0 = 0x24
  /\ sum_mod256 data 0 16 = byte_at data 16.
Proof.
  unfold classify.
  destruct (length data <? 17)%nat eqn:Hlen; [congruence|].
  destruct (byte_at data 0 =? 36) eqn:H0; cbn [negb]; [|congruence].
  destruct (sum_mod256 data 0 16 =? byte_at data 16) eqn:Hs; cbn [negb]; [|congruence].
  intros _. apply Nat.ltb_ge in Hlen. apply Z.eqb_eq in H0, Hs. auto.
Qed.

Lemma classify_with_pressure (data : list byte) :
  classify data = BASIC_WITH_PRESSURE ->
  (21 <= length data)%nat /\ byte_at data 0 = 0x24
  /\ sum_mod256 data 0 16 = byte_at data 16
  /\ sum_mod256 data 17 20 = byte_at data 20.
Proof.
  intros H.
  destruct (classify_accepted data) as (_ & H0 & Hs); [congruence|].
  revert H. unfold classify.
  destruct (length data <? 17)%nat; [discriminate|].
  rewrite H0, Hs, !Z.eqb_refl. cbn [negb].
  destruct (21 <=? length data)%nat eqn:H21; cbn [andb]; [|discriminate].
  destruct (sum_mod256 data 17 20 =? byte_at data 20) eqn:Hs2; [|discriminate].
  intros _. apply Nat.leb_le in H21. apply Z.eqb_eq in Hs2. auto.
Qed.

(** X1.  Replacing any one of the bytes 0..16 of an accepted frame by a
    different byte makes [check_packet_] reject it. *)
Theorem corrupted_primary_byte_rejected (data : list byte) (i : nat) (b : byte)
    (r : PacketType) (trace : list nat) :
  check_packet_ data (length data) [] = Some (r, trace) ->
  r <> WRONG_PACKET ->
  (i <= 16)%nat ->
  nth i data x00 <> b ->
  exists trace',
    check_packet_ (set_byte i b data) (length (set_byte i b data)) []
    = Some (WRONG_PACKET, trace').
Proof.
  intros Hrun Hr Hi Hb.
  apply check_packet_result in Hrun. subst r.
  destruct (classify_accepted data Hr) as (Hlen & H0 & Hs).
  assert (Hin : (i < length data)%nat) by lia.
  eexists. rewrite check_packet_run. f_equal. f_equal.
  unfold classify. rewrite set_byte_length.
  destruct (length data <? 17)%nat eqn:E; [reflexivity|].
  destruct (Nat.eq_dec i 0) as [-> | Hi0].
  - rewrite byte_at_set_byte by exact Hin. cbn [Nat.eqb].
    destruct (u8 b =? 36) eqn:Eb; [|reflexivity].
    apply Z.eqb_eq in Eb. exfalso. apply Hb.
    apply u8_inj. fold (byte_at data 0). congruence.
  - rewrite (byte_at_set_byte i 0) by exact Hin.
    replace (Nat.eqb 0 i) with false by (symmetry; apply Nat.eqb_neq; lia).
    rewrite H0. cbn [Z.eqb negb Pos.eqb].
    destruct (Nat.eq_dec i 16) as [-> | Hi16].
    + rewrite sum_mod256_set_byte_outside by (auto; lia).
      rewrite byte_at_set_byte by exact Hin. cbn [Nat.eqb].
      destruct (sum_mod256 data 0 16 =? u8 b) eqn:Eb; [|reflexivity].
      apply Z.eqb_eq in Eb. exfalso. apply Hb.
      apply u8_inj. fold (byte_at data 16). congruence.
    + rewrite (byte_at_set_byte i 16) by exact Hin.
      replace (Nat.eqb 16 i) with false by (symmetry; apply Nat.eqb_neq; lia).
      destruct (sum_mod256 (set_byte i b data) 0 16 =? byte_at data 16) eqn:Eb;
        [|reflexivity].
      apply Z.eqb_eq in Eb. exfalso.
      apply (sum_mod256_set_byte_inside i b data 0 16);
        first [ assumption | lia | congruence ].
Qed.

Lemma corrupted_primary_byte_rejected_witness :
  exists trace',
    check_packet_ (set_byte 5 x00 frame_rain_100)
      (length (set_byte 5 x00 frame_rain_100)) []
    = Some (WRONG_PACKET, trace').
Proof.
  apply (corrupted_primary_byte_rejected frame_rain_100 5 x00 BASIC_PACKET
           (check_packet_reads frame_rain_100)).
  - vm_compute. reflexivity.
  - discriminate.
  - lia.
  - discriminate.
Defined.

(** X2.  Replacing any one of the bytes 17..20 of a frame accepted with its
    pressure block by a different byte downgrades it to a basic packet; it
    is not rejected. *)
Theorem corrupted_pressure_byte_downgrades (data : list byte) (i : nat) (b : byte)
    (trace : list nat) :
  check_packet_ data (length data) [] = Some (BASIC_WITH_PRESSURE, trace) ->
  (17 <= i <= 20)%nat ->
  nth i data x00 <> b ->
  exists trace',
    check_packet_ (set_byte i b data) (length (set_byte i b data)) []
    = Some (BASIC_PACKET, trace').
Proof.
  intros Hrun Hi Hb.
  apply check_packet_result in Hrun. symmetry in Hrun.
  destruct (classify_with_pressure data Hrun) as (Hlen & H0 & Hs & Hs2).
  assert (Hin : (i < length data)%nat) by lia.
  eexists. rewrite check_packet_run. f_equal. f_equal.
  unfold classify. rewrite set_byte_length.
  replace (length data <? 17)%nat with false by (symmetry; apply Nat.ltb_ge; lia).
  replace (21 <=? length data)%nat with true by (symmetry; apply Nat.leb_le; lia).
  rewrite (byte_at_set_byte i 0) by exact Hin.
  replace (Nat.eqb 0 i) with false by (symmetry; apply Nat.eqb_neq; lia).
  rewrite H0. cbn [Z.eqb negb Pos.eqb].
  rewrite sum_mod256_set_byte_outside by (auto; lia).
  rewrite (byte_at_set_byte i 16) by exact Hin.
  replace (Nat.eqb 16 i) with false by (symmetry; apply Nat.eqb_neq; lia).
  rewrite Hs, Z.eqb_refl. cbn [negb andb].
  destruct (Nat.eq_dec i 20) as [-> | Hi20].
  - rewrite sum_mod256_set_byte_outside by (auto; lia).
    rewrite byte_at_set_byte by exact Hin. cbn [Nat.eqb].
    destruct (sum_mod256 data 17 20 =? u8 b) eqn:Eb; [|reflexivity].
    apply Z.eqb_eq in Eb. exfalso. apply Hb.
    apply u8_inj. fold (byte_at data 20). congruence.
  - rewrite (byte_at_set_byte i 20) by exact Hin.
    replace (Nat.eqb 20 i) with false by (symmetry; apply Nat.eqb_neq; lia).
    destruct (sum_mod256 (set_byte i b data) 17 20 =? byte_at data 20) eqn:Eb;
      [|reflexivity].
    apply Z.eqb_eq in Eb. exfalso.
    apply (sum_mod256_set_byte_inside i b data 17 20);
      first [ assumption | lia | congruence ].
Qed.

Lemma corrupted_pressure_byte_downgrades_witness :
  exists trace',
    check_packet_ (set_byte 18 x00 frame_with_pressure)
      (length (set_byte 18 x00 frame_with_pressure)) []
    = Some (BASIC_PACKET, trace').
Proof.
  apply (corrupted_pressure_byte_downgrades frame_with_pressure 18 x00
           (check_packet_reads frame_with_pressure)).
  - vm_compute. reflexivity.
  - lia.
  - discriminate.
Defined.

Lemma sum_mod256_ext (data data' : list byte) (lo hi : nat) :
  (forall k, (lo <= k < hi)%nat -> byte_at data' k = byte_at data k) ->
  sum_mod256 data' lo hi = sum_mod256 data lo hi.
Proof.
  intros H. unfold sum_mod256. f_equal.
  assert (Hidx : forall k, In k (seq lo (hi - lo)) -> byte_at data' k = byte_at data k).
  { intros k Hk. apply in_seq in Hk. apply H. lia. }
  induction (seq lo (hi - lo)) as [|k rest IH]; [reflexivity|].
  cbn [fold_right]. rewrite Hidx by now left.
  rewrite IH; [reflexivity|]. intros j Hj. apply Hidx. now right.
Qed.

Lemma byte_at_app (data extra : list byte) (k : nat) :
  (k < length data)%nat -> byte_at (data ++ extra) k = byte_at data k.
Proof.
  intros Hk. unfold byte_at. now rewrite app_nth1.
Qed.

(** X3.  Bytes after the 21st play no part: a buffer of at least 21 bytes
    followed by anything is classified, and read, as the buffer alone. *)
Theorem trailing_bytes_ignored (data extra : list byte) :
  (21 <= length data)%nat ->
  check_packet_ (data ++ extra) (length (data ++ extra)) []
  = check_packet_ data (length data) [].
Proof.
  intros Hlen. apply check_packet_ext.
  - rewrite length_app.
    transitivity false; [apply Nat.ltb_ge | symmetry; apply Nat.ltb_ge]; lia.
  - rewrite length_app.
    transitivity true; [apply Nat.leb_le | symmetry; apply Nat.leb_le]; lia.
  - apply byte_at_app. lia.
  - apply sum_mod256_ext. intros k Hk. apply byte_at_app. lia.
  - apply byte_at_app. lia.
  - apply sum_mod256_ext. intros k Hk. apply byte_at_app. lia.
  - apply byte_at_app. lia.
Qed.

Lemma trailing_bytes_ignored_witness :
  check_packet_ (frame_with_pressure ++ frame_bad_checksum)
    (length (frame_with_pressure ++ frame_bad_checksum)) []
  = check_packet_ frame_with_pressure (length frame_with_pressure) [].
Proof.
  apply (trailing_bytes_ignored frame_with_pressure frame_bad_checksum).
  simpl. lia.
Defined.

Lemma sum_mod256_swap (i j : nat) (data : list byte) (lo hi : nat) :
  (i < length data)%nat -> (j < length data)%nat ->
  (lo <= i < hi)%nat -> (lo <= j < hi)%nat ->
  sum_mod256 (swap_bytes i j data) lo hi = sum_mod256 data lo hi.
Proof.
  intros Hi Hj Hri Hrj. unfold swap_bytes, sum_mod256. f_equal.
  rewrite sum_set_byte_inside;
    [ | rewrite set_byte_length; exact Hj | apply seq_NoDup | apply in_seq; lia ].
  rewrite sum_set_byte_inside; [ | exact Hi | apply seq_NoDup | apply in_seq; lia ].
  rewrite byte_at_set_byte by exact Hi.
  unfold byte_at. destruct (Nat.eqb j i) eqn:E.
  - apply Nat.eqb_eq in E. subst j. lia.
  - lia.
Qed.

Lemma byte_at_swap_other (i j k : nat) (data : list byte) :
  (i < length data)%nat -> (j < length data)%nat -> k <> i -> k <> j ->
  byte_at (swap_bytes i j data) k = byte_at data k.
Proof.
  intros Hi Hj Hki Hkj. unfold swap_bytes.
  rewrite byte_at_set_byte by (rewrite set_byte_length; exact Hj).
  replace (Nat.eqb k j) with false by (symmetry; now apply Nat.eqb_neq).
  rewrite byte_at_set_byte by exact Hi.
  replace (Nat.eqb k i) with false by (symmetry; now apply Nat.eqb_neq).
  reflexivity.
Qed.

Lemma swap_bytes_length (i j : nat) (data : list byte) :
  length (swap_bytes i j data) = length data.
Proof.
  unfold swap_bytes. now rewrite !set_byte_length.
Qed.

(** X4.  The checksum does not see the order of the payload: exchanging two
    of the bytes 1..15 of any buffer leaves the result of [check_packet_],
    and what it reads, as they were. *)
Theorem swapped_payload_bytes_undetected (data : list byte) (i j : nat) :
  (1 <= i <= 15)%nat -> (1 <= j <= 15)%nat ->
  check_packet_ (swap_bytes i j data) (length (swap_bytes i j data)) []
  = check_packet_ data (length data) [].
Proof.
  intros Hi Hj.
  destruct (Nat.lt_ge_cases (length data) 17) as [Hshort | Hlong].
  - rewrite !check_packet_run. unfold classify, check_packet_reads.
    rewrite swap_bytes_length.
    replace (length data <? 17)%nat with true by (symmetry; now apply Nat.ltb_lt).
    reflexivity.
  - assert (Hi' : (i < length data)%nat) by lia.
    assert (Hj' : (j < length data)%nat) by lia.
    apply check_packet_ext.
    + now rewrite swap_bytes_length.
    + now rewrite swap_bytes_length.
    + apply byte_at_swap_other; auto; lia.
    + apply sum_mod256_swap; auto; lia.
    + apply byte_at_swap_other; auto; lia.
    + apply sum_mod256_ext. intros k Hk. apply byte_at_swap_other; auto; lia.
    + apply byte_at_swap_other; auto; lia.
Qed.

Lemma swapped_payload_bytes_undetected_witness :
  check_packet_ (swap_bytes 4 9 frame_rain_100)
    (length (swap_bytes 4 9 frame_rain_100)) []
  = check_packet_ frame_rain_100 (length frame_rain_100) []
  /\ swap_bytes 4 9 frame_rain_100 <> frame_rain_100.
Proof.
  split.
  - apply (swapped_payload_bytes_undetected frame_rain_100 4 9); lia.
  - discriminate.
Defined.

(** ** More on the night detector *)

From Stdlib Require Import Lqa.

Lemma Qltb_false_le (x y : Q) : Qltb x y = false <-> (y <= x)%Q.
Proof.
  unfold Qltb. rewrite negb_false_iff. apply Qle_bool_iff.
Qed.

(** X5.  Hysteresis.  Once the detector has run, every call whose UV
    intensity lies in the band [lower <= uv < upper] returns the previous
    result again, so a reading that hovers inside the band never toggles
    the night channel. *)
Theorem night_result_kept_in_band (calls : list (Q * Q * Q))
    (w : misol_weather.World) :
  misol_weather.first_run (misol_weather.statics w) = false ->
  Forall (fun c => (snd (fst c) <= fst (fst c))%Q /\ (fst (fst c) < snd c)%Q) calls ->
  exists w',
    misol_weather.detect_night_calls calls w
    = Some (repeat (misol_weather.previous_result (misol_weather.statics w))
                   (length calls), w')
    /\ misol_weather.statics w' = misol_weather.statics w.
Proof.
  revert w. induction calls as [|[[uv lower] upper] rest IH]; intros w Hrun Hband.
  - exists w. split; reflexivity.
  - inversion Hband as [|? ? [Hlo Hhi] Hrest]; subst. cbn [fst snd] in Hlo, Hhi.
    cbn [misol_weather.detect_night_calls length repeat].
    unfold bind at 1. rewrite detect_night_run. cbn zeta. rewrite Hrun.
    assert (Hkeep :
      (if misol_weather.previous_result (misol_weather.statics w)
       then Qltb uv upper else Qltb uv lower)
      = misol_weather.previous_result (misol_weather.statics w)).
    { destruct (misol_weather.previous_result (misol_weather.statics w)).
      - now apply Qltb_lt.
      - now apply Qltb_false_le. }
    rewrite Hkeep.
    set (w1 := misol_weather.Build_World _ _ _).
    assert (Hstatics : misol_weather.statics w1 = misol_weather.statics w).
    { unfold w1. cbn. destruct (misol_weather.statics w) as [p f]. cbn in *.
      now rewrite Hrun. }
    destruct (IH w1) as (w' & E & Hw'); [now rewrite Hstatics | exact Hrest |].
    rewrite Hstatics in E.
    exists w'. split; [|congruence].
    unfold bind. now rewrite E.
Qed.

Lemma night_result_kept_in_band_witness :
  exists w',
    misol_weather.detect_night_calls
      [ (50 # 10, 45 # 10, 55 # 10); (46 # 10, 45 # 10, 55 # 10);
        (54 # 10, 45 # 10, 55 # 10) ]%Q
      {| misol_weather.station := misol_weather.initial_State;
         misol_weather.statics :=
           {| misol_weather.previous_result := true;
              misol_weather.first_run := false |};
         misol_weather.published := [] |}
    = Some ([true; true; true], w')
    /\ misol_weather.statics w'
       = {| misol_weather.previous_result := true;
            misol_weather.first_run := false |}.
Proof.
  apply (night_result_kept_in_band
           [ (50 # 10, 45 # 10, 55 # 10); (46 # 10, 45 # 10, 55 # 10);
             (54 # 10, 45 # 10, 55 # 10) ]%Q
           {| misol_weather.station := misol_weather.initial_State;
              misol_weather.statics :=
                {| misol_weather.previous_result := true;
                   misol_weather.first_run := false |};
              misol_weather.published := [] |}).
  - reflexivity.
  - repeat constructor; vm_compute; discriminate.
Defined.

(** X6.  Outside the band the history does not matter.  With
    [lower <= upper], a UV intensity below [lower] gives night and one at
    or above [upper] gives day on every call, the first one included. *)
Theorem night_decided_outside_band (uv lower upper : Q) (w : misol_weather.World) :
  (lower <= upper)%Q ->
  ((uv < lower)%Q ->
   exists w', misol_weather.detect_night uv lower upper w = Some (true, w'))
  /\ ((upper <= uv)%Q ->
      exists w', misol_weather.detect_night uv lower upper w = Some (false, w')).
Proof.
  intros Hband. rewrite detect_night_run. cbn zeta.
  assert (Hmid : ((lower + upper) / 2 == (lower + upper) * (1 # 2))%Q) by reflexivity.
  split; intros Huv.
  - eexists. f_equal. f_equal.
    destruct (misol_weather.first_run _); [|destruct (misol_weather.previous_result _)];
      apply Qltb_lt; try rewrite Hmid; lra.
  - eexists. f_equal. f_equal.
    destruct (misol_weather.first_run _); [|destruct (misol_weather.previous_result _)];
      apply Qltb_false_le; try rewrite Hmid; lra.
Qed.

Lemma night_decided_outside_band_witness :
  ((40 # 10 < 45 # 10)%Q ->
   exists w',
     misol_weather.detect_night (40 # 10) (45 # 10) (55 # 10)
       misol_weather.initial_World = Some (true, w'))
  /\ ((55 # 10 <= 40 # 10)%Q ->
      exists w',
        misol_weather.detect_night (40 # 10) (45 # 10) (55 # 10)
          misol_weather.initial_World = Some (false, w')).
Proof.
  apply (night_decided_outside_band (40 # 10) (45 # 10) (55 # 10)
           misol_weather.initial_World).
  vm_compute. discriminate.
Defined.

(** ** More on [loop] *)

Lemma timeout_fires_false (now : Z) (w : misol_weather.World) :
  misol_weather.first_data_received_ (misol_weather.station w) = false
  \/ now - misol_weather.last_packet_time_ (misol_weather.station w)
     <= COMMUNICATION_TIMOUT * 1000000 ->
  misol_weather.timeout_fires now w = false.
Proof.
  unfold misol_weather.timeout_fires, ns_gt_ms. intros [H | H].
  - now rewrite H.
  - apply andb_false_iff. right. rewrite Z.gtb_ltb. apply Z.ltb_ge. exact H.
Qed.

Lemma timeout_fires_true (now : Z) (w : misol_weather.World) :
  misol_weather.first_data_received_ (misol_weather.station w) = true ->
  now - misol_weather.last_packet_time_ (misol_weather.station w)
    > COMMUNICATION_TIMOUT * 1000000 ->
  misol_weather.timeout_fires now w = true.
Proof.
  unfold misol_weather.timeout_fires, ns_gt_ms. intros H1 H2.
  rewrite H1. cbn [andb]. apply Z.gtb_lt. lia.
Qed.

(** X7.  A tick without bytes does nothing at all unless the timeout fires:
    when no data has been received yet, or at most the communication
    timeout has passed since the last bytes (exactly 120 s included), the
    state, the statics and the log are unchanged. *)
Theorem idle_tick_is_noop (cfg : misol_weather.Config) (now : Z)
    (w : misol_weather.World) :
  misol_weather.first_data_received_ (misol_weather.station w) = false
  \/ now - misol_weather.last_packet_time_ (misol_weather.station w)
     <= COMMUNICATION_TIMOUT * 1000000 ->
  misol_weather.loop cfg now [] w = Some (tt, w).
Proof.
  intros H. rewrite misol_weather_facts.loop_unfold. cbn zeta.
  now rewrite (timeout_fires_false now w H).
Qed.

Lemma idle_tick_is_noop_witness :
  misol_weather.loop all_sensors (seconds 120) []
    (misol_weather.after_receipt 0 misol_weather.initial_World)
  = Some (tt, misol_weather.after_receipt 0 misol_weather.initial_World).
Proof.
  apply (idle_tick_is_noop all_sensors (seconds 120)
           (misol_weather.after_receipt 0 misol_weather.initial_World)).
  right. vm_compute. discriminate.
Defined.



(** X9.  A buffer that [check_packet_] rejects updates no channel.  On a tick
    on which the timeout does not fire, such a buffer changes only
    [first_data_received_] and [last_packet_time_]: nothing is published,
    and the precipitation baseline and the statics of the night detector
    stay as they were. *)
Theorem rejected_frame_publishes_nothing (cfg : misol_weather.Config) (now : Z)
    (rx : list byte) (trace : list nat) (w : misol_weather.World) :
  (0 < length rx)%nat ->
  check_packet_ rx (length rx) [] = Some (WRONG_PACKET, trace) ->
  misol_weather.first_data_received_ (misol_weather.station w) = false
  \/ now - misol_weather.last_packet_time_ (misol_weather.station w)
     <= COMMUNICATION_TIMOUT * 1000000 ->
  exists w',
    misol_weather.loop cfg now rx w = Some (tt, w')
    /\ misol_weather.published w' = misol_weather.published w
    /\ misol_weather.statics w' = misol_weather.statics w
    /\ misol_weather.previous_precipitation_ (misol_weather.station w')
       = misol_weather.previous_precipitation_ (misol_weather.station w)
    /\ misol_weather.previous_precipitation_timestamp_ (misol_weather.station w')
       = misol_weather.previous_precipitation_timestamp_ (misol_weather.station w)
    /\ misol_weather.first_data_received_ (misol_weather.station w') = true
    /\ misol_weather.last_packet_time_ (misol_weather.station w') = now.
Proof.
  intros Hrx Hwrong Hquiet.
  apply check_packet_result in Hwrong.
  rewrite misol_weather_facts.loop_unfold. cbn zeta.
  rewrite (timeout_fires_false now w Hquiet).
  apply Nat.ltb_lt in Hrx. rewrite Hrx, <- Hwrong. cbn [PacketType_eqb negb].
  eexists. split; [reflexivity|]. repeat split.
Qed.

Lemma rejected_frame_publishes_nothing_witness :
  exists w',
    misol_weather.loop all_sensors (seconds 5) frame_bad_checksum
      misol_weather.initial_World = Some (tt, w')
    /\ misol_weather.published w' = misol_weather.published misol_weather.initial_World
    /\ misol_weather.statics w' = misol_weather.statics misol_weather.initial_World
    /\ misol_weather.previous_precipitation_ (misol_weather.station w')
       = misol_weather.previous_precipitation_
           (misol_weather.station misol_weather.initial_World)
    /\ misol_weather.previous_precipitation_timestamp_ (misol_weather.station w')
       = misol_weather.previous_precipitation_timestamp_
           (misol_weather.station misol_weather.initial_World)
    /\ misol_weather.first_data_received_ (misol_weather.station w') = true
    /\ misol_weather.last_packet_time_ (misol_weather.station w') = seconds 5.
Proof.
  apply (rejected_frame_publishes_nothing all_sensors (seconds 5) frame_bad_checksum
           (check_packet_reads frame_bad_checksum) misol_weather.initial_World).
  - simpl. lia.
  - vm_compute. reflexivity.
  - left. reflexivity.
Defined.

(** ** More on the precipitation estimator of the newer version *)

Lemma precipitation_update_cases (cfg : misol_weather.Config)
    (accumulated_precipitation now : Z) (w : misol_weather.World) :
  misol_weather.precipitation_update cfg accumulated_precipitation now w =
  match misol_weather.previous_precipitation_ (misol_weather.station w) with
  | Some previous =>
      let interval :=
        duration_cast_seconds
          (now - misol_weather.previous_precipitation_timestamp_
                   (misol_weather.station w)) in
      if s_gt_ms interval (misol_weather.precipitation_intensity_interval_ cfg)
      then Some ((true,
                  Val (inject_Z (accumulated_precipitation - previous) * (3 # 10)
                       / (inject_Z interval / 3600))%Q),
                 misol_weather.World_station
                   (misol_weather.State_previous_precipitation_timestamp_ now)
                   (misol_weather.World_station
                      (misol_weather.State_previous_precipitation_
                         (Some accumulated_precipitation)) w))
      else Some ((false, NaN), w)
  | None =>
      Some ((false, NaN),
            misol_weather.World_station
              (misol_weather.State_previous_precipitation_timestamp_ now)
              (misol_weather.World_station
                 (misol_weather.State_previous_precipitation_
                    (Some accumulated_precipitation)) w))
  end.
Proof.
  unfold misol_weather.precipitation_update.
  unfold bind at 1. cbn [gets]. unfold bind at 1. cbn [gets].
  destruct (misol_weather.previous_precipitation_ (misol_weather.station w));
    [|reflexivity].
  cbn zeta. destruct (s_gt_ms _ _); reflexivity.
Qed.

Lemma uint32_t_range (z : Z) : 0 <= uint32_t z < 2 ^ 32.
Proof.
  unfold uint32_t. apply Z.mod_pos_bound. lia.
Qed.

(** X10.  The window of the estimator.  With the interval set to [m] minutes
    through the setter and a baseline in place, a call produces a rate
    exactly when more than [60 * m] whole seconds have passed since the
    baseline; the elapsed time it divides by is then at least one second,
    and a call that produces no rate changes nothing. *)
Theorem rate_only_after_interval (cfg : misol_weather.Config) (minutes : Z)
    (accumulated_precipitation now previous : Z) (w : misol_weather.World) :
  0 <= minutes < 2 ^ 32 ->
  misol_weather.previous_precipitation_ (misol_weather.station w) = Some previous ->
  exists r w',
    misol_weather.precipitation_update
      (set_precipitation_intensity_interval minutes cfg)
      accumulated_precipitation now w = Some (r, w')
    /\ (fst r = true <->
        duration_cast_seconds
          (now - misol_weather.previous_precipitation_timestamp_
                   (misol_weather.station w)) > 60 * minutes)
    /\ (fst r = true ->
        duration_cast_seconds
          (now - misol_weather.previous_precipitation_timestamp_
                   (misol_weather.station w)) >= 1)
    /\ (fst r = false -> r = (false, NaN) /\ w' = w).
Proof.
  intros Hm Hprevious. rewrite precipitation_update_cases, Hprevious. cbn zeta.
  set (s := duration_cast_seconds _).
  unfold s_gt_ms. cbn [set_precipitation_intensity_interval
                         misol_weather.precipitation_intensity_interval_].
  unfold uint32_t. rewrite Z.mod_small by exact Hm.
  destruct (s * 1000 >? minutes * 60 * 1000) eqn:E.
  - apply Z.gtb_lt in E. eexists _, _. split; [reflexivity|]. cbn [fst].
    repeat split; intros; try lia; discriminate.
  - rewrite Z.gtb_ltb in E. apply Z.ltb_ge in E.
    eexists _, _. split; [reflexivity|]. cbn [fst].
    repeat split; intros; try lia; try discriminate.
Qed.

Lemma rate_only_after_interval_witness :
  exists r w',
    misol_weather.precipitation_update
      (set_precipitation_intensity_interval 1 all_sensors) 110 (seconds 61)
      (misol_weather.World_station
         (misol_weather.State_previous_precipitation_ (Some 100))
         misol_weather.initial_World) = Some (r, w')
    /\ (fst r = true <->
        duration_cast_seconds
          (seconds 61
           - misol_weather.previous_precipitation_timestamp_
               (misol_weather.station
                  (misol_weather.World_station
                     (misol_weather.State_previous_precipitation_ (Some 100))
                     misol_weather.initial_World))) > 60 * 1)
    /\ (fst r = true ->
        duration_cast_seconds
          (seconds 61
           - misol_weather.previous_precipitation_timestamp_
               (misol_weather.station
                  (misol_weather.World_station
                     (misol_weather.State_previous_precipitation_ (Some 100))
                     misol_weather.initial_World))) >= 1)
    /\ (fst r = false ->
        r = (false, NaN)
        /\ w' = misol_weather.World_station
                  (misol_weather.State_previous_precipitation_ (Some 100))
                  misol_weather.initial_World).
Proof.
  apply (rate_only_after_interval all_sensors 1 110 (seconds 61) 100
           (misol_weather.World_station
              (misol_weather.State_previous_precipitation_ (Some 100))
              misol_weather.initial_World)).
  - lia.
  - reflexivity.
Defined.

Lemma rate_times_hours (d s : Z) :
  1 <= s ->
  (inject_Z d * (3 # 10) / (inject_Z s / 3600) * (inject_Z s / 3600)
   == inject_Z d * (3 # 10))%Q.
Proof.
  intros Hs.
  assert (Hnz : ~ (inject_Z s == 0)%Q).
  { intros H. unfold Qeq in H. cbn in H. lia. }
  field. exact Hnz.
Qed.

Lemma hours_positive (s : Z) : 1 <= s -> (0 < inject_Z s / 3600)%Q.
Proof.
  intros Hs. unfold Qlt, Qdiv, Qmult, Qinv, inject_Z. cbn. lia.
Qed.

Lemma computed_rate (cfg : misol_weather.Config)
    (accumulated_precipitation now previous : Z) (w w' : misol_weather.World) (q : Q) :
  0 <= misol_weather.precipitation_intensity_interval_ cfg ->
  misol_weather.previous_precipitation_ (misol_weather.station w) = Some previous ->
  misol_weather.precipitation_update cfg accumulated_precipitation now w
    = Some ((true, Val q), w') ->
  let s := duration_cast_seconds
             (now - misol_weather.previous_precipitation_timestamp_
                      (misol_weather.station w)) in
  1 <= s
  /\ q = (inject_Z (accumulated_precipitation - previous) * (3 # 10)
          / (inject_Z s / 3600))%Q
  /\ misol_weather.previous_precipitation_ (misol_weather.station w')
     = Some accumulated_precipitation
  /\ misol_weather.previous_precipitation_timestamp_ (misol_weather.station w') = now.
Proof.
  intros Hinterval Hprevious. rewrite precipitation_update_cases, Hprevious. cbn zeta.
  unfold s_gt_ms. destruct (_ >? _) eqn:E; [|discriminate].
  apply Z.gtb_lt in E. intros H. injection H as <- <-.
  repeat split. lia.
Qed.

(** X11.  The sign of the rate.  With a non-negative interval, a computed rate
    is negative exactly when the counter is below the baseline (the
    station's counter has wrapped or restarted), zero exactly when it is
    unchanged, and positive exactly when it has grown. *)
Theorem rate_sign (cfg : misol_weather.Config)
    (accumulated_precipitation now previous : Z) (w w' : misol_weather.World) (q : Q) :
  0 <= misol_weather.precipitation_intensity_interval_ cfg ->
  misol_weather.previous_precipitation_ (misol_weather.station w) = Some previous ->
  misol_weather.precipitation_update cfg accumulated_precipitation now w
    = Some ((true, Val q), w') ->
  ((q < 0)%Q <-> accumulated_precipitation < previous)
  /\ ((q == 0)%Q <-> accumulated_precipitation = previous)
  /\ ((0 < q)%Q <-> previous < accumulated_precipitation).
Proof.
  intros Hinterval Hprevious Hrun.
  destruct (computed_rate cfg accumulated_precipitation now previous w w' q
              Hinterval Hprevious Hrun) as (Hs & Hq & _).
  set (s := duration_cast_seconds _) in *.
  pose proof (rate_times_hours (accumulated_precipitation - previous) s Hs) as Hmul.
  rewrite <- Hq in Hmul.
  pose proof (hours_positive s Hs) as Hpos.
  set (h := (inject_Z s / 3600)%Q) in *.
  set (d := inject_Z (accumulated_precipitation - previous)) in *.
  assert (Hd_neg : (d < 0)%Q <-> accumulated_precipitation < previous).
  { unfold d, Qlt. cbn. lia. }
  assert (Hd_zero : (d == 0)%Q <-> accumulated_precipitation = previous).
  { unfold d, Qeq. cbn. lia. }
  assert (Hd_pos : (0 < d)%Q <-> previous < accumulated_precipitation).
  { unfold d, Qlt. cbn. lia. }
  rewrite <- Hd_neg, <- Hd_zero, <- Hd_pos.
  repeat split; intros H; nra.
Qed.

Lemma rate_sign_witness :
  exists q,
    ((q < 0)%Q <-> 90 < 100) /\ ((q == 0)%Q <-> 90 = 100) /\ ((0 < q)%Q <-> 100 < 90).
Proof.
  eexists.
  eapply (rate_sign all_sensors 90 (seconds 61) 100
            (misol_weather.World_station
               (misol_weather.State_previous_precipitation_ (Some 100))
               misol_weather.initial_World)).
  - vm_compute. discriminate.
  - reflexivity.
  - vm_compute. reflexivity.
Defined.



(** ** The description tables *)

Module misol_text_facts.
Import Strings.String.
Import misol_text.

Lemma Qle_bool_true (a b : Q) : (a <= b)%Q -> Qle_bool a b = true.
Proof. apply Qle_bool_iff. Qed.

Lemma Qle_bool_false (a b : Q) : (b < a)%Q -> Qle_bool a b = false.
Proof.
  intros H. apply not_true_iff_false. rewrite Qle_bool_iff. now apply Qlt_not_le.
Qed.

(** Settles every comparison of the goal from the bounds in the context. *)
Ltac settle_comparisons :=
  unfold flt, fle, fgt, fge, wind_rank, light_rank, precipitation_rank, passed, Qltb;
  cbn [filter];
  repeat match goal with
         | |- context [Qle_bool ?a ?b] =>
             first [ rewrite (Qle_bool_true a b) by lra
                   | rewrite (Qle_bool_false a b) by lra ]
         end;
  reflexivity.

Ltac band q t :=
  let H := fresh "H" in
  destruct (Qlt_le_dec t q) as [H | H]; [ | solve [ settle_comparisons ] ].

Lemma wind_description_rank (q : Q) :
  wind_speed_to_description (Val q) = nth (wind_rank q) wind_scale ""%string.
Proof.
  unfold wind_speed_to_description.
  destruct (Qlt_le_dec q (3 # 10)) as [H | H]; [ solve [ settle_comparisons ] | ].
  band q (15 # 10). band q (33 # 10). band q (55 # 10). band q (79 # 10).
  band q (107 # 10). band q (138 # 10). band q (171 # 10). band q (207 # 10).
  band q (244 # 10). band q (284 # 10). band q (326 # 10).
  settle_comparisons.
Qed.

Lemma light_description_rank (q : Q) :
  light_level_to_description (Val q) = nth (light_rank q) light_scale ""%string.
Proof.
  unfold light_level_to_description.
  destruct (Qlt_le_dec q 2%Q) as [H | H]; [ solve [ settle_comparisons ] | ].
  destruct (Qlt_le_dec q 3%Q) as [H3 | H3]; [ solve [ settle_comparisons ] | ].
  destruct (Qlt_le_dec q 50%Q) as [H50 | H50]; [ solve [ settle_comparisons ] | ].
  destruct (Qlt_le_dec q 400%Q) as [H4 | H4]; [ solve [ settle_comparisons ] | ].
  destruct (Qlt_le_dec q 4500%Q) as [H5 | H5]; [ solve [ settle_comparisons ] | ].
  destruct (Qlt_le_dec q 28500%Q) as [H6 | H6]; [ solve [ settle_comparisons ] | ].
  destruct (Qlt_le_dec q 120000%Q) as [H7 | H7]; [ solve [ settle_comparisons ] | ].
  settle_comparisons.
Qed.

Lemma precipitation_description_rank (q : Q) :
  precipitation_to_description (Val q)
  = nth (precipitation_rank q) precipitation_scale ""%string.
Proof.
  unfold precipitation_to_description. cbn [is_nan].
  band q 0%Q. band q (25 # 10). band q (75 # 10). band q 50%Q.
  settle_comparisons.
Qed.

Lemma passed_le (inclusive : bool) (thresholds : list Q) (a b : Q) :
  (a <= b)%Q -> (passed inclusive thresholds a <= passed inclusive thresholds b)%nat.
Proof.
  intros Hab. unfold passed.
  induction thresholds as [|t rest IH]; [cbn; lia|].
  cbn [filter].
  assert (Himp : (if inclusive then Qle_bool t a else Qltb t a) = true ->
                 (if inclusive then Qle_bool t b else Qltb t b) = true).
  { destruct inclusive.
    - rewrite !Qle_bool_iff. intros H. lra.
    - rewrite !Qltb_lt. intros H. lra. }
  destruct (if inclusive then Qle_bool t a else Qltb t a).
  - rewrite Himp by reflexivity. cbn [List.length]. lia.
  - destruct (if inclusive then Qle_bool t b else Qltb t b); cbn [List.length]; lia.
Qed.

Lemma passed_bound (inclusive : bool) (thresholds : list Q) (q : Q) :
  (passed inclusive thresholds q <= List.length thresholds)%nat.
Proof.
  unfold passed. apply filter_length_le.
Qed.

Lemma nth_error_nth_in {A} (l : list A) (n : nat) (d : A) :
  (n < List.length l)%nat -> nth_error l n = Some (nth n l d).
Proof.
  intros H. now apply nth_error_nth'.
Qed.

End misol_text_facts.

Section DescriptionTables.
Import Strings.String.

(** X13.  The wind description never goes down as the speed goes up: for
    speeds [a <= b] the description of [a] stands at or before the
    description of [b] on the scale from "Calm" to "Hurricane force", and
    every finite speed gets one of these thirteen descriptions. *)
Theorem wind_description_monotone (a b : Q) :
  (a <= b)%Q ->
  exists i j,
    nth_error misol_text.wind_scale i
    = Some (misol_text.wind_speed_to_description (Val a))
    /\ nth_error misol_text.wind_scale j
       = Some (misol_text.wind_speed_to_description (Val b))
    /\ (i <= j)%nat.
Proof.
  intros Hab.
  exists (misol_text.wind_rank a), (misol_text.wind_rank b).
  rewrite !misol_text_facts.wind_description_rank.
  assert (Hbound : forall q, (misol_text.wind_rank q < 13)%nat).
  { intros q. unfold misol_text.wind_rank.
    pose proof (misol_text_facts.passed_bound true [3 # 10]%Q q) as H1.
    pose proof (misol_text_facts.passed_bound false
                  [15 # 10; 33 # 10; 55 # 10; 79 # 10; 107 # 10; 138 # 10;
                   171 # 10; 207 # 10; 244 # 10; 284 # 10; 326 # 10]%Q q) as H2.
    cbn [List.length] in H1, H2. lia. }
  split; [apply misol_text_facts.nth_error_nth_in, Hbound|].
  split; [apply misol_text_facts.nth_error_nth_in, Hbound|].
  unfold misol_text.wind_rank.
  pose proof (misol_text_facts.passed_le true [3 # 10]%Q a b Hab).
  pose proof (misol_text_facts.passed_le false
                [15 # 10; 33 # 10; 55 # 10; 79 # 10; 107 # 10; 138 # 10;
                 171 # 10; 207 # 10; 244 # 10; 284 # 10; 326 # 10]%Q a b Hab).
  lia.
Qed.

Lemma wind_description_monotone_witness :
  exists i j,
    nth_error misol_text.wind_scale i
    = Some (misol_text.wind_speed_to_description (Val (15 # 10)))
    /\ nth_error misol_text.wind_scale j
       = Some (misol_text.wind_speed_to_description (Val (16 # 10)))
    /\ (i <= j)%nat.
Proof.
  apply (wind_description_monotone (15 # 10) (16 # 10)).
  vm_compute. discriminate.
Defined.

(** X14.  The light description never goes down as the illuminance goes up,
    and every finite illuminance gets one of the eight descriptions from
    "Overcast night" to "Bright direct sunlight". *)
Theorem light_description_monotone (a b : Q) :
  (a <= b)%Q ->
  exists i j,
    nth_error misol_text.light_scale i
    = Some (misol_text.light_level_to_description (Val a))
    /\ nth_error misol_text.light_scale j
       = Some (misol_text.light_level_to_description (Val b))
    /\ (i <= j)%nat.
Proof.
  intros Hab.
  exists (misol_text.light_rank a), (misol_text.light_rank b).
  rewrite !misol_text_facts.light_description_rank.
  assert (Hbound : forall q, (misol_text.light_rank q < 8)%nat).
  { intros q. unfold misol_text.light_rank.
    pose proof (misol_text_facts.passed_bound true
                  [2; 3; 50; 400; 4500; 28500; 120000]%Q q) as H1.
    cbn [List.length] in H1. lia. }
  split; [apply misol_text_facts.nth_error_nth_in, Hbound|].
  split; [apply misol_text_facts.nth_error_nth_in, Hbound|].
  now apply misol_text_facts.passed_le.
Qed.

Lemma light_description_monotone_witness :
  exists i j,
    nth_error misol_text.light_scale i
    = Some (misol_text.light_level_to_description (Val 2))
    /\ nth_error misol_text.light_scale j
       = Some (misol_text.light_level_to_description (Val 399))
    /\ (i <= j)%nat.
Proof.
  apply (light_description_monotone 2 399).
  vm_compute. discriminate.
Defined.

(** X15.  The last branch of [precipitation_to_description] is dead: no
    argument, [NaN] included, is described as "Extreme precipitation".
    [NaN] gives "Unknown"; a finite rate gives one of the five descriptions
    from "No precipitation" to "Violent rain", and a larger rate never an
    earlier one. *)
Theorem precipitation_description_never_extreme :
  (forall x,
      misol_text.precipitation_to_description x
      <> "Extreme precipitation"%string)
  /\ misol_text.precipitation_to_description NaN
     = "Unknown"%string
  /\ (forall a b,
         (a <= b)%Q ->
         exists i j,
           nth_error misol_text.precipitation_scale i
           = Some (misol_text.precipitation_to_description (Val a))
           /\ nth_error misol_text.precipitation_scale j
              = Some (misol_text.precipitation_to_description (Val b))
           /\ (i <= j)%nat).
Proof.
  assert (Hbound : forall q, (misol_text.precipitation_rank q < 5)%nat).
  { intros q. unfold misol_text.precipitation_rank.
    pose proof (misol_text_facts.passed_bound false [0; 25 # 10; 75 # 10; 50]%Q q) as H1.
    cbn [List.length] in H1. lia. }
  split; [|split].
  - intros [|q]; [vm_compute; discriminate|].
    rewrite misol_text_facts.precipitation_description_rank.
    specialize (Hbound q).
    destruct (misol_text.precipitation_rank q) as [|[|[|[|[|n]]]]];
      [vm_compute; discriminate .. | lia].
  - reflexivity.
  - intros a b Hab.
    exists (misol_text.precipitation_rank a), (misol_text.precipitation_rank b).
    rewrite !misol_text_facts.precipitation_description_rank.
    split; [apply misol_text_facts.nth_error_nth_in, Hbound|].
    split; [apply misol_text_facts.nth_error_nth_in, Hbound|].
    now apply misol_text_facts.passed_le.
Qed.

End DescriptionTables.

(** ** Field extraction *)

Lemma at_in_bounds {W} (data : list byte) (i : nat) (w : W) :
  (i < length data)%nat -> at_ data i w = Some (byte_at data i, w).
Proof.
  intros Hi. unfold at_, byte_at.
  destruct (nth_error data i) as [b|] eqn:E.
  - now rewrite (nth_error_nth _ _ x00 E).
  - apply nth_error_None in E. lia.
Qed.

Lemma byte_at_range (data : list byte) (i : nat) : 0 <= byte_at data i < 256.
Proof. apply u8_range. Qed.

(** The shifts and masks of [process_packet_] against the fields as
    numbers; each is checked on all 256 values of the flags byte. *)
Lemma wind_direction_extract (data : list byte) :
  uint16_t (byte_at data 2 + Z.shiftl (uint16_t (Z.land (byte_at data 3) 0x80)) 1)
  = wind_direction_bits data.
Proof.
  unfold wind_direction_bits, flag_bit, byte_at.
  pose proof (u8_range (nth 2 data x00)) as H2.
  assert (H3 : Z.shiftl (uint16_t (Z.land (u8 (nth 3 data x00)) 128)) 1
               = 256 * Z.b2z (Z.testbit (u8 (nth 3 data x00)) 7))
    by (destruct (nth 3 data x00); reflexivity).
  rewrite H3. unfold uint16_t.
  destruct (Z.testbit (u8 (nth 3 data x00)) 7); cbn [Z.b2z];
    rewrite Z.mod_small; lia.
Qed.

Lemma temperature_extract (data : list byte) :
  uint16_t (byte_at data 4 + Z.shiftl (uint16_t (Z.land (byte_at data 3) 0x07)) 8)
  = temperature_bits data.
Proof.
  unfold temperature_bits, byte_at.
  pose proof (u8_range (nth 4 data x00)) as H4.
  assert (H3 : Z.shiftl (uint16_t (Z.land (u8 (nth 3 data x00)) 7)) 8
               = 256 * (u8 (nth 3 data x00) mod 8))
    by (destruct (nth 3 data x00); reflexivity).
  rewrite H3. unfold uint16_t.
  pose proof (Z.mod_pos_bound (u8 (nth 3 data x00)) 8 ltac:(lia)).
  rewrite Z.mod_small; lia.
Qed.

Lemma wind_speed_extract (data : list byte) :
  uint16_t (byte_at data 6 + Z.shiftl (uint16_t (Z.land (byte_at data 3) 0x10)) 4)
  = wind_speed_bits data.
Proof.
  unfold wind_speed_bits, flag_bit, byte_at.
  pose proof (u8_range (nth 6 data x00)) as H6.
  assert (H3 : Z.shiftl (uint16_t (Z.land (u8 (nth 3 data x00)) 16)) 4
               = 256 * Z.b2z (Z.testbit (u8 (nth 3 data x00)) 4))
    by (destruct (nth 3 data x00); reflexivity).
  rewrite H3. unfold uint16_t.
  destruct (Z.testbit (u8 (nth 3 data x00)) 4); cbn [Z.b2z];
    rewrite Z.mod_small; lia.
Qed.

Lemma rain_extract (data : list byte) :
  uint16_t (byte_at data 9 + Z.shiftl (uint16_t (byte_at data 8)) 8) = rain_bits data.
Proof.
  unfold rain_bits.
  pose proof (byte_at_range data 8). pose proof (byte_at_range data 9).
  unfold uint16_t. rewrite (Z.mod_small (byte_at data 8)) by lia.
  rewrite Z.shiftl_mul_pow2 by lia. rewrite Z.mod_small; lia.
Qed.

Lemma uv_extract (data : list byte) :
  uint32_t (byte_at data 11 + Z.shiftl (uint16_t (byte_at data 10)) 8) = uv_bits data.
Proof.
  unfold uv_bits.
  pose proof (byte_at_range data 10). pose proof (byte_at_range data 11).
  unfold uint16_t, uint32_t. rewrite (Z.mod_small (byte_at data 10)) by lia.
  rewrite Z.shiftl_mul_pow2 by lia. rewrite Z.mod_small; lia.
Qed.

Lemma light_extract (data : list byte) :
  uint32_t (byte_at data 14 + Z.shiftl (byte_at data 13) 8 + Z.shiftl (byte_at data 12) 16)
  = light_bits data.
Proof.
  unfold light_bits.
  pose proof (byte_at_range data 12). pose proof (byte_at_range data 13).
  pose proof (byte_at_range data 14).
  unfold uint32_t. rewrite !Z.shiftl_mul_pow2 by lia. rewrite Z.mod_small; lia.
Qed.

Lemma pressure_extract (data : list byte) :
  uint32_t (uint32_t (Z.shiftl (byte_at data 17) 16)
            + uint32_t (Z.shiftl (byte_at data 18) 8) + byte_at data 19)
  = pressure_bits data.
Proof.
  unfold pressure_bits.
  pose proof (byte_at_range data 17). pose proof (byte_at_range data 18).
  pose proof (byte_at_range data 19).
  unfold uint32_t. rewrite !Z.shiftl_mul_pow2 by lia.
  rewrite (Z.mod_small (byte_at data 17 * 2 ^ 16)) by lia.
  rewrite (Z.mod_small (byte_at data 18 * 2 ^ 8)) by lia.
  rewrite Z.mod_small; lia.
Qed.

Lemma uint8_byte (data : list byte) (i : nat) : uint8_t (byte_at data i) = byte_at data i.
Proof.
  unfold uint8_t. apply Z.mod_small. apply byte_at_range.
Qed.

(** ** Compass directions *)

From Stdlib Require Import Qround.

Lemma Qfloor_unique (q : Q) (z : Z) :
  (inject_Z z <= q)%Q -> (q < inject_Z (z + 1))%Q -> Qfloor q = z.
Proof.
  intros Hlo Hhi.
  pose proof (Qfloor_le q) as H1. pose proof (Qlt_floor q) as H2.
  assert (Ha : (inject_Z (Qfloor q) < inject_Z (z + 1))%Q) by lra.
  assert (Hb : (inject_Z z < inject_Z (Qfloor q + 1))%Q) by lra.
  rewrite <- Zlt_Qlt in Ha, Hb. lia.
Qed.

Lemma static_cast_int_floor (q : Q) (z : Z) :
  0 <= z < 2 ^ 31 ->
  (inject_Z z <= q)%Q -> (q < inject_Z (z + 1))%Q ->
  misol_text.static_cast_int q = Some z.
Proof.
  intros Hz Hlo Hhi.
  pose proof (Qfloor_unique q z Hlo Hhi) as Hfloor.
  unfold misol_text.static_cast_int.
  assert (Hnum : 0 <= Qnum q).
  { assert (H0 : (0 <= q)%Q).
    { apply Qle_trans with (inject_Z z); [|exact Hlo].
      unfold Qle, inject_Z. cbn. lia. }
    unfold Qle in H0. cbn in H0. lia. }
  rewrite Z.quot_div_nonneg by lia.
  unfold Qfloor in Hfloor. destruct q as [n d]. cbn [Qnum Qden] in *.
  rewrite Hfloor.
  replace (- 2 ^ 31 <=? z) with true by (symmetry; apply Z.leb_le; lia).
  replace (z <? 2 ^ 31) with true by (symmetry; apply Z.ltb_lt; lia).
  reflexivity.
Qed.

Lemma angle_to_direction_index (a : Q) (z : Z) :
  0 <= z < 2 ^ 31 ->
  (inject_Z z * (225 # 10) <= a + (1125 # 100))%Q ->
  (a + (1125 # 100) < inject_Z (z + 1) * (225 # 10))%Q ->
  misol_text.angle_to_direction (Val a)
  = nth_error misol_text.directions (Z.to_nat (z mod 16)).
Proof.
  intros Hz Hlo Hhi. unfold misol_text.angle_to_direction.
  rewrite (static_cast_int_floor _ z Hz).
  - rewrite Z.rem_mod_nonneg by lia.
    pose proof (Z.mod_pos_bound z 16 ltac:(lia)) as Hm.
    replace (z mod 16 <? 0) with false by (symmetry; apply Z.ltb_ge; lia).
    reflexivity.
  - apply Qle_shift_div_l; [reflexivity | exact Hlo].
  - apply Qlt_shift_div_r; [reflexivity | exact Hhi].
Qed.

(** The sector a non-negative angle falls in. *)
Lemma angle_sector_exists (a : Q) :
  (0 <= a)%Q -> (a <= inject_Z (2 ^ 31))%Q ->
  exists z,
    0 <= z < 2 ^ 31 - 16
    /\ (inject_Z z * (225 # 10) <= a + (1125 # 100))%Q
    /\ (a + (1125 # 100) < inject_Z (z + 1) * (225 # 10))%Q.
Proof.
  intros H0 Hmax.
  set (q := ((a + (1125 # 100)) / (225 # 10))%Q).
  assert (Hq : (q * (225 # 10) == a + (1125 # 100))%Q).
  { unfold q. field. }
  pose proof (Qfloor_le q) as H1. pose proof (Qlt_floor q) as H2.
  exists (Qfloor q). split; [|split].
  - assert (Hq0 : (0 <= q)%Q) by (apply Qle_shift_div_l; [reflexivity | lra]).
    assert (Hqmax : (q < inject_Z (2 ^ 31 - 16))%Q).
    { apply Qlt_shift_div_r; [reflexivity|].
      change (inject_Z (2 ^ 31 - 16)) with (2147483632 # 1)%Q.
      change (inject_Z (2 ^ 31)) with (2147483648 # 1)%Q in Hmax. lra. }
    assert (Ha : (inject_Z (Qfloor q) < inject_Z (2 ^ 31 - 16))%Q) by lra.
    pose proof (Qfloor_resp_le 0 q Hq0) as Hb. change (Qfloor 0) with 0 in Hb.
    rewrite <- Zlt_Qlt in Ha. lia.
  - rewrite <- Hq. apply Qmult_le_compat_r; [exact H1 | discriminate].
  - rewrite <- Hq. apply Qmult_lt_compat_r; [reflexivity | exact H2].
Qed.

Lemma direction_in_range (z : Z) :
  0 <= z ->
  exists s,
    nth_error misol_text.directions (Z.to_nat (z mod 16)) = Some s
    /\ In s (firstn 16 misol_text.directions).
Proof.
  intros Hz. pose proof (Z.mod_pos_bound z 16 ltac:(lia)) as Hm.
  assert (Hn : (Z.to_nat (z mod 16) < 16)%nat) by lia.
  destruct (nth_error (firstn 16 misol_text.directions) (Z.to_nat (z mod 16)))
    as [s|] eqn:E.
  - exists s. split; [|exact (nth_error_In _ _ E)].
    rewrite nth_error_firstn in E.
    destruct (Nat.ltb_spec (Z.to_nat (z mod 16)) 16); [exact E | lia].
  - apply nth_error_None in E. cbn in E. lia.
Qed.

Lemma angle_to_direction_defined (a : Q) :
  (0 <= a)%Q -> (a <= inject_Z (2 ^ 31))%Q ->
  exists s,
    misol_text.angle_to_direction (Val a) = Some s
    /\ In s (firstn 16 misol_text.directions).
Proof.
  intros H0 Hmax.
  destruct (angle_sector_exists a H0 Hmax) as (z & Hz & Hlo & Hhi).
  rewrite (angle_to_direction_index a z) by (auto; lia).
  apply direction_in_range. lia.
Qed.

(** X16.  Each compass point owns the sector of 22.5 degrees centred on its
    heading: for [k] from 0 to 15, every angle [a] with
    [22.5 k - 11.25 <= a < 22.5 k + 11.25] is given the [k]-th entry of
    [directions] (so "N" for -11.25 up to, not including, 11.25). *)
Theorem angle_sector_direction (a : Q) (k : nat) :
  (k < 16)%nat ->
  (inject_Z (Z.of_nat k) * (225 # 10) - (1125 # 100) <= a)%Q ->
  (a < inject_Z (Z.of_nat k) * (225 # 10) + (1125 # 100))%Q ->
  misol_text.angle_to_direction (Val a) = nth_error misol_text.directions k.
Proof.
  intros Hk Hlo Hhi.
  rewrite (angle_to_direction_index a (Z.of_nat k)).
  - rewrite Z.mod_small by lia. now rewrite Nat2Z.id.
  - lia.
  - lra.
  - rewrite inject_Z_plus. change (inject_Z 1) with 1%Q. lra.
Qed.

Lemma angle_sector_direction_witness :
  misol_text.angle_to_direction (Val (-1125 # 100))
  = nth_error misol_text.directions 0
  /\ misol_text.angle_to_direction (Val (100 # 1))
     = nth_error misol_text.directions 4.
Proof.
  split.
  - apply (angle_sector_direction (-1125 # 100) 0).
    + lia.
    + vm_compute. discriminate.
    + vm_compute. reflexivity.
  - apply (angle_sector_direction (100 # 1) 4).
    + lia.
    + vm_compute. discriminate.
    + vm_compute. reflexivity.
Defined.

(** X17.  [angle_to_direction] is periodic and stays inside its array: for
    every angle from 0 up to 2^31 the result is defined, is one of the
    first sixteen entries of [directions] (the seventeenth is never
    reached), and is the same for the angle plus 360. *)
Theorem angle_direction_periodic (a : Q) :
  (0 <= a)%Q -> (a <= inject_Z (2 ^ 31))%Q ->
  exists s,
    misol_text.angle_to_direction (Val a) = Some s
    /\ misol_text.angle_to_direction (Val (a + 360)) = Some s
    /\ In s (firstn 16 misol_text.directions).
Proof.
  intros H0 Hmax.
  destruct (angle_sector_exists a H0 Hmax) as (z & Hz & Hlo & Hhi).
  destruct (direction_in_range z ltac:(lia)) as (s & Hs & Hin).
  exists s. split; [|split; [|exact Hin]].
  - rewrite (angle_to_direction_index a z) by (auto; lia). exact Hs.
  - rewrite (angle_to_direction_index (a + 360) (z + 16)).
    + replace ((z + 16) mod 16) with (z mod 16); [exact Hs|].
      replace (z + 16) with (z + 1 * 16) by lia. now rewrite Z.mod_add by lia.
    + lia.
    + rewrite inject_Z_plus. change (inject_Z 16) with 16%Q. lra.
    + rewrite !inject_Z_plus in *. change (inject_Z 16) with 16%Q.
      change (inject_Z 1) with 1%Q in *. lra.
Qed.

Lemma angle_direction_periodic_witness :
  exists s,
    misol_text.angle_to_direction (Val 100) = Some s
    /\ misol_text.angle_to_direction (Val (100 + 360)) = Some s
    /\ In s (firstn 16 misol_text.directions).
Proof.
  apply (angle_direction_periodic 100).
  - vm_compute. discriminate.
  - vm_compute. discriminate.
Defined.

(** ** The text sensors of the older version *)

Section TextSensors.
Import Strings.String.

Lemma wind_direction_bits_range (data : list byte) :
  0 <= wind_direction_bits data <= 511.
Proof.
  unfold wind_direction_bits, flag_bit.
  pose proof (byte_at_range data 2).
  destruct (Z.testbit (byte_at data 3) 7); cbn [Z.b2z]; lia.
Qed.

Lemma wind_direction_text_run (data : list byte) (log : misol_text.TextLog) :
  (17 <= List.length data)%nat ->
  exists s,
    misol_text.wind_direction_text true data log
    = Some (tt, log ++ [(misol_text.wind_direction_text_sensor, s)])
    /\ (wind_direction_bits data = 0x1FF -> s = "Unknown"%string)
    /\ (wind_direction_bits data <> 0x1FF ->
        misol_text.angle_to_direction (Val (inject_Z (wind_direction_bits data)))
        = Some s
        /\ In s (firstn 16 misol_text.directions)).
Proof.
  intros Hlen. unfold misol_text.wind_direction_text. cbn [when].
  rewrite (bind_Some _ _ _ _ _ (at_in_bounds data 2 log ltac:(lia))).
  rewrite (bind_Some _ _ _ _ _ (at_in_bounds data 3 log ltac:(lia))).
  cbn zeta. rewrite wind_direction_extract.
  pose proof (wind_direction_bits_range data) as Hrange.
  destruct (wind_direction_bits data =? 511) eqn:E; cbn [negb].
  - apply Z.eqb_eq in E. eexists. split; [reflexivity|]. split; [reflexivity|].
    intros H. contradiction.
  - apply Z.eqb_neq in E.
    destruct (angle_to_direction_defined (inject_Z (wind_direction_bits data)))
      as (s & Hs & Hin).
    + rewrite <- (Zle_Qle 0). lia.
    + rewrite <- Zle_Qle. lia.
    + exists s. split; [|split; [intros H; contradiction | auto]].
      unfold bind, misol_text.lift_option. rewrite Hs. reflexivity.
Qed.

Lemma wind_speed_text_run (data : list byte) (log : misol_text.TextLog) :
  (17 <= List.length data)%nat ->
  misol_text.wind_speed_text true data log
  = Some (tt, log ++ [(misol_text.wind_speed_text_sensor,
                       if wind_speed_bits data =? 0x1FF then "Unknown"%string
                       else misol_text.wind_speed_to_description
                              (Val (inject_Z (wind_speed_bits data) / 8 * (112 # 100))%Q))]).
Proof.
  intros Hlen. unfold misol_text.wind_speed_text. cbn [when].
  rewrite (bind_Some _ _ _ _ _ (at_in_bounds data 6 log ltac:(lia))).
  rewrite (bind_Some _ _ _ _ _ (at_in_bounds data 3 log ltac:(lia))).
  cbn zeta. rewrite wind_speed_extract.
  destruct (wind_speed_bits data =? 511); reflexivity.
Qed.

Lemma light_text_run (data : list byte) (log : misol_text.TextLog) :
  (17 <= List.length data)%nat ->
  misol_text.light_text true data log
  = Some (tt, log ++ [(misol_text.light_text_sensor,
                       if light_bits data =? 0xFFFFFF then "Unknown"%string
                       else misol_text.light_level_to_description
                              (Val (inject_Z (light_bits data) / 10)%Q))]).
Proof.
  intros Hlen. unfold misol_text.light_text. cbn [when].
  rewrite (bind_Some _ _ _ _ _ (at_in_bounds data 14 log ltac:(lia))).
  rewrite (bind_Some _ _ _ _ _ (at_in_bounds data 13 log ltac:(lia))).
  rewrite (bind_Some _ _ _ _ _ (at_in_bounds data 12 log ltac:(lia))).
  cbn zeta. rewrite light_extract.
  destruct (light_bits data =? 16777215); reflexivity.
Qed.

Lemma scale_entry_known (scale : list string) (n : nat) :
  (n < List.length scale)%nat ->
  ~ In "Unknown"%string scale ->
  nth n scale ""%string <> "Unknown"%string.
Proof.
  intros Hn Hnot H. apply Hnot. rewrite <- H. now apply nth_In.
Qed.

Lemma not_in_by_eqb (s : string) (l : list string) :
  existsb (String.eqb s) l = false -> ~ In s l.
Proof.
  intros H Hin.
  assert (Ht : existsb (String.eqb s) l = true).
  { apply existsb_exists. exists s. split; [exact Hin | apply String.eqb_refl]. }
  congruence.
Qed.

(** X18.  The wind-direction text sensor is always served from inside the
    array: on every frame of at least 17 bytes the block completes and
    publishes exactly one text, "Unknown" exactly when the direction bits
    are the sentinel 0x1FF and otherwise one of the sixteen compass points,
    also for the raw values 360..510 that lie beyond a full turn. *)
Theorem wind_direction_text_defined (data : list byte) (log : misol_text.TextLog) :
  (17 <= List.length data)%nat ->
  exists s,
    misol_text.wind_direction_text true data log
    = Some (tt, log ++ [(misol_text.wind_direction_text_sensor, s)])
    /\ (s = "Unknown"%string <-> wind_direction_bits data = 0x1FF)
    /\ (wind_direction_bits data <> 0x1FF ->
        In s (firstn 16 misol_text.directions)).
Proof.
  intros Hlen.
  destruct (wind_direction_text_run data log Hlen) as (s & Hrun & Hunknown & Hpoint).
  exists s. split; [exact Hrun|]. split; [|intros H; now apply Hpoint].
  split; [|exact Hunknown].
  intros Hs. destruct (Z.eq_dec (wind_direction_bits data) 511) as [E | E]; [exact E|].
  destruct (Hpoint E) as [_ Hin]. subst s. exfalso. revert Hin.
  apply not_in_by_eqb. reflexivity.
Qed.

Lemma wind_direction_text_defined_witness :
  exists s,
    misol_text.wind_direction_text true frame_all_sentinels []
    = Some (tt, [] ++ [(misol_text.wind_direction_text_sensor, s)])
    /\ (s = "Unknown"%string <-> wind_direction_bits frame_all_sentinels = 0x1FF)
    /\ (wind_direction_bits frame_all_sentinels <> 0x1FF ->
        In s (firstn 16 misol_text.directions)).
Proof.
  apply (wind_direction_text_defined frame_all_sentinels []).
  simpl. lia.
Defined.

(** X19.  The wind-speed and light text sensors say "Unknown" exactly at the
    sentinel.  On every frame of at least 17 bytes each block publishes
    exactly one text; it is "Unknown" exactly when the field's bits are the
    sentinel (0x1FF, 0xFFFFFF), and otherwise an entry of the scale of its
    description function.  The precipitation text is published only when
    the precipitation block has set its updated flag, and is "Unknown"
    exactly when the intensity is NaN. *)
Theorem text_unknown_exactly_at_sentinel (data : list byte) (log : misol_text.TextLog)
    (precipitation_intensity_updated : bool) (precipitation_intensity : reading) :
  (17 <= List.length data)%nat ->
  (exists s,
      misol_text.wind_speed_text true data log
      = Some (tt, log ++ [(misol_text.wind_speed_text_sensor, s)])
      /\ (s = "Unknown"%string <-> wind_speed_bits data = 0x1FF)
      /\ (wind_speed_bits data <> 0x1FF -> In s misol_text.wind_scale))
  /\ (exists s,
         misol_text.light_text true data log
         = Some (tt, log ++ [(misol_text.light_text_sensor, s)])
         /\ (s = "Unknown"%string <-> light_bits data = 0xFFFFFF)
         /\ (light_bits data <> 0xFFFFFF -> In s misol_text.light_scale))
  /\ misol_text.precipitation_intensity_text true precipitation_intensity_updated
       precipitation_intensity log
     = Some (tt, if precipitation_intensity_updated
                 then log ++ [(misol_text.precipitation_intensity_text_sensor,
                               misol_text.precipitation_to_description
                                 precipitation_intensity)]
                 else log)
  /\ (misol_text.precipitation_to_description precipitation_intensity
      = "Unknown"%string <-> precipitation_intensity = NaN).
Proof.
  intros Hlen. split; [|split; [|split]].
  - eexists. split; [apply wind_speed_text_run, Hlen|].
    destruct (wind_speed_bits data =? 511) eqn:E.
    + apply Z.eqb_eq in E. split; [tauto | intros H; contradiction].
    + apply Z.eqb_neq in E.
      rewrite misol_text_facts.wind_description_rank.
      assert (Hb : (misol_text.wind_rank
                      (inject_Z (wind_speed_bits data) / 8 * (112 # 100)) < 13)%nat).
      { unfold misol_text.wind_rank.
        match goal with
        | |- (misol_text.passed true ?l1 ?q + misol_text.passed false ?l2 ?q < _)%nat =>
            pose proof (misol_text_facts.passed_bound true l1 q) as H1;
            pose proof (misol_text_facts.passed_bound false l2 q) as H2
        end.
        cbn [List.length] in H1, H2. lia. }
      split; [split; [|intros H; contradiction] | intros _; now apply nth_In].
      intros Hs. exfalso. revert Hs. apply scale_entry_known; [exact Hb|].
      apply not_in_by_eqb. reflexivity.
  - eexists. split; [apply light_text_run, Hlen|].
    destruct (light_bits data =? 16777215) eqn:E.
    + apply Z.eqb_eq in E. split; [tauto | intros H; contradiction].
    + apply Z.eqb_neq in E.
      rewrite misol_text_facts.light_description_rank.
      assert (Hb : (misol_text.light_rank (inject_Z (light_bits data) / 10) < 8)%nat).
      { unfold misol_text.light_rank.
        match goal with
        | |- (misol_text.passed true ?l1 ?q < _)%nat =>
            pose proof (misol_text_facts.passed_bound true l1 q) as H1
        end.
        cbn [List.length] in H1. lia. }
      split; [split; [|intros H; contradiction] | intros _; now apply nth_In].
      intros Hs. exfalso. revert Hs. apply scale_entry_known; [exact Hb|].
      apply not_in_by_eqb. reflexivity.
  - unfold misol_text.precipitation_intensity_text. cbn [andb].
    destruct precipitation_intensity_updated; reflexivity.
  - destruct precipitation_intensity as [|q]; [split; reflexivity|].
    split; [|discriminate].
    rewrite misol_text_facts.precipitation_description_rank.
    assert (Hb : (misol_text.precipitation_rank q < 5)%nat).
    { unfold misol_text.precipitation_rank.
      match goal with
      | |- (misol_text.passed false ?l1 ?q < _)%nat =>
          pose proof (misol_text_facts.passed_bound false l1 q) as H1
      end.
      cbn [List.length] in H1. lia. }
    intros Hs. exfalso. revert Hs. apply scale_entry_known; [exact Hb|].
    apply not_in_by_eqb. reflexivity.
Qed.

Lemma text_unknown_exactly_at_sentinel_witness :
  (exists s,
      misol_text.wind_speed_text true frame_rain_100 []
      = Some (tt, [] ++ [(misol_text.wind_speed_text_sensor, s)])
      /\ (s = "Unknown"%string <-> wind_speed_bits frame_rain_100 = 0x1FF)
      /\ (wind_speed_bits frame_rain_100 <> 0x1FF -> In s misol_text.wind_scale))
  /\ (exists s,
         misol_text.light_text true frame_rain_100 []
         = Some (tt, [] ++ [(misol_text.light_text_sensor, s)])
         /\ (s = "Unknown"%string <-> light_bits frame_rain_100 = 0xFFFFFF)
         /\ (light_bits frame_rain_100 <> 0xFFFFFF -> In s misol_text.light_scale))
  /\ misol_text.precipitation_intensity_text true true NaN []
     = Some (tt, if true
                 then [] ++ [(misol_text.precipitation_intensity_text_sensor,
                              misol_text.precipitation_to_description NaN)]
                 else [])
  /\ (misol_text.precipitation_to_description NaN = "Unknown"%string <-> NaN = NaN).
Proof.
  apply (text_unknown_exactly_at_sentinel frame_rain_100 [] true NaN).
  simpl. lia.
Defined.

End TextSensors.

(** ** One packet through the newer [process_packet_] *)

Module misol_weather_decode.
Import misol_weather.

Lemma at_bind {B} (data : list byte) (i : nat) (k : Z -> M World B) (w : World) :
  (i < length data)%nat -> bind (at_ data i) k w = k (byte_at data i) w.
Proof.
  intros Hi. apply bind_Some. now apply at_in_bounds.
Qed.

Lemma sentinel_if (x s : Z) (v : Q) :
  (if negb (x =? s) then Val v else NaN) = sentinel_or s x v.
Proof.
  unfold sentinel_or. destruct (x =? s); reflexivity.
Qed.

Lemma low_battery_bit (data : list byte) :
  negb (Z.land (byte_at data 3) 0x08 =? 0) = Z.testbit (byte_at data 3) 3.
Proof.
  unfold byte_at. destruct (nth 3 data x00); reflexivity.
Qed.

Lemma pressure_block {B} (cfg : Config) (data : list byte) (has_pressure : bool)
    (k : unit -> M World B) (w : World) :
  (has_pressure = true -> (21 <= length data)%nat) ->
  bind (when (pressure_sensor_ cfg)
          (if has_pressure then
             d17 <- at_ data 17 ;; d18 <- at_ data 18 ;; d19 <- at_ data 19 ;;
             publish_state
               (Sensor pressure_sensor
                  (Val (inject_Z
                          (uint32_t (uint32_t (Z.shiftl d17 16)
                                     + uint32_t (Z.shiftl d18 8) + d19)) / 100)%Q))
           else publish_state (Sensor pressure_sensor NaN))) k w
  = k tt (World_publish
            (opt (pressure_sensor_ cfg)
               (Sensor pressure_sensor (shown data has_pressure pressure_sensor))) w).
Proof.
  intros Hext. unfold opt, shown.
  destruct (pressure_sensor_ cfg); cbn [when].
  - destruct has_pressure.
    + specialize (Hext eq_refl).
      unfold bind at 1. rewrite !at_bind by lia. rewrite pressure_extract. reflexivity.
    + reflexivity.
  - cbn. now rewrite misol_weather_facts.World_publish_nil.
Qed.

Lemma wind_direction_block {B} (cfg : Config) (data : list byte) (has_pressure : bool)
    (k : unit -> M World B) (w : World) :
  (17 <= length data)%nat ->
  bind (when (wind_direction_degrees_sensor_ cfg)
          (d2 <- at_ data 2 ;; d3 <- at_ data 3 ;;
           if negb (uint16_t (d2 + Z.shiftl (uint16_t (Z.land d3 0x80)) 1) =? 0x1FF)
           then publish_state
                  (Sensor wind_direction_degrees_sensor
                     (Val (inject_Z
                             (uint16_t (d2 + Z.shiftl (uint16_t (Z.land d3 0x80)) 1)))))
           else publish_state (Sensor wind_direction_degrees_sensor NaN))) k w
  = k tt (World_publish
            (opt (wind_direction_degrees_sensor_ cfg)
               (Sensor wind_direction_degrees_sensor
                  (shown data has_pressure wind_direction_degrees_sensor))) w).
Proof.
  intros Hlen. unfold opt, shown, sentinel_or.
  destruct (wind_direction_degrees_sensor_ cfg); cbn [when].
  - unfold bind at 1. rewrite !at_bind by lia. rewrite wind_direction_extract.
    destruct (wind_direction_bits data =? 511); reflexivity.
  - cbn. now rewrite misol_weather_facts.World_publish_nil.
Qed.

Lemma wind_gust_block {B} (cfg : Config) (data : list byte) (has_pressure : bool)
    (k : unit -> M World B) (w : World) :
  (17 <= length data)%nat ->
  bind (when (wind_gust_sensor_ cfg)
          (d7 <- at_ data 7 ;;
           if negb (uint8_t d7 =? 0xFF)
           then publish_state
                  (Sensor wind_gust_sensor (Val (inject_Z (uint8_t d7) * (112 # 100))%Q))
           else publish_state (Sensor wind_gust_sensor NaN))) k w
  = k tt (World_publish
            (opt (wind_gust_sensor_ cfg)
               (Sensor wind_gust_sensor (shown data has_pressure wind_gust_sensor))) w).
Proof.
  intros Hlen. unfold opt, shown, sentinel_or.
  destruct (wind_gust_sensor_ cfg); cbn [when].
  - unfold bind at 1. rewrite !at_bind by lia. rewrite uint8_byte.
    destruct (byte_at data 7 =? 255); reflexivity.
  - cbn. now rewrite misol_weather_facts.World_publish_nil.
Qed.

Lemma uv_bits_range (data : list byte) : 0 <= uv_bits data <= 65535.
Proof.
  unfold uv_bits. pose proof (byte_at_range data 10). pose proof (byte_at_range data 11).
  lia.
Qed.

Lemma uv_index_block {B} (cfg : Config) (data : list byte) (has_pressure : bool)
    (k : unit -> M World B) (w : World) :
  bind (when (uv_index_sensor_ cfg)
          (if negb (is_nan (sentinel_or 0xFFFF (uv_bits data)
                              (inject_Z (uv_bits data) / 10)%Q))
           then publish_state
                  (Sensor uv_index_sensor (Val (inject_Z (uint8_t (uv_bits data / 400)))))
           else publish_state (Sensor uv_index_sensor NaN))) k w
  = k tt (World_publish
            (opt (uv_index_sensor_ cfg)
               (Sensor uv_index_sensor (shown data has_pressure uv_index_sensor))) w).
Proof.
  unfold opt, shown, sentinel_or.
  destruct (uv_index_sensor_ cfg); cbn [when].
  - destruct (uv_bits data =? 65535); cbn [is_nan negb]; [reflexivity|].
    pose proof (uv_bits_range data) as Hr.
    assert (Hsmall : uint8_t (uv_bits data / 400) = uv_bits data / 400).
    { unfold uint8_t. apply Z.mod_small. split.
      - apply Z.div_pos; lia.
      - apply Z.div_lt_upper_bound; lia. }
    now rewrite Hsmall.
  - cbn. now rewrite misol_weather_facts.World_publish_nil.
Qed.

Lemma precipitation_update_bind {B} (cfg : Config) (acc now : Z)
    (k : bool * reading -> M World B) (w : World) :
  exists rate f,
    (forall w0, station w0 = station w ->
                precipitation_update cfg acc now w0 = Some (rate, World_station f w0))
    /\ bind (precipitation_update cfg acc now) k w = k rate (World_station f w).
Proof.
  set (advance := fun s => State_previous_precipitation_timestamp_ now
                             (State_previous_precipitation_ (Some acc) s)).
  assert (Hcases :
    exists rate f,
      forall w0, station w0 = station w ->
                 precipitation_update cfg acc now w0 = Some (rate, World_station f w0)).
  { destruct (previous_precipitation_ (station w)) as [previous|] eqn:Hprevious.
    - destruct (s_gt_ms
                  (duration_cast_seconds
                     (now - previous_precipitation_timestamp_ (station w)))
                  (precipitation_intensity_interval_ cfg)) eqn:Hgt.
      + eexists _, advance. intros w0 Hw0.
        rewrite precipitation_update_cases, Hw0, Hprevious. cbn zeta. rewrite Hgt.
        reflexivity.
      + exists (false, NaN), (fun s => s). intros w0 Hw0.
        rewrite precipitation_update_cases, Hw0, Hprevious. cbn zeta. rewrite Hgt.
        destruct w0. reflexivity.
    - exists (false, NaN), advance. intros w0 Hw0.
      rewrite precipitation_update_cases, Hw0, Hprevious. reflexivity. }
  destruct Hcases as (rate & f & Hrun).
  exists rate, f. split; [exact Hrun|].
  apply bind_Some. now apply Hrun.
Qed.

Lemma when_publish_last (b : bool) (p : publication) (w : World) :
  when b (publish_state p) w = Some (tt, World_publish (opt b p) w).
Proof.
  destruct b; cbn; [reflexivity|]. now rewrite misol_weather_facts.World_publish_nil.
Qed.

Lemma night_block {B} (cfg : Config) (data : list byte)
    (k : unit -> M World B) (w : World) :
  exists night w',
    bind (match sentinel_or 0xFFFF (uv_bits data) (inject_Z (uv_bits data) / 10)%Q with
          | NaN => ret tt
          | Val uv =>
              when (night_binary_sensor_ cfg)
                (night0 <- detect_night uv (lower_night_threshold_ cfg)
                             (upper_night_threshold_ cfg) ;;
                 publish_state (BinarySensor night_binary_sensor night0))
          end) k w = k tt w'
    /\ station w' = station w
    /\ published w' = published w ++ match night with
                                     | Some v => [BinarySensor night_binary_sensor v]
                                     | None => []
                                     end
    /\ (if night_called cfg data
        then exists v,
               night = Some v
               /\ forall w0, statics w0 = statics w ->
                    exists w_n,
                      detect_night (inject_Z (uv_bits data) / 10)%Q
                        (lower_night_threshold_ cfg) (upper_night_threshold_ cfg) w0
                      = Some (v, w_n)
                      /\ statics w_n = statics w'
        else night = None /\ statics w' = statics w).
Proof.
  unfold night_called, sentinel_or.
  destruct (uv_bits data =? 65535).
  - exists None, w. rewrite andb_false_r, app_nil_r. now repeat split.
  - rewrite andb_true_r. destruct (night_binary_sensor_ cfg); cbn [when negb].
    + pose proof (detect_night_run (inject_Z (uv_bits data) / 10)%Q
                    (lower_night_threshold_ cfg) (upper_night_threshold_ cfg) w) as Hrun.
      cbv zeta in Hrun.
      eexists (Some _), _. split.
      { unfold bind at 1 2. rewrite Hrun. cbn [publish_state modify]. reflexivity. }
      cbn [station published statics World_publish].
      split; [reflexivity|]. split; [reflexivity|].
      eexists. split; [reflexivity|].
      intros w0 Hw0. rewrite detect_night_run. cbv zeta. rewrite Hw0.
      eexists. split; reflexivity.
    + exists None, w. rewrite app_nil_r. now repeat split.
Qed.

Lemma process_packet_normal_form (cfg : Config) (data : list byte) (len : nat)
    (has_pressure : bool) (now : Z) (w : World) :
  (17 <= length data)%nat ->
  (has_pressure = true -> (21 <= length data)%nat) ->
  exists rate w1 night w',
    precipitation_update cfg (rain_bits data) now w = Some (rate, w1)
    /\ process_packet_ cfg data len has_pressure now w = Some (tt, w')
    /\ station w' = station w1
    /\ published w' = published w ++ packet_log cfg data has_pressure rate night
    /\ (if night_called cfg data
        then exists v w_n,
               detect_night (inject_Z (uv_bits data) / 10)%Q
                 (lower_night_threshold_ cfg) (upper_night_threshold_ cfg) w
               = Some (v, w_n)
               /\ night = Some v /\ statics w' = statics w_n
        else night = None /\ statics w' = statics w).
Proof.
  intros Hlen Hext. unfold process_packet_.
  rewrite pressure_block by exact Hext.
  rewrite (wind_direction_block cfg data has_pressure) by exact Hlen.
  rewrite at_bind by lia. cbv beta zeta.
  rewrite misol_weather_facts.when_publish_run.
  rewrite !at_bind by lia. cbv beta zeta.
  rewrite misol_weather_facts.when_publish_run.
  rewrite !at_bind by lia. cbv beta zeta.
  rewrite misol_weather_facts.when_publish_run.
  rewrite !at_bind by lia. cbv beta zeta.
  rewrite misol_weather_facts.when_publish_run.
  rewrite (wind_gust_block cfg data has_pressure) by exact Hlen.
  rewrite !at_bind by lia. cbv beta zeta.
  rewrite temperature_extract, wind_speed_extract, uint8_byte, rain_extract,
    low_battery_bit, !sentinel_if.
  match goal with
  | |- context [bind (precipitation_update cfg ?a now) ?k ?W] =>
      destruct (precipitation_update_bind cfg a now k W) as (rate & f & Hrate & Hbind)
  end.
  rewrite Hbind. cbv beta.
  rewrite !misol_weather_facts.when_publish_run.
  rewrite !at_bind by lia. cbv beta zeta.
  rewrite uv_extract, !sentinel_if.
  rewrite misol_weather_facts.when_publish_run.
  rewrite (uv_index_block cfg data has_pressure).
  match goal with
  | |- context [bind (match sentinel_or _ _ _ with NaN => _ | Val _ => _ end) ?k ?W] =>
      destruct (night_block cfg data k W) as (night & w_night & Hnight & Hstation
                                              & Hpublished & Hstatics)
  end.
  rewrite Hnight.
  rewrite !at_bind by lia. cbv beta zeta.
  rewrite light_extract, sentinel_if, when_publish_last.
  cbn [station published statics World_publish World_station] in Hstation, Hpublished,
    Hstatics.
  exists rate, (World_station f w), night. eexists.
  split; [apply Hrate; reflexivity|].
  split; [reflexivity|].
  cbn [station published statics World_publish World_station].
  split; [exact Hstation|].
  split.
  - rewrite Hpublished. unfold packet_log, opt, shown.
    rewrite <- !app_assoc. reflexivity.
  - destruct (night_called cfg data).
    + destruct Hstatics as (v & Hv & Hw0).
      destruct (Hw0 w eq_refl) as (w_n & Hrun & Hsame).
      exists v, w_n. now repeat split.
    + exact Hstatics.
Qed.


End misol_weather_decode.

(** ** What one packet does to the channels *)

Lemma channel_app (s : sensor_id) (l1 l2 : list publication) :
  channel s (l1 ++ l2) = channel s l1 ++ channel s l2.
Proof.
  induction l1 as [|p l1 IH]; [reflexivity|].
  destruct p as [s' r|b v]; cbn [app channel]; rewrite IH.
  - match goal with |- context [if ?c then _ else _] => destruct c end; reflexivity.
  - reflexivity.
Qed.

Lemma binary_channel_app (b : binary_sensor_id) (l1 l2 : list publication) :
  binary_channel b (l1 ++ l2) = binary_channel b l1 ++ binary_channel b l2.
Proof.
  induction l1 as [|p l1 IH]; [reflexivity|].
  destruct p as [s' r|b' v]; cbn [app binary_channel]; rewrite IH.
  - reflexivity.
  - match goal with |- context [if ?c then _ else _] => destruct c end; reflexivity.
Qed.

Lemma channel_opt (s : sensor_id) (b : bool) (p : publication) :
  channel s (opt b p) = if b then channel s [p] else [].
Proof.
  destruct b; reflexivity.
Qed.

Lemma binary_channel_opt (c : binary_sensor_id) (b : bool) (p : publication) :
  binary_channel c (opt b p) = if b then binary_channel c [p] else [].
Proof.
  destruct b; reflexivity.
Qed.

Lemma if_same_nil {A} (b : bool) : (if b then [] else []) = @nil A.
Proof.
  destruct b; reflexivity.
Qed.

Lemma channel_night (s : sensor_id) (night : option bool) :
  channel s match night with
            | Some v => [BinarySensor night_binary_sensor v]
            | None => []
            end = [].
Proof.
  destruct night; reflexivity.
Qed.

Lemma channel_packet_log (cfg : misol_weather.Config) (data : list byte)
    (has_pressure : bool) (rate : bool * reading) (night : option bool) (s : sensor_id) :
  s <> precipitation_intensity_sensor ->
  channel s (packet_log cfg data has_pressure rate night)
  = opt (misol_weather.configured cfg s) (shown data has_pressure s).
Proof.
  intros Hs. unfold packet_log.
  rewrite !channel_app, channel_night, !channel_opt.
  destruct s; try congruence; cbn [channel misol_weather.configured];
    rewrite ?if_same_nil; cbn [app]; rewrite ?app_nil_r; reflexivity.
Qed.

Lemma binary_channel_packet_log (cfg : misol_weather.Config) (data : list byte)
    (has_pressure : bool) (rate : bool * reading) (night : option bool) :
  binary_channel battery_level_binary_sensor (packet_log cfg data has_pressure rate night)
  = opt (misol_weather.battery_level_binary_sensor_ cfg) (Z.testbit (byte_at data 3) 3)
  /\ binary_channel night_binary_sensor (packet_log cfg data has_pressure rate night)
     = match night with Some v => [v] | None => [] end.
Proof.
  unfold packet_log. rewrite !binary_channel_app, !binary_channel_opt.
  cbn [binary_channel]. rewrite ?if_same_nil. cbn [app].
  split.
  - destruct night; cbn [binary_channel app]; rewrite ?app_nil_r; reflexivity.
  - destruct night; cbn [binary_channel app]; reflexivity.
Qed.

(** X20.  One call of the newer [process_packet_] on a buffer that holds
    the bytes it reads (17, or 21 with a pressure block) returns, and gives
    every configured numeric channel other than the precipitation intensity
    exactly one new value: the field of the frame read as a number and
    scaled, or "no reading" when the field is at its sentinel (humidity and
    the rain counter have none; pressure is "no reading" without a pressure
    block).  A channel without a sensor gets nothing. *)
Theorem packet_updates_each_channel_once (cfg : misol_weather.Config)
    (data : list byte) (len : nat) (has_pressure : bool) (now : Z)
    (w : misol_weather.World) :
  (17 <= length data)%nat ->
  (has_pressure = true -> (21 <= length data)%nat) ->
  exists w',
    misol_weather.process_packet_ cfg data len has_pressure now w = Some (tt, w')
    /\ forall s, s <> precipitation_intensity_sensor ->
         channel s (misol_weather.published w')
         = channel s (misol_weather.published w)
           ++ opt (misol_weather.configured cfg s) (shown data has_pressure s).
Proof.
  intros Hlen Hext.
  destruct (misol_weather_decode.process_packet_normal_form cfg data len has_pressure
              now w Hlen Hext)
    as (rate & w1 & night & w' & _ & Hrun & _ & Hlog & _).
  exists w'. split; [exact Hrun|].
  intros s Hs. now rewrite Hlog, channel_app, channel_packet_log.
Qed.

Lemma packet_updates_each_channel_once_witness :
  exists w',
    misol_weather.process_packet_ all_sensors frame_with_pressure 21 true (seconds 1)
      misol_weather.initial_World = Some (tt, w')
    /\ forall s, s <> precipitation_intensity_sensor ->
         channel s (misol_weather.published w')
         = channel s (misol_weather.published misol_weather.initial_World)
           ++ opt (misol_weather.configured all_sensors s)
                (shown frame_with_pressure true s).
Proof.
  apply (packet_updates_each_channel_once all_sensors frame_with_pressure 21 true
           (seconds 1) misol_weather.initial_World).
  - simpl. lia.
  - intros _. simpl. lia.
Defined.

Lemma World_eq (w1 w2 : misol_weather.World) :
  misol_weather.station w1 = misol_weather.station w2 ->
  misol_weather.statics w1 = misol_weather.statics w2 ->
  misol_weather.published w1 = misol_weather.published w2 ->
  w1 = w2.
Proof.
  destruct w1, w2. cbn. intros -> -> ->. reflexivity.
Qed.

Lemma packet_log_agree (cfg : misol_weather.Config) (data data' : list byte)
    (has_pressure : bool) (rate : bool * reading) (night : option bool) :
  (forall i, In i (decoded_bytes has_pressure) -> byte_at data i = byte_at data' i) ->
  packet_log cfg data has_pressure rate night
  = packet_log cfg data' has_pressure rate night
  /\ rain_bits data = rain_bits data'
  /\ uv_bits data = uv_bits data'.
Proof.
  intros Hagree.
  assert (Hmain : forall i, In i [2; 3; 4; 5; 6; 7; 8; 9; 10; 11; 12; 13; 14]%nat ->
                            byte_at data i = byte_at data' i).
  { intros i Hi. apply Hagree. unfold decoded_bytes. apply in_or_app. now left. }
  assert (Hpressure : shown data has_pressure pressure_sensor
                      = shown data' has_pressure pressure_sensor).
  { unfold shown, pressure_bits. destruct has_pressure; [|reflexivity].
    rewrite !(Hagree 17%nat), !(Hagree 18%nat), !(Hagree 19%nat);
      solve [ reflexivity | cbn; auto 20 ]. }
  unfold packet_log. rewrite Hpressure.
  unfold shown, wind_direction_bits, temperature_bits, wind_speed_bits, rain_bits,
    uv_bits, light_bits, flag_bit.
  rewrite !(Hmain 2%nat), !(Hmain 3%nat), !(Hmain 4%nat), !(Hmain 5%nat),
    !(Hmain 6%nat), !(Hmain 7%nat), !(Hmain 8%nat), !(Hmain 9%nat), !(Hmain 10%nat),
    !(Hmain 11%nat), !(Hmain 12%nat), !(Hmain 13%nat), !(Hmain 14%nat);
    solve [ repeat split; reflexivity | cbn; auto 20 ].
Qed.

(** X21.  The newer [process_packet_] reads bytes 2 to 14 of the frame and,
    with a pressure block, bytes 17 to 19, and nothing else: two buffers
    that agree on these bytes give the same publications and the same new
    state, whatever their family code (byte 0), identifier (byte 1), byte 15,
    checksum bytes and length argument are. *)
Theorem undecoded_bytes_ignored (cfg : misol_weather.Config)
    (data data' : list byte) (len len' : nat) (has_pressure : bool) (now : Z)
    (w : misol_weather.World) :
  (17 <= length data)%nat ->
  (17 <= length data')%nat ->
  (has_pressure = true -> (21 <= length data)%nat /\ (21 <= length data')%nat) ->
  (forall i, In i (decoded_bytes has_pressure) -> byte_at data i = byte_at data' i) ->
  misol_weather.process_packet_ cfg data len has_pressure now w
  = misol_weather.process_packet_ cfg data' len' has_pressure now w.
Proof.
  intros Hlen Hlen' Hext Hagree.
  destruct (misol_weather_decode.process_packet_normal_form cfg data len has_pressure
              now w Hlen (fun H => proj1 (Hext H)))
    as (rate & w1 & night & w2 & Hrate & Hrun & Hstation & Hlog & Hnight).
  destruct (misol_weather_decode.process_packet_normal_form cfg data' len' has_pressure
              now w Hlen' (fun H => proj2 (Hext H)))
    as (rate' & w1' & night' & w2' & Hrate' & Hrun' & Hstation' & Hlog' & Hnight').
  destruct (packet_log_agree cfg data data' has_pressure rate night Hagree)
    as (Hsame & Hrain & Huv).
  rewrite Hrun, Hrun'. f_equal. f_equal.
  rewrite <- Hrain, Hrate in Hrate'. injection Hrate' as <- <-.
  unfold night_called in Hnight, Hnight'. rewrite <- Huv in Hnight'.
  assert (Hboth : night = night'
                  /\ misol_weather.statics w2 = misol_weather.statics w2').
  { destruct (misol_weather.night_binary_sensor_ cfg && negb (uv_bits data =? 65535)).
    - destruct Hnight as (v & w_n & Hv & -> & Hs).
      destruct Hnight' as (v' & w_n' & Hv' & -> & Hs').
      rewrite Hv in Hv'. injection Hv' as <- <-. split; congruence.
    - destruct Hnight as (-> & Hs). destruct Hnight' as (-> & Hs').
      split; congruence. }
  destruct Hboth as (<- & Hstatics).
  apply World_eq; [congruence | exact Hstatics | congruence].
Qed.

Lemma undecoded_bytes_ignored_witness :
  misol_weather.process_packet_ all_sensors frame_rain_100 17 false (seconds 1)
    misol_weather.initial_World
  = misol_weather.process_packet_ all_sensors (set_byte 1 x7f frame_bad_checksum) 17
      false (seconds 1) misol_weather.initial_World.
Proof.
  apply (undecoded_bytes_ignored all_sensors frame_rain_100
           (set_byte 1 x7f frame_bad_checksum) 17 17 false (seconds 1)
           misol_weather.initial_World).
  - simpl. lia.
  - simpl. lia.
  - intros H. discriminate H.
  - intros i Hi. simpl in Hi.
    repeat (destruct Hi as [<-|Hi]; [reflexivity|]). destruct Hi.
Defined.

(** X22.  The night channel of the newer version per packet: when the night
    sensor is configured and the UV field is not at its sentinel 0xFFFF the
    packet publishes exactly one night value, the detector is no longer on
    its first run and remembers the value just published; otherwise the
    packet publishes nothing on the night channel and leaves the detector
    (its remembered result and its first-run flag) as it was. *)
Theorem night_channel_of_packet (cfg : misol_weather.Config)
    (data : list byte) (len : nat) (has_pressure : bool) (now : Z)
    (w : misol_weather.World) :
  (17 <= length data)%nat ->
  (has_pressure = true -> (21 <= length data)%nat) ->
  exists w',
    misol_weather.process_packet_ cfg data len has_pressure now w = Some (tt, w')
    /\ if misol_weather.night_binary_sensor_ cfg && negb (uv_bits data =? 0xFFFF)
       then exists v,
              binary_channel night_binary_sensor (misol_weather.published w')
              = binary_channel night_binary_sensor (misol_weather.published w) ++ [v]
              /\ misol_weather.previous_result (misol_weather.statics w') = v
              /\ misol_weather.first_run (misol_weather.statics w') = false
       else binary_channel night_binary_sensor (misol_weather.published w')
            = binary_channel night_binary_sensor (misol_weather.published w)
            /\ misol_weather.statics w' = misol_weather.statics w.
Proof.
  intros Hlen Hext.
  destruct (misol_weather_decode.process_packet_normal_form cfg data len has_pressure
              now w Hlen Hext)
    as (rate & w1 & night & w' & _ & Hrun & _ & Hlog & Hnight).
  exists w'. split; [exact Hrun|].
  destruct (binary_channel_packet_log cfg data has_pressure rate night) as (_ & Hchannel).
  rewrite Hlog, binary_channel_app, Hchannel.
  unfold night_called in Hnight.
  destruct (misol_weather.night_binary_sensor_ cfg && negb (uv_bits data =? 65535)).
  - destruct Hnight as (v & w_n & Hv & -> & Hs).
    exists v. split; [reflexivity|].
    rewrite detect_night_run in Hv. cbv zeta in Hv. injection Hv as Hv <-.
    rewrite Hs. cbn [misol_weather.statics misol_weather.previous_result
                       misol_weather.first_run].
    split; [exact Hv | reflexivity].
  - destruct Hnight as (-> & Hs). rewrite app_nil_r. split; [reflexivity | exact Hs].
Qed.

Lemma night_channel_of_packet_witness :
  exists w',
    misol_weather.process_packet_ all_sensors frame_all_sentinels 17 false (seconds 1)
      misol_weather.initial_World = Some (tt, w')
    /\ binary_channel night_binary_sensor (misol_weather.published w')
       = binary_channel night_binary_sensor
           (misol_weather.published misol_weather.initial_World)
    /\ misol_weather.statics w' = misol_weather.statics misol_weather.initial_World.
Proof.
  apply (night_channel_of_packet all_sensors frame_all_sentinels 17 false (seconds 1)
           misol_weather.initial_World).
  - simpl. lia.
  - intros H. discriminate H.
Defined.

Lemma without_pressure_app (l1 l2 : list publication) :
  without_pressure (l1 ++ l2) = without_pressure l1 ++ without_pressure l2.
Proof.
  apply filter_app.
Qed.

Lemma without_pressure_packet_log (cfg : misol_weather.Config) (data : list byte)
    (rate : bool * reading) (night : option bool) :
  without_pressure (packet_log cfg data true rate night)
  = without_pressure (packet_log cfg data false rate night).
Proof.
  unfold without_pressure, packet_log. rewrite !(filter_app _ (opt _ _)).
  f_equal. destruct (misol_weather.pressure_sensor_ cfg); reflexivity.
Qed.

(** X23.  The [has_pressure] argument of the newer [process_packet_] only
    decides the pressure channel: with and without it the packet leaves the
    same station state and the same night detector, and publishes the same
    values in the same order on every other channel. *)
Theorem pressure_flag_only_decides_pressure (cfg : misol_weather.Config)
    (data : list byte) (len : nat) (now : Z) (w : misol_weather.World) :
  (21 <= length data)%nat ->
  exists w1 w2,
    misol_weather.process_packet_ cfg data len true now w = Some (tt, w1)
    /\ misol_weather.process_packet_ cfg data len false now w = Some (tt, w2)
    /\ misol_weather.station w1 = misol_weather.station w2
    /\ misol_weather.statics w1 = misol_weather.statics w2
    /\ without_pressure (misol_weather.published w1)
       = without_pressure (misol_weather.published w2).
Proof.
  intros Hlen.
  assert (H17 : (17 <= length data)%nat) by lia.
  destruct (misol_weather_decode.process_packet_normal_form cfg data len true
              now w H17 (fun _ => Hlen))
    as (rate & w1 & night & w2 & Hrate & Hrun & Hstation & Hlog & Hnight).
  assert (Hno : false = true -> (21 <= length data)%nat) by discriminate.
  destruct (misol_weather_decode.process_packet_normal_form cfg data len false
              now w H17 Hno)
    as (rate' & w1' & night' & w2' & Hrate' & Hrun' & Hstation' & Hlog' & Hnight').
  exists w2, w2'. split; [exact Hrun|]. split; [exact Hrun'|].
  rewrite Hrate in Hrate'. injection Hrate' as <- <-.
  assert (Hboth : night = night'
                  /\ misol_weather.statics w2 = misol_weather.statics w2').
  { destruct (night_called cfg data).
    - destruct Hnight as (v & w_n & Hv & -> & Hs).
      destruct Hnight' as (v' & w_n' & Hv' & -> & Hs').
      rewrite Hv in Hv'. injection Hv' as <- <-. split; congruence.
    - destruct Hnight as (-> & Hs). destruct Hnight' as (-> & Hs').
      split; congruence. }
  destruct Hboth as (<- & Hstatics).
  split; [congruence|]. split; [exact Hstatics|].
  rewrite Hlog, Hlog', !without_pressure_app.
  f_equal. apply without_pressure_packet_log.
Qed.

Lemma pressure_flag_only_decides_pressure_witness :
  exists w1 w2,
    misol_weather.process_packet_ all_sensors frame_with_pressure 21 true (seconds 1)
      misol_weather.initial_World = Some (tt, w1)
    /\ misol_weather.process_packet_ all_sensors frame_with_pressure 21 false
         (seconds 1) misol_weather.initial_World = Some (tt, w2)
    /\ misol_weather.station w1 = misol_weather.station w2
    /\ misol_weather.statics w1 = misol_weather.statics w2
    /\ without_pressure (misol_weather.published w1)
       = without_pressure (misol_weather.published w2).
Proof.
  apply (pressure_flag_only_decides_pressure all_sensors frame_with_pressure 21
           (seconds 1) misol_weather.initial_World).
  simpl. lia.
Defined.

(** ** One packet through the older [process_packet_] *)

Module misol_decode.
Import misol.

Lemma misol_at_bind {B} (data : list byte) (i : nat) (k : Z -> M World B) (w : World) :
  (i < length data)%nat -> bind (at_ data i) k w = k (byte_at data i) w.
Proof.
  intros Hi. apply bind_Some. now apply at_in_bounds.
Qed.

(** A guarded block that publishes one value [r]. *)
Lemma misol_block {B} (b : bool) (c : M World unit) (s : sensor_id) (r : reading)
    (k : unit -> M World B) (w : World) :
  (forall w0, c w0 = Some (tt, World_publish [Sensor s r] w0)) ->
  bind (when b c) k w = k tt (World_publish (opt b (Sensor s r)) w).
Proof.
  intros Hc. destruct b; cbn [when opt].
  - apply bind_Some. apply Hc.
  - cbn. now rewrite misol_facts.misol_World_publish_nil.
Qed.

Lemma misol_sentinel_publish (x sentinel : Z) (v : Q) (s : sensor_id) (w : World) :
  (if negb (x =? sentinel)
   then publish_state (Sensor s (Val v))
   else publish_state (Sensor s NaN)) w
  = Some (tt, World_publish [Sensor s (sentinel_or sentinel x v)] w).
Proof.
  unfold sentinel_or. destruct (x =? sentinel); reflexivity.
Qed.

Lemma misol_precipitation_update_bind {B} (acc now clock : Z)
    (k : bool * reading -> M World B) (w : World) :
  exists rate f,
    (forall w0, station w0 = station w ->
                precipitation_update acc now clock w0 = Some (rate, World_station f w0))
    /\ bind (precipitation_update acc now clock) k w = k rate (World_station f w).
Proof.
  assert (Hcases :
    exists rate f,
      forall w0, station w0 = station w ->
                 precipitation_update acc now clock w0 = Some (rate, World_station f w0)).
  { destruct (negb (acc =? 65535)) eqn:Hacc.
    - destruct (negb (previos_precipitation_ (station w) =? 65535)) eqn:Hprevios.
      + destruct (s_gt_ms
                    (duration_cast_seconds
                       (now - previos_precipitation_timestamp_ (station w)))
                    PRECIPITATION_INTENSITY_INTERVAL) eqn:Hgt.
        * eexists _, (fun s => State_previos_precipitation_timestamp_ now
                                 (State_previos_precipitation_ acc s)).
          intros w0 Hw0. unfold precipitation_update. rewrite Hacc.
          unfold bind at 1. cbn [gets]. unfold bind at 1. cbn [gets].
          rewrite Hw0, Hprevios. cbn zeta. rewrite Hgt.
          cbn. rewrite ?Hw0. reflexivity.
        * exists (false, NaN), (fun s => s).
          intros w0 Hw0. unfold precipitation_update. rewrite Hacc.
          unfold bind at 1. cbn [gets]. unfold bind at 1. cbn [gets].
          rewrite Hw0, Hprevios. cbn zeta. rewrite Hgt.
          destruct w0. reflexivity.
      + exists (false, NaN),
          (fun s => State_previos_precipitation_timestamp_ clock
                      (State_previos_precipitation_ acc s)).
        intros w0 Hw0. unfold precipitation_update. rewrite Hacc.
        unfold bind at 1. cbn [gets]. unfold bind at 1. cbn [gets].
        rewrite Hw0, Hprevios. reflexivity.
    - exists (true, NaN), (State_previos_precipitation_ 65535).
      intros w0 Hw0. unfold precipitation_update. rewrite Hacc. reflexivity. }
  destruct Hcases as (rate & f & Hrun).
  exists rate, f. split; [exact Hrun|].
  apply bind_Some. now apply Hrun.
Qed.

Lemma misol_block_last (b : bool) (c : M World unit) (s : sensor_id) (r : reading)
    (w : World) :
  (forall w0, c w0 = Some (tt, World_publish [Sensor s r] w0)) ->
  when b c w = Some (tt, World_publish (opt b (Sensor s r)) w).
Proof.
  intros Hc. destruct b; cbn [when opt].
  - apply Hc.
  - cbn. now rewrite misol_facts.misol_World_publish_nil.
Qed.

Lemma misol_publish_bind {B} (p : publication) (k : unit -> M World B) (w : World) :
  bind (publish_state p) k w = k tt (World_publish [p] w).
Proof.
  reflexivity.
Qed.

Lemma uv_index_small (data : list byte) :
  uint8_t (uv_bits data / 400) = uv_bits data / 400.
Proof.
  pose proof (misol_weather_decode.uv_bits_range data) as Hr.
  unfold uint8_t. apply Z.mod_small. split.
  - apply Z.div_pos; lia.
  - apply Z.div_lt_upper_bound; lia.
Qed.

Ltac run_block :=
  intros ?w0; cbv zeta;
  repeat (rewrite misol_at_bind by lia; cbv beta zeta);
  rewrite ?wind_direction_extract, ?temperature_extract, ?wind_speed_extract,
    ?uint8_byte, ?light_extract, ?pressure_extract, ?uv_index_small;
  first [ apply misol_sentinel_publish | reflexivity ].

Lemma misol_process_packet_normal_form (cfg : Config) (data : list byte) (len : nat)
    (has_pressure : bool) (now clock : Z) (w : World) :
  battery_level_binary_sensor_ cfg = true ->
  (17 <= length data)%nat ->
  (has_pressure = true -> (21 <= length data)%nat) ->
  exists rate w1 w',
    precipitation_update (rain_bits data) now clock w = Some (rate, w1)
    /\ process_packet_ cfg data len has_pressure now clock w = Some (tt, w')
    /\ station w' = station w1
    /\ published w' = published w ++ packet_log_old cfg data has_pressure rate.
Proof.
  intros Hbattery Hlen Hext. unfold process_packet_. rewrite Hbattery.
  rewrite (misol_block _ _ pressure_sensor (shown_old data has_pressure pressure_sensor)).
  2:{ destruct has_pressure; [specialize (Hext eq_refl)|]; run_block. }
  rewrite (misol_block _ _ wind_direction_degrees_sensor
             (shown_old data has_pressure wind_direction_degrees_sensor))
    by run_block.
  rewrite misol_at_bind by lia. cbv beta zeta.
  cbn [publish_state_unchecked]. rewrite misol_publish_bind.
  rewrite misol_weather_decode.low_battery_bit.
  rewrite (misol_block _ _ temperature_sensor
             (shown_old data has_pressure temperature_sensor)) by run_block.
  rewrite (misol_block _ _ humidity_sensor
             (shown_old data has_pressure humidity_sensor)) by run_block.
  rewrite (misol_block _ _ wind_speed_sensor
             (shown_old data has_pressure wind_speed_sensor)) by run_block.
  rewrite (misol_block _ _ wind_gust_sensor
             (shown_old data has_pressure wind_gust_sensor)) by run_block.
  rewrite !misol_at_bind by lia. cbv beta zeta.
  rewrite rain_extract.
  match goal with
  | |- context [bind (precipitation_update ?a now clock) ?k ?W] =>
      destruct (misol_precipitation_update_bind a now clock k W)
        as (rate & f & Hrate & Hbind)
  end.
  rewrite Hbind. cbv beta zeta.
  rewrite !misol_facts.misol_when_publish_run.
  rewrite !misol_at_bind by lia. cbv beta zeta.
  rewrite uv_extract.
  rewrite (misol_block _ _ uv_intensity_sensor
             (shown_old data has_pressure uv_intensity_sensor)) by run_block.
  rewrite (misol_block _ _ uv_index_sensor
             (shown_old data has_pressure uv_index_sensor)) by run_block.
  rewrite (misol_block_last _ _ light_sensor
             (shown_old data has_pressure light_sensor)) by run_block.
  exists rate, (World_station f w). eexists.
  split; [apply Hrate; reflexivity|].
  split; [reflexivity|].
  cbn [station published World_publish World_station].
  split; [reflexivity|].
  unfold packet_log_old, opt, shown_old, shown.
  rewrite <- !app_assoc. reflexivity.
Qed.

Lemma misol_process_packet_without_battery (cfg : Config) (data : list byte)
    (len : nat) (has_pressure : bool) (now clock : Z) (w : World) :
  battery_level_binary_sensor_ cfg = false ->
  (17 <= length data)%nat ->
  (has_pressure = true -> (21 <= length data)%nat) ->
  process_packet_ cfg data len has_pressure now clock w = None.
Proof.
  intros Hbattery Hlen Hext. unfold process_packet_. rewrite Hbattery.
  rewrite (misol_block _ _ pressure_sensor (shown_old data has_pressure pressure_sensor)).
  2:{ destruct has_pressure; [specialize (Hext eq_refl)|]; run_block. }
  rewrite (misol_block _ _ wind_direction_degrees_sensor
             (shown_old data has_pressure wind_direction_degrees_sensor))
    by run_block.
  rewrite misol_at_bind by lia. reflexivity.
Qed.

End misol_decode.

(** ** Calls that fail and calls that return *)

Lemma classify_length_bounds (rx : list byte) :
  classify rx <> WRONG_PACKET ->
  (17 <= length rx)%nat
  /\ (PacketType_eqb (classify rx) BASIC_WITH_PRESSURE = true -> (21 <= length rx)%nat).
Proof.
  intros Hacc. split.
  - now apply misol_weather_facts.classify_accepted_length.
  - intros Hp. apply misol_weather_facts.classify_pressure_length.
    now apply misol_weather_facts.PacketType_eqb_eq.
Qed.

Lemma accepted_eqb (rx : list byte) :
  negb (PacketType_eqb (classify rx) WRONG_PACKET) = true <-> classify rx <> WRONG_PACKET.
Proof.
  rewrite negb_true_iff. split.
  - intros H Hc. rewrite Hc in H. discriminate.
  - intros H. destruct (PacketType_eqb (classify rx) WRONG_PACKET) eqn:E; [|reflexivity].
    apply misol_weather_facts.PacketType_eqb_eq in E. contradiction.
Qed.

(** X24.  The older [loop] publishes the battery state through a pointer
    it does not check: a call fails (the null pointer is dereferenced)
    exactly when the bytes received are an accepted frame and no battery
    sensor is configured.  In every other case, with or without the other
    sensors, the call returns. *)
Theorem old_loop_fails_exactly_without_battery_sensor (cfg : misol.Config)
    (now clock : Z) (rx : list byte) (w : misol.World) :
  misol.loop cfg now clock rx w = None
  <-> classify rx <> WRONG_PACKET /\ misol.battery_level_binary_sensor_ cfg = false.
Proof.
  rewrite misol_facts.misol_loop_unfold. cbv zeta.
  destruct (0 <? length rx)%nat eqn:Hsize.
  - destruct (negb (PacketType_eqb (classify rx) WRONG_PACKET)) eqn:Hacc.
    + apply accepted_eqb in Hacc.
      destruct (classify_length_bounds rx Hacc) as (Hlen & Hext).
      destruct (misol.battery_level_binary_sensor_ cfg) eqn:Hbattery.
      * destruct (misol_decode.misol_process_packet_normal_form cfg rx (length rx)
                    (PacketType_eqb (classify rx) BASIC_WITH_PRESSURE) now clock
                    (misol.after_receipt now
                       (if misol.timeout_fires now w
                        then misol.after_timeout cfg w else w))
                    Hbattery Hlen Hext)
          as (rate & w1 & w' & _ & Hrun & _).
        rewrite Hrun. split; [discriminate|]. intros (_ & H). discriminate H.
      * rewrite misol_decode.misol_process_packet_without_battery by assumption.
        split; [now split|reflexivity].
    + split; [discriminate|]. intros (H & _). apply accepted_eqb in H. congruence.
  - split; [discriminate|]. intros (H & _).
    apply misol_weather_facts.classify_accepted_length in H.
    apply Nat.ltb_ge in Hsize. lia.
Qed.


(** ** The two versions on the same frame *)

Lemma channel_packet_log_old (cfg : misol.Config) (data : list byte)
    (has_pressure : bool) (rate : bool * reading) (s : sensor_id) :
  s <> precipitation_intensity_sensor ->
  channel s (packet_log_old cfg data has_pressure rate)
  = opt (misol.configured cfg s) (shown_old data has_pressure s).
Proof.
  intros Hs. unfold packet_log_old.
  rewrite !channel_app, !channel_opt.
  destruct s; try congruence; cbn [channel misol.configured];
    rewrite ?if_same_nil; cbn [app]; rewrite ?app_nil_r; reflexivity.
Qed.

Lemma shown_old_shown (data : list byte) (has_pressure : bool) (s : sensor_id) :
  (s = humidity_sensor -> byte_at data 5 <> 0xFF) ->
  shown_old data has_pressure s = shown data has_pressure s.
Proof.
  intros Hs. destruct s; try reflexivity.
  unfold shown_old, shown, sentinel_or.
  destruct (byte_at data 5 =? 255) eqn:E; [|reflexivity].
  apply Z.eqb_eq in E. now destruct (Hs eq_refl).
Qed.

(** X26.  The two versions decode alike.  On the same buffer both versions
    of [process_packet_] return (the older one needs its battery sensor),
    and on every numeric channel that both or neither have configured they
    publish the same new readings; the exceptions are the precipitation
    intensity and, for a frame whose humidity byte is 0xFF, the humidity. *)
Theorem versions_decode_alike (cfg_old : misol.Config) (cfg_new : misol_weather.Config)
    (data : list byte) (len : nat) (has_pressure : bool) (now clock : Z)
    (w_old : misol.World) (w_new : misol_weather.World) :
  misol.battery_level_binary_sensor_ cfg_old = true ->
  (17 <= length data)%nat ->
  (has_pressure = true -> (21 <= length data)%nat) ->
  exists w_old' w_new',
    misol.process_packet_ cfg_old data len has_pressure now clock w_old
    = Some (tt, w_old')
    /\ misol_weather.process_packet_ cfg_new data len has_pressure now w_new
       = Some (tt, w_new')
    /\ forall s,
         s <> precipitation_intensity_sensor ->
         (s = humidity_sensor -> byte_at data 5 <> 0xFF) ->
         misol.configured cfg_old s = misol_weather.configured cfg_new s ->
         exists readings,
           channel s (misol.published w_old')
           = channel s (misol.published w_old) ++ readings
           /\ channel s (misol_weather.published w_new')
              = channel s (misol_weather.published w_new) ++ readings.
Proof.
  intros Hbattery Hlen Hext.
  destruct (misol_decode.misol_process_packet_normal_form cfg_old data len has_pressure
              now clock w_old Hbattery Hlen Hext)
    as (rate_old & w1_old & w_old' & _ & Hrun_old & _ & Hlog_old).
  destruct (misol_weather_decode.process_packet_normal_form cfg_new data len
              has_pressure now w_new Hlen Hext)
    as (rate_new & w1_new & night & w_new' & _ & Hrun_new & _ & Hlog_new & _).
  exists w_old', w_new'. split; [exact Hrun_old|]. split; [exact Hrun_new|].
  intros s Hs Hhumidity Hconfigured.
  exists (opt (misol_weather.configured cfg_new s) (shown data has_pressure s)).
  rewrite Hlog_old, Hlog_new, !channel_app.
  rewrite channel_packet_log_old, channel_packet_log by exact Hs.
  rewrite Hconfigured, shown_old_shown by exact Hhumidity.
  split; reflexivity.
Qed.

Lemma versions_decode_alike_witness :
  exists w_old' w_new',
    misol.process_packet_ all_sensors_old frame_with_pressure 21 true (seconds 1)
      (seconds 1) fresh_World_old = Some (tt, w_old')
    /\ misol_weather.process_packet_ all_sensors frame_with_pressure 21 true (seconds 1)
         misol_weather.initial_World = Some (tt, w_new')
    /\ forall s,
         s <> precipitation_intensity_sensor ->
         (s = humidity_sensor -> byte_at frame_with_pressure 5 <> 0xFF) ->
         misol.configured all_sensors_old s = misol_weather.configured all_sensors s ->
         exists readings,
           channel s (misol.published w_old')
           = channel s (misol.published fresh_World_old) ++ readings
           /\ channel s (misol_weather.published w_new')
              = channel s (misol_weather.published misol_weather.initial_World)
                ++ readings.
Proof.
  apply (versions_decode_alike all_sensors_old all_sensors frame_with_pressure 21 true
           (seconds 1) (seconds 1) fresh_World_old misol_weather.initial_World).
  - reflexivity.
  - simpl. lia.
  - intros _. simpl. lia.
Defined.

(** ** The span of the readings *)

Lemma flag_bit_range (data : list byte) (n : Z) : 0 <= flag_bit data n <= 1.
Proof.
  unfold flag_bit. destruct (Z.testbit (byte_at data 3) n); cbn; lia.
Qed.

Lemma inject_Z_between (lo x hi : Z) :
  lo <= x <= hi -> (lo # 1 <= inject_Z x <= hi # 1)%Q.
Proof.
  intros [H1 H2]. change (lo # 1) with (inject_Z lo). change (hi # 1) with (inject_Z hi).
  split; now rewrite <- Zle_Qle.
Qed.

Lemma Qdiv_const (x : Q) (c : positive) : (x / (Zpos c # 1) == x * (1 # c))%Q.
Proof.
  reflexivity.
Qed.

Lemma sentinel_or_Val (sentinel bits : Z) (value v : Q) :
  sentinel_or sentinel bits value = Val v -> bits <> sentinel /\ v = value.
Proof.
  unfold sentinel_or. destruct (bits =? sentinel) eqn:E; [discriminate|].
  intros H. injection H as <-. apply Z.eqb_neq in E. now split.
Qed.

Lemma shown_in_span (data : list byte) (has_pressure : bool) (s : sensor_id) (v : Q) :
  s <> precipitation_intensity_sensor ->
  shown data has_pressure s = Val v ->
  (fst (span s) <= v <= snd (span s))%Q.
Proof.
  intros Hs Hv.
  pose proof (byte_at_range data 2). pose proof (byte_at_range data 3).
  pose proof (byte_at_range data 4). pose proof (byte_at_range data 5).
  pose proof (byte_at_range data 6). pose proof (byte_at_range data 7).
  pose proof (byte_at_range data 8). pose proof (byte_at_range data 9).
  pose proof (byte_at_range data 10). pose proof (byte_at_range data 11).
  pose proof (byte_at_range data 12). pose proof (byte_at_range data 13).
  pose proof (byte_at_range data 14). pose proof (byte_at_range data 17).
  pose proof (byte_at_range data 18). pose proof (byte_at_range data 19).
  pose proof (flag_bit_range data 7). pose proof (flag_bit_range data 4).
  pose proof (Z.mod_pos_bound (byte_at data 3) 8 ltac:(lia)).
  destruct s; try congruence; cbn [shown span fst snd] in *.
  - apply sentinel_or_Val in Hv as (Hne & ->).
    assert (Hb : -400 <= temperature_bits data - 400 <= 1646)
      by (unfold temperature_bits in *; lia).
    apply inject_Z_between in Hb. rewrite ?Qdiv_const. lra.
  - injection Hv as <-.
    assert (Hb : 0 <= byte_at data 5 <= 255) by lia.
    apply inject_Z_between in Hb. rewrite ?Qdiv_const. lra.
  - destruct has_pressure; [|discriminate]. injection Hv as <-.
    assert (Hb : 0 <= pressure_bits data <= 16777215) by (unfold pressure_bits; lia).
    apply inject_Z_between in Hb. rewrite ?Qdiv_const. lra.
  - apply sentinel_or_Val in Hv as (Hne & ->).
    assert (Hb : 0 <= wind_speed_bits data <= 510)
      by (unfold wind_speed_bits in *; lia).
    apply inject_Z_between in Hb. rewrite ?Qdiv_const. lra.
  - apply sentinel_or_Val in Hv as (Hne & ->).
    assert (Hb : 0 <= byte_at data 7 <= 254) by lia.
    apply inject_Z_between in Hb. rewrite ?Qdiv_const. lra.
  - apply sentinel_or_Val in Hv as (Hne & ->).
    assert (Hb : 0 <= wind_direction_bits data <= 510)
      by (unfold wind_direction_bits in *; lia).
    apply inject_Z_between in Hb. rewrite ?Qdiv_const. lra.
  - injection Hv as <-.
    assert (Hb : 0 <= rain_bits data <= 65535) by (unfold rain_bits; lia).
    apply inject_Z_between in Hb. rewrite ?Qdiv_const. lra.
  - apply sentinel_or_Val in Hv as (Hne & ->).
    assert (Hb : 0 <= uv_bits data <= 65534) by (unfold uv_bits in *; lia).
    apply inject_Z_between in Hb. rewrite ?Qdiv_const. lra.
  - apply sentinel_or_Val in Hv as (Hne & ->).
    assert (Hb : 0 <= uv_bits data / 400 <= 163).
    { pose proof (misol_weather_decode.uv_bits_range data) as Hr. split.
      - apply Z.div_pos; lia.
      - apply Z.lt_succ_r. apply Z.div_lt_upper_bound; lia. }
    apply inject_Z_between in Hb. exact Hb.
  - apply sentinel_or_Val in Hv as (Hne & ->).
    assert (Hb : 0 <= light_bits data <= 16777214) by (unfold light_bits in *; lia).
    apply inject_Z_between in Hb. rewrite ?Qdiv_const. lra.
Qed.


